(** * rental-ai-agent: the data store and the tool layer

    A shallow embedding of [src/rental_agent/mock_db.py] (class
    [MockDatabase]) and of the tool functions of
    [src/rental_agent/agent.py], with the properties the specification
    states about them and further properties of the code.

    Conventions of the embedding.
    - Python [str] is [string] (a sequence of 8-bit characters); the text
      handled here is ASCII, and [str.lower], [str.strip] and [int] are
      modelled on ASCII text.
    - Python [dict] is a [gmap] with [string] keys: the order of its items
      is not kept, and nothing here depends on it. A Python value that is
      passed around untyped ([**kwargs], the session state, a response
      payload) is a [pyval]; an argument with a type hint has that type.
    - A Python [float] is an exact rational [Q], SQLite's [REAL] likewise,
      and arithmetic on them is exact; on the seed data (integral rents,
      averages with two binary digits) IEEE doubles give the same.
    - The SQLite tables are lists of rows in storage (insertion) order.
      A value is kept in a column as it was bound, which is what SQLite
      does for a value of the column's declared type; the connection never
      turns foreign keys on, so that they are not enforced.
    - What the Python runtime supplies during one call (the clock, the
      generated uuid, [str()] of a value) is read from a [runtime].
    - A Python exception that leaves a function is the [Raise] outcome of
      [result]; it does not tell in which state the call was left. *)

From stdpp Require Import gmap strings list.
From Stdlib Require Import ZArith QArith Qminmax Ascii DecimalString Sorted Lia Lqa.
From Stdlib Require String.

Set Warnings "-register-all".

Local Open Scope Z_scope.

(** ** Python string operations *)

Module PyString.

(** [c.lower()] for one ASCII character. *)
Definition lower_char (c : ascii) : ascii :=
  let n := N_of_ascii c in
  if ((65 <=? n) && (n <=? 90))%N then ascii_of_N (n + 32) else c.

(** [s.lower()] *)
Fixpoint lower (s : string) : string :=
  match s with
  | EmptyString => EmptyString
  | String c s' => String (lower_char c) (lower s')
  end.

(** The ASCII characters [str.strip()] treats as white space: tab, line
    feed, vertical tab, form feed, carriage return, the four separators
    28..31 and the space. *)
Definition is_space (c : ascii) : bool :=
  let n := N_of_ascii c in
  (((9 <=? n) && (n <=? 13)) || ((28 <=? n) && (n <=? 32)))%N.

Fixpoint lstrip (s : string) : string :=
  match s with
  | EmptyString => EmptyString
  | String c s' => if is_space c then lstrip s' else s
  end.

Fixpoint rstrip (s : string) : string :=
  match s with
  | EmptyString => EmptyString
  | String c s' =>
      match rstrip s' with
      | EmptyString => if is_space c then EmptyString else String c EmptyString
      | r => String c r
      end
  end.

(** [s.strip()] *)
Definition strip (s : string) : string := rstrip (lstrip s).

(** [needle in hay] *)
Fixpoint contains (needle hay : string) : bool :=
  match hay with
  | EmptyString => String.prefix needle hay
  | String _ hay' => String.prefix needle hay || contains needle hay'
  end.

(** [s.replace(old, new)] for a non-empty [old]: occurrences are replaced
    from the left and do not overlap. [skip] counts the characters of the
    occurrence just replaced that are still to be dropped. *)
Fixpoint replace_from (old new : string) (skip : nat) (s : string) : string :=
  match s with
  | EmptyString => EmptyString
  | String c s' =>
      match skip with
      | S k => replace_from old new k s'
      | O =>
          if String.prefix old s
          then new +:+ replace_from old new (Nat.pred (String.length old)) s'
          else String c (replace_from old new O s')
      end
  end.

Definition replace (old new s : string) : string := replace_from old new O s.

(** [s.split(sep)] for a one-character separator: never empty. *)
Fixpoint split (sep : ascii) (s : string) : list string :=
  match s with
  | EmptyString => [EmptyString]
  | String c s' =>
      let rest := split sep s' in
      if Ascii.eqb c sep then EmptyString :: rest
      else match rest with
           | h :: t => String c h :: t
           | [] => [String c EmptyString]
           end
  end.

Definition digit_of (c : ascii) : option Z :=
  let n := N_of_ascii c in
  if ((48 <=? n) && (n <=? 57))%N then Some (Z.of_N (n - 48)) else None.

(** The digits of an [int()] literal: decimal digits, with single
    underscores allowed between two digits. [after_digit] tells whether the
    previous character was a digit. *)
Fixpoint digits_value (acc : Z) (after_digit : bool) (s : string) : option Z :=
  match s with
  | EmptyString => if after_digit then Some acc else None
  | String c s' =>
      match digit_of c with
      | Some d => digits_value (10 * acc + d) true s'
      | None =>
          if Ascii.eqb c "_" && after_digit
          then digits_value acc false s'
          else None
      end
  end.

(** The ASCII characters [int()] skips around a literal: tab, line feed,
    vertical tab, form feed, carriage return and the space, but not the
    separators 28..31, which [str.strip()] removes. *)
Definition is_int_space (c : ascii) : bool :=
  let n := N_of_ascii c in
  (((9 <=? n) && (n <=? 13)) || (n =? 32))%N.

Fixpoint int_lstrip (s : string) : string :=
  match s with
  | EmptyString => EmptyString
  | String c s' => if is_int_space c then int_lstrip s' else s
  end.

Fixpoint int_rstrip (s : string) : string :=
  match s with
  | EmptyString => EmptyString
  | String c s' =>
      match int_rstrip s' with
      | EmptyString => if is_int_space c then EmptyString else String c EmptyString
      | r => String c r
      end
  end.

(** [int(s)]: [None] stands for the [ValueError] of a malformed literal.
    (CPython's limit on the number of digits is not modelled.) *)
Definition py_int (s : string) : option Z :=
  match int_rstrip (int_lstrip s) with
  | String "+" r => digits_value 0 false r
  | String "-" r => Z.opp <$> digits_value 0 false r
  | t => digits_value 0 false t
  end.

(** [f"{z}"] *)
Definition format_d (z : Z) : string := NilZero.string_of_int (Z.to_int z).

(** [f"{z:02d}"]: zero padding to a width of two characters, the sign
    included. *)
Definition format_02d (z : Z) : string :=
  let s := format_d z in
  if (String.length s <? 2)%nat then String "0" s else s.

End PyString.
Import PyString.

(** ** Python values, SQLite values, exceptions *)

(** An untyped Python value, as far as the tools handle them. *)
Inductive pyval :=
| PyNone
| PyBool (b : bool)
| PyInt (z : Z)
| PyFloat (q : Q)
| PyStr (s : string)
| PyDict (d : gmap string pyval)
| PyList (l : list pyval).

#[global] Instance pyval_inhabited : Inhabited pyval := populate PyNone.

(** Truth value of a Python value ([if v:], [not v]). *)
Definition truthy (v : pyval) : bool :=
  match v with
  | PyNone => false
  | PyBool b => b
  | PyInt z => negb (z =? 0)
  | PyFloat q => negb (Qnum q =? 0)
  | PyStr s => negb (String.eqb s "")
  | PyDict d => negb (Nat.eqb (size d) 0)
  | PyList l => negb (Nat.eqb (length l) 0)
  end.

(** An optional argument of the tool layer as a Python value. *)
Definition py_str (o : option string) : pyval := from_option PyStr PyNone o.
Definition py_bool (o : option bool) : pyval := from_option PyBool PyNone o.
Definition py_int_opt (o : option Z) : pyval := from_option PyInt PyNone o.
Definition py_float (o : option Q) : pyval := from_option PyFloat PyNone o.

(** A value in a SQLite column: one of the four storage classes used here.
    Type affinity (SQLite converting, say, an integer bound to a [TEXT]
    column into its decimal text) is not modelled: a value is stored with
    the class it was bound with. The tool layer binds values of the column's
    declared type. *)
Inductive sqlval :=
| Null
| Integer (z : Z)
| Real (q : Q)
| Text (s : string).

Inductive exn :=
| IntegrityError   (* sqlite3.IntegrityError: UNIQUE or NOT NULL failed *)
| BindingError     (* a parameter sqlite3 cannot bind: OverflowError for an
                      int beyond 64 bits, an error of sqlite3 for a dict or
                      a list *)
| AttributeError.  (* a method called on a value that does not have it *)

Inductive result (A : Type) :=
| Ok (a : A)
| Raise (e : exn).
Arguments Ok {A} a.
Arguments Raise {A} e.

#[global] Instance result_ret : MRet result := @Ok.
#[global] Instance result_bind : MBind result := fun A B f m =>
  match m with
  | Ok a => f a
  | Raise e => Raise e
  end.

(** Binding a Python value as a statement parameter. *)
Definition bind_param (v : pyval) : result sqlval :=
  match v with
  | PyNone => Ok Null
  | PyBool b => Ok (Integer (if b then 1 else 0))
  | PyInt z =>
      if (- 2 ^ 63 <=? z) && (z <? 2 ^ 63) then Ok (Integer z)
      else Raise BindingError
  | PyFloat q => Ok (Real q)
  | PyStr s => Ok (Text s)
  | PyDict _ | PyList _ => Raise BindingError
  end.

(** Binding all the values of a [SET] clause. *)
Fixpoint bind_params (l : list (string * pyval)) : result (list (string * sqlval)) :=
  match l with
  | [] => Ok []
  | (k, v) :: l' =>
      b ← bind_param v;
      bs ← bind_params l';
      Ok ((k, b) :: bs)
  end.

(** A fetched column value as a Python value. *)
Definition to_py (v : sqlval) : pyval :=
  match v with
  | Null => PyNone
  | Integer z => PyInt z
  | Real q => PyFloat q
  | Text s => PyStr s
  end.

Definition sql_text (o : option string) : sqlval := from_option Text Null o.

(** SQL [a = b] as a [WHERE] condition: [NULL] never matches; numbers are
    compared by value, text byte-wise. *)
Definition sql_eq (a b : sqlval) : bool :=
  match a, b with
  | Integer x, Integer y => x =? y
  | Integer x, Real y | Real y, Integer x => Qeq_bool (inject_Z x) y
  | Real x, Real y => Qeq_bool x y
  | Text x, Text y => String.eqb x y
  | _, _ => false
  end.

(** What the Python runtime supplies during one call. *)
Record runtime := {
  now : string;            (* datetime.datetime.now().isoformat() *)
  uuid4 : string;          (* str(uuid.uuid4()) *)
  date_after : nat -> string;
    (* (datetime.date.today() + datetime.timedelta(days=n)).strftime("%Y-%m-%d") *)
  str_of : pyval -> string (* str(v), as an f-string renders it *)
}.

(** ** The data store ([MockDatabase]) *)

(** One module per table of [_create_tables]; a [row] has the table's
    columns, in their order. The amenities table is not part of this
    development. *)

Module Apartments.
Record row := {
  id : Z;
  unit_number : string;
  apartment_type : string;
  floor_plan : option string;
  square_feet : option Z;
  bedrooms : Z;
  bathrooms : Q;
  rent_amount : Q;
  is_available : Z;
  available_date : option string;
  features : option string
}.
End Apartments.

Module Users.
Record row := {
  id : Z;
  user_id : string;
  name : sqlval;
  phone : sqlval;
  email : sqlval;
  move_in_date : sqlval;
  preferred_apartment_type : sqlval;
  has_pets : sqlval;
  income : sqlval;
  credit_score : sqlval;
  notes : sqlval;
  created_at : string;
  last_contact : sqlval
}.
End Users.

Module Tours.
Record row := {
  id : Z;
  user_id : sqlval;
  tour_date : string;
  tour_time : string;
  apartment_id : sqlval;
  is_virtual : Z;
  status : string;
  notes : sqlval
}.
End Tours.

Record database := {
  apartments : list Apartments.row;
  users : list Users.row;
  tours : list Tours.row
}.

(** The rowid SQLite gives a row inserted without one: one more than the
    largest in the table, 1 in an empty table. *)
Definition next_rowid (ids : list Z) : Z := 1 + foldr Z.max 0 ids.

(** [_populate_initial_data]: the apartment units. *)
Definition apartments_data : list Apartments.row :=
  let apt i u ty fp sq bd ba rent av date feat :=
    {| Apartments.id := i; Apartments.unit_number := u;
       Apartments.apartment_type := ty; Apartments.floor_plan := Some fp;
       Apartments.square_feet := Some sq; Apartments.bedrooms := bd;
       Apartments.bathrooms := ba; Apartments.rent_amount := rent;
       Apartments.is_available := av; Apartments.available_date := Some date;
       Apartments.features := Some feat |} in
  [ apt 101 "101" "1_bedroom" "Maple" 750 1 1%Q 1600%Q 1 "2025-07-01" "Corner unit, extra windows";
    apt 102 "102" "1_bedroom" "Maple" 750 1 1%Q 1600%Q 1 "2025-07-15" "Updated kitchen";
    apt 103 "103" "1_bedroom" "Cedar" 780 1 1%Q 1650%Q 0 "2025-06-01" "Balcony, park view";
    apt 201 "201" "1_bedroom" "Cedar" 780 1 1%Q 1650%Q 0 "2025-08-01" "Extra closet space";
    apt 301 "301" "2_bedroom" "Birch" 1050 2 2%Q 2100%Q 1 "2025-07-01" "Corner unit, city view";
    apt 302 "302" "2_bedroom" "Birch" 1050 2 2%Q 2100%Q 1 "2025-07-01" "Updated bathrooms";
    apt 401 "401" "2_bedroom" "Aspen" 1100 2 2%Q 2200%Q 0 "2025-06-15" "Premium finishes";
    apt 402 "402" "2_bedroom" "Aspen" 1100 2 2%Q 2200%Q 0 "2025-09-01" "Penthouse floor" ].

(** The store as [MockDatabase()] leaves it. *)
Definition initial_db : database :=
  {| apartments := apartments_data; users := []; tours := [] |}.

(** [dict(zip(columns, row))] for a row of [apartments]. *)
Definition apartment_dict (a : Apartments.row) : gmap string pyval :=
  list_to_map
    [ ("id", PyInt (Apartments.id a));
      ("unit_number", PyStr (Apartments.unit_number a));
      ("apartment_type", PyStr (Apartments.apartment_type a));
      ("floor_plan", py_str (Apartments.floor_plan a));
      ("square_feet", py_int_opt (Apartments.square_feet a));
      ("bedrooms", PyInt (Apartments.bedrooms a));
      ("bathrooms", PyFloat (Apartments.bathrooms a));
      ("rent_amount", PyFloat (Apartments.rent_amount a));
      ("is_available", PyInt (Apartments.is_available a));
      ("available_date", py_str (Apartments.available_date a));
      ("features", py_str (Apartments.features a)) ].

(** The rows [get_available_apartments] selects:
    [WHERE is_available = 1 [AND apartment_type = ?] [AND available_date <= ?]].
    A condition is added for an argument that is truthy; text is compared
    byte-wise; a [NULL] date fails the comparison. *)
Definition available_rows (apartment_type move_in_date : option string)
    (db : database) : list Apartments.row :=
  List.filter (fun a =>
      (Apartments.is_available a =? 1)
      && (if truthy (py_str apartment_type)
          then sql_eq (Text (Apartments.apartment_type a)) (sql_text apartment_type)
          else true)
      && (if truthy (py_str move_in_date)
          then match Apartments.available_date a, move_in_date with
               | Some d, Some bound => String.leb d bound
               | _, _ => false
               end
          else true))
    (apartments db).

(** [get_available_apartments] *)
Definition get_available_apartments (apartment_type move_in_date : option string)
    (db : database) : list (gmap string pyval) :=
  apartment_dict <$> available_rows apartment_type move_in_date db.

(** [get_apartment_by_id]: the dict of the row with that id, the empty dict
    when there is none. *)
Definition get_apartment_by_id (apartment_id : pyval) (db : database)
    : result (gmap string pyval) :=
  key ← bind_param apartment_id;
  match List.filter (fun a => sql_eq (Integer (Apartments.id a)) key)
          (apartments db) with
  | a :: _ => Ok (apartment_dict a)
  | [] => Ok ∅
  end.

(** [has_pets], read back by [get_user]: a non-null flag becomes a bool. *)
Definition has_pets_py (v : sqlval) : pyval :=
  match v with
  | Null => PyNone
  | _ => PyBool (truthy (to_py v))
  end.

(** [dict(zip(columns, row))] for a row of [users], with [has_pets]
    converted as [get_user] does. *)
Definition user_dict (u : Users.row) : gmap string pyval :=
  list_to_map
    [ ("id", PyInt (Users.id u));
      ("user_id", PyStr (Users.user_id u));
      ("name", to_py (Users.name u));
      ("phone", to_py (Users.phone u));
      ("email", to_py (Users.email u));
      ("move_in_date", to_py (Users.move_in_date u));
      ("preferred_apartment_type", to_py (Users.preferred_apartment_type u));
      ("has_pets", has_pets_py (Users.has_pets u));
      ("income", to_py (Users.income u));
      ("credit_score", to_py (Users.credit_score u));
      ("notes", to_py (Users.notes u));
      ("created_at", PyStr (Users.created_at u));
      ("last_contact", to_py (Users.last_contact u)) ].

(** [WHERE user_id = ?] *)
Definition user_matches (key : sqlval) (u : Users.row) : bool :=
  sql_eq (Text (Users.user_id u)) key.

(** [create_user]: the [INSERT] fails on the [UNIQUE] constraint when the
    generated identifier is already in the table. *)
Definition create_user (rt : runtime)
    (name phone email move_in_date preferred_apartment_type : option string)
    (has_pets : option bool) (db : database) : result (database * string) :=
  let user_id := uuid4 rt in
  let current_time := now rt in
  if existsb (user_matches (Text user_id)) (users db)
  then Raise IntegrityError
  else
    let new :=
      {| Users.id := next_rowid (Users.id <$> users db);
         Users.user_id := user_id;
         Users.name := sql_text name;
         Users.phone := sql_text phone;
         Users.email := sql_text email;
         Users.move_in_date := sql_text move_in_date;
         Users.preferred_apartment_type := sql_text preferred_apartment_type;
         Users.has_pets :=
           match has_pets with
           | Some true => Integer 1
           | Some false => Integer 0
           | None => Null
           end;
         Users.income := Null;
         Users.credit_score := Null;
         Users.notes := Null;
         Users.created_at := current_time;
         Users.last_contact := Text current_time |} in
    Ok ({| apartments := apartments db;
           users := users db ++ [new];
           tours := tours db |}, user_id).

(** [get_user] *)
Definition get_user (user_id : pyval) (db : database)
    : result (gmap string pyval) :=
  key ← bind_param user_id;
  match List.filter (user_matches key) (users db) with
  | u :: _ => Ok (user_dict u)
  | [] => Ok ∅
  end.

(** The field names [update_user] writes as they come. *)
Definition updatable : list string :=
  ["name"; "phone"; "email"; "move_in_date"; "preferred_apartment_type";
   "income"; "credit_score"; "notes"].

(** One round of the loop over [kwargs.items()]: the parameter appended for
    [key], if the key contributes a [key = ?] to the [SET] clause. *)
Definition set_param (key : string) (value : pyval) : option pyval :=
  if existsb (String.eqb key) updatable then Some value
  else if String.eqb key "has_pets"
          && match value with PyNone => false | _ => true end
       then Some (PyInt (if truthy value then 1 else 0))
       else None.

(** The [SET] clause with its parameters, by column. *)
Definition set_clause (kwargs : gmap string pyval) : gmap string pyval :=
  map_imap set_param kwargs.

(** [UPDATE users SET ..., last_contact = ?] on one row. A column takes
    the value as it was bound. That is what SQLite stores for a value of
    the column's declared type ([well_typed] below); a value of another
    type SQLite may convert on the way (a number into a text column
    becomes its text), which is not modelled: the statements about written
    values are about values of the column's type. *)
Definition apply_set (assignments : gmap string sqlval) (stamp : sqlval)
    (u : Users.row) : Users.row :=
  let col c old := default old (assignments !! c) in
  {| Users.id := Users.id u;
     Users.user_id := Users.user_id u;
     Users.name := col "name" (Users.name u);
     Users.phone := col "phone" (Users.phone u);
     Users.email := col "email" (Users.email u);
     Users.move_in_date := col "move_in_date" (Users.move_in_date u);
     Users.preferred_apartment_type :=
       col "preferred_apartment_type" (Users.preferred_apartment_type u);
     Users.has_pets := col "has_pets" (Users.has_pets u);
     Users.income := col "income" (Users.income u);
     Users.credit_score := col "credit_score" (Users.credit_score u);
     Users.notes := col "notes" (Users.notes u);
     Users.created_at := Users.created_at u;
     Users.last_contact := stamp |}.

(** [update_user]: the boolean is [cursor.rowcount > 0]. *)
Definition update_user (rt : runtime) (user_id : pyval)
    (kwargs : gmap string pyval) (db : database) : result (database * bool) :=
  if Nat.eqb (size kwargs) 0 then Ok (db, false)
  else
    let clause := set_clause kwargs in
    if Nat.eqb (size clause) 0 then Ok (db, false)
    else
      bound ← bind_params (map_to_list clause);
      stamp ← bind_param (PyStr (now rt));
      key ← bind_param user_id;
      let assignments : gmap string sqlval := list_to_map bound in
      let rowcount := length (List.filter (user_matches key) (users db)) in
      Ok ({| apartments := apartments db;
             users := (fun u => if user_matches key u
                                then apply_set assignments stamp u else u)
                      <$> users db;
             tours := tours db |},
          bool_decide (0 < rowcount)%nat).

(** The [INSERT] of [schedule_tour]; [user_id] is [NOT NULL]. *)
Definition insert_tour (user_id : pyval) (tour_date tour_time : string)
    (apartment_id : pyval) (is_virtual : bool) (notes : option string)
    (db : database) : result (database * Z) :=
  uid ← bind_param user_id;
  apt ← bind_param apartment_id;
  match uid with
  | Null => Raise IntegrityError
  | _ =>
      let lastrowid := next_rowid (Tours.id <$> tours db) in
      let new :=
        {| Tours.id := lastrowid;
           Tours.user_id := uid;
           Tours.tour_date := tour_date;
           Tours.tour_time := tour_time;
           Tours.apartment_id := apt;
           Tours.is_virtual := if is_virtual then 1 else 0;
           Tours.status := "Scheduled";
           Tours.notes := sql_text notes |} in
      Ok ({| apartments := apartments db;
             users := users db;
             tours := tours db ++ [new] |}, lastrowid)
  end.

(** [schedule_tour]: the tour id, or -1 when the insertion raised. *)
Definition schedule_tour (user_id : pyval) (tour_date tour_time : string)
    (apartment_id : pyval) (is_virtual : bool) (notes : option string)
    (db : database) : database * Z :=
  match insert_tour user_id tour_date tour_time apartment_id is_virtual notes db with
  | Ok r => r
  | Raise _ => (db, -1)
  end.

(** One entry of the dict [get_pricing_info] returns: the keys
    ["min_rent"], ["max_rent"], ["avg_rent"] and ["count"]. *)
Record pricing := {
  min_rent : Q;
  max_rent : Q;
  avg_rent : Q;
  count : Z
}.

(** The running aggregate of one group: SQLite's [AVG] keeps the sum and the
    number of rows, and divides at the end. *)
Record aggregate := {
  agg_min : Q;
  agg_max : Q;
  agg_sum : Q;
  agg_count : Z
}.

Definition agg_step (rent : Q) (o : option aggregate) : option aggregate :=
  Some match o with
       | None => {| agg_min := rent; agg_max := rent; agg_sum := rent; agg_count := 1 |}
       | Some g => {| agg_min := Qmin (agg_min g) rent;
                      agg_max := Qmax (agg_max g) rent;
                      agg_sum := (agg_sum g + rent)%Q;
                      agg_count := agg_count g + 1 |}
       end.

(** The row of a group. [AVG] is the exact quotient here; SQLite computes
    it in double precision, which gives the same on the seed data (integral
    rents) and may differ in the last digits elsewhere, so that statements
    about averages are about the seed data. *)
Definition agg_final (g : aggregate) : pricing :=
  {| min_rent := agg_min g;
     max_rent := agg_max g;
     avg_rent := (agg_sum g / inject_Z (agg_count g))%Q;
     count := agg_count g |}.

(** [... GROUP BY apartment_type] over a list of rows. *)
Definition group_by_type (rows : list Apartments.row) : gmap string aggregate :=
  foldl (fun groups a =>
           partial_alter (agg_step (Apartments.rent_amount a))
             (Apartments.apartment_type a) groups)
        ∅ rows.

(** [get_pricing_info]: no condition on [is_available]. *)
Definition get_pricing_info (apartment_type : option string) (db : database)
    : gmap string pricing :=
  let rows :=
    if truthy (py_str apartment_type)
    then List.filter (fun a => sql_eq (Text (Apartments.apartment_type a))
                                 (sql_text apartment_type))
           (apartments db)
    else apartments db in
  agg_final <$> group_by_type rows.

(** ** The tool layer *)

(** [ToolContext]: the session state, which may be missing ([None]). *)
Record ToolContext := { state : option (gmap string pyval) }.

(** "Ensure state exists": the state a tool works on, if it was given a
    context at all. *)
Definition ensure_state (tool_context : option ToolContext)
    : option (gmap string pyval) :=
  ctx ← tool_context; Some (default ∅ (state ctx)).

(** The context as the tool leaves it. *)
Definition context_of (st : option (gmap string pyval)) : option ToolContext :=
  (fun s => {| state := Some s |}) <$> st.

(** The block "Format date if provided" of [query_apartments] and of
    [manage_user]. Their [except] clauses differ, but nothing in the block
    raises on a [str]. *)
Definition formatted_move_in_date (move_in_date : option string) : option string :=
  match move_in_date with
  | Some d =>
      if truthy (PyStr d) then
        if String.eqb (lower d) "july" then Some "2025-07-01"
        else if String.eqb (lower d) "august" then Some "2025-08-01"
        else None
      else None
  | None => None
  end.

(** The loop "Count by type". *)
Definition count_by_type (rows : list Apartments.row) : gmap string Z :=
  foldl (fun counts a =>
           let apt_type := Apartments.apartment_type a in
           <[apt_type := default 0 (counts !! apt_type) + 1]> counts)
        ∅ rows.

(** [query_apartments] *)
Definition query_apartments (apartment_type move_in_date : option string)
    (tool_context : option ToolContext) (db : database)
    : option ToolContext * gmap string pyval :=
  let st := ensure_state tool_context in
  let formatted_date := formatted_move_in_date move_in_date in
  let rows := available_rows apartment_type formatted_date db in
  let apartments := get_available_apartments apartment_type formatted_date db in
  let counts := PyDict (PyInt <$> count_by_type rows) in
  let st' :=
    (fun s =>
       <["last_apartment_search" :=
           PyDict (list_to_map
             [ ("apartment_type", py_str apartment_type);
               ("move_in_date", py_str move_in_date);
               ("formatted_date", py_str formatted_date);
               ("result_count", PyInt (Z.of_nat (length apartments)));
               ("counts_by_type", counts) ])]> s) <$> st in
  (context_of st',
   list_to_map
     [ ("status", PyStr "success");
       ("available_count", PyInt (Z.of_nat (length apartments)));
       ("counts_by_type", counts);
       ("apartments", PyList (PyDict <$> apartments)) ]).

(** [d[k] = v] when the condition holds. *)
Definition set_if (cond : bool) (k : string) (v : pyval)
    (d : gmap string pyval) : gmap string pyval :=
  if cond then <[k := v]> d else d.

(** The dict [update_fields] of the [update] action. *)
Definition update_fields (name phone email formatted_date
    preferred_apartment_type : option string) (has_pets : option bool)
    (income : option Q) (credit_score : option Z) (notes : option string)
    : gmap string pyval :=
  set_if (truthy (py_str notes)) "notes" (py_str notes)
  (set_if (truthy (py_int_opt credit_score)) "credit_score" (py_int_opt credit_score)
  (set_if (truthy (py_float income)) "income" (py_float income)
  (set_if (bool_decide (has_pets ≠ None)) "has_pets" (py_bool has_pets)
  (set_if (truthy (py_str preferred_apartment_type))
          "preferred_apartment_type" (py_str preferred_apartment_type)
  (set_if (truthy (py_str formatted_date)) "move_in_date" (py_str formatted_date)
  (set_if (truthy (py_str email)) "email" (py_str email)
  (set_if (truthy (py_str phone)) "phone" (py_str phone)
  (set_if (truthy (py_str name)) "name" (py_str name) ∅)))))))).

(** [state['current_user_id']], when there is a context and the key is in
    its state. *)
Definition session_user (st : option (gmap string pyval)) : option pyval :=
  st ≫= (fun s => s !! "current_user_id").

(** The identifier the [update] and [get] actions work on: the argument,
    or the session's [current_user_id] when the argument is falsy. *)
Definition resolve_user_id (user_id : option string)
    (st : option (gmap string pyval)) : pyval :=
  if truthy (py_str user_id) then py_str user_id
  else default (py_str user_id) (session_user st).

Definition error_payload (message : string) : gmap string pyval :=
  list_to_map [ ("status", PyStr "error"); ("message", PyStr message) ].

(** The [update] action refreshing the snapshot under ["user_info"], when
    the state has one: [.update(update_fields)], then the literal
    [move_in_date] as it was given. *)
Definition merge_user_info (fields : gmap string pyval)
    (move_in_date : option string) (st : option (gmap string pyval))
    : result (option (gmap string pyval)) :=
  match st with
  | None => Ok None
  | Some s =>
      match s !! "user_info" with
      | None => Ok (Some s)
      | Some (PyDict info) =>
          let info' :=
            set_if (truthy (py_str move_in_date)) "move_in_date"
              (py_str move_in_date) (fields ∪ info) in
          Ok (Some (<["user_info" := PyDict info']> s))
      | Some _ => Raise AttributeError
      end
  end.

(** [manage_user] *)
Definition manage_user (rt : runtime) (action : string) (user_id : option string)
    (name phone email move_in_date preferred_apartment_type : option string)
    (has_pets : option bool) (income : option Q) (credit_score : option Z)
    (notes : option string) (tool_context : option ToolContext) (db : database)
    : result (option ToolContext * database * gmap string pyval) :=
  let st := ensure_state tool_context in
  let formatted_date := formatted_move_in_date move_in_date in
  if String.eqb action "create" then
    '(db', user_id) ← create_user rt name phone email formatted_date
                        preferred_apartment_type has_pets db;
    if truthy (PyStr user_id) then
      let st' :=
        (fun s =>
           <["user_info" :=
               PyDict (list_to_map
                 [ ("user_id", PyStr user_id);
                   ("name", py_str name);
                   ("phone", py_str phone);
                   ("email", py_str email);
                   ("move_in_date", py_str move_in_date);
                   ("formatted_move_in_date", py_str formatted_date);
                   ("preferred_apartment_type", py_str preferred_apartment_type);
                   ("has_pets", py_bool has_pets) ])]>
             (<["current_user_id" := PyStr user_id]> s)) <$> st in
      Ok (context_of st', db',
          list_to_map
            [ ("status", PyStr "success");
              ("user_id", PyStr user_id);
              ("message", PyStr "User created successfully") ])
    else
      Ok (context_of st, db', error_payload "Failed to create user")
  else if String.eqb action "update" then
    let user_id := resolve_user_id user_id st in
    if negb (truthy user_id) then
      Ok (context_of st, db, error_payload "No user ID provided for update")
    else
      let fields := update_fields name phone email formatted_date
                      preferred_apartment_type has_pets income credit_score
                      notes in
      '(db', success) ← update_user rt user_id fields db;
      if success : bool then
        st' ← merge_user_info fields move_in_date st;
        Ok (context_of st', db',
            list_to_map
              [ ("status", PyStr "success");
                ("message", PyStr "User updated successfully") ])
      else
        Ok (context_of st, db',
            error_payload "Failed to update user information")
  else if String.eqb action "get" then
    let user_id := resolve_user_id user_id st in
    if negb (truthy user_id) then
      Ok (context_of st, db,
          error_payload "No user ID provided to retrieve user information")
    else
      user ← get_user user_id db;
      if truthy (PyDict user) then
        Ok (context_of ((fun s => <["user_info" := PyDict user]> s) <$> st), db,
            list_to_map [ ("status", PyStr "success"); ("user", PyDict user) ])
      else
        Ok (context_of st, db,
            error_payload ("No user found with ID " +:+ str_of rt user_id))
  else
    Ok (context_of st, db, error_payload ("Unknown action: " +:+ action)).

(** The block "Format date" of [schedule_property_tour]. *)
Definition parse_date (rt : runtime) (tour_date : string) : string :=
  if String.eqb (lower tour_date) "tomorrow" then date_after rt 1
  else if String.eqb (lower tour_date) "next week" then date_after rt 7
  else tour_date.

(** The hour of a [pm] literal and of an [am] literal on the 24-hour clock. *)
Definition pm_hour (hour : Z) : Z := if hour =? 12 then hour else hour + 12.
Definition am_hour (hour : Z) : Z := if hour =? 12 then 0 else hour.

(** The block "Format time" of [schedule_property_tour]; [None] when the
    block raises (the [int] of a malformed hour), which the tool turns
    into the "Could not parse tour time" payload. *)
Definition parse_time (tour_time : string) : option string :=
  if contains "pm" (lower tour_time) then
    match split ":" (strip (replace "pm" "" (lower tour_time))) with
    | [part] =>
        hour ← py_int part;
        Some (format_d (pm_hour hour) +:+ ":00")
    | part :: minutes :: _ =>
        hour ← py_int part;
        Some (format_d (pm_hour hour) +:+ ":" +:+ minutes)
    | [] => None
    end
  else if contains "am" (lower tour_time) then
    match split ":" (strip (replace "am" "" (lower tour_time))) with
    | [part] =>
        hour ← py_int part;
        Some (format_02d (am_hour hour) +:+ ":00")
    | part :: minutes :: _ =>
        hour ← py_int part;
        Some (format_02d (am_hour hour) +:+ ":" +:+ minutes)
    | [] => None
    end
  else Some tour_time.

(** The unit of the tour: the one asked for, or, when only a type is given,
    the first available unit of that type in storage order, if any. *)
Definition choose_apartment (apartment_id : option Z)
    (apartment_type : option string) (db : database) : pyval :=
  if negb (truthy (py_int_opt apartment_id)) && truthy (py_str apartment_type)
  then match available_rows apartment_type None db with
       | a :: _ => PyInt (Apartments.id a)
       | [] => py_int_opt apartment_id
       end
  else py_int_opt apartment_id.

(** [schedule_property_tour] *)
Definition schedule_property_tour (rt : runtime) (tour_date tour_time : string)
    (is_virtual : bool) (apartment_id : option Z)
    (apartment_type notes : option string)
    (tool_context : option ToolContext) (db : database)
    : result (option ToolContext * database * gmap string pyval) :=
  let st := ensure_state tool_context in
  let user_id := default PyNone (session_user st) in
  if negb (truthy user_id) then
    Ok (context_of st, db,
        error_payload "No user identified. Please provide user information first.")
  else
    let formatted_date := parse_date rt tour_date in
    match parse_time tour_time with
    | None =>
        Ok (context_of st, db,
            error_payload ("Could not parse tour time: " +:+ tour_time))
    | Some formatted_time =>
        let apartment_id := choose_apartment apartment_id apartment_type db in
        let '(db', tour_id) :=
          schedule_tour user_id formatted_date formatted_time apartment_id
            is_virtual notes db in
        if 0 <? tour_id then
          let st' :=
            (fun s =>
               <["last_scheduled_tour" :=
                   PyDict (list_to_map
                     [ ("tour_id", PyInt tour_id);
                       ("tour_date", PyStr formatted_date);
                       ("tour_time", PyStr formatted_time);
                       ("apartment_id", apartment_id);
                       ("apartment_type", py_str apartment_type);
                       ("is_virtual", PyBool is_virtual) ])]> s) <$> st in
          apartment_details ←
            (if truthy apartment_id then
               apartment ← get_apartment_by_id apartment_id db';
               if truthy (PyDict apartment) then
                 Ok (PyDict (list_to_map
                   [ ("unit_number", apartment !!! "unit_number");
                     ("apartment_type", apartment !!! "apartment_type");
                     ("floor_plan", apartment !!! "floor_plan");
                     ("bedrooms", apartment !!! "bedrooms");
                     ("bathrooms", apartment !!! "bathrooms") ]))
               else Ok PyNone
             else Ok PyNone);
          Ok (context_of st', db',
              list_to_map
                [ ("status", PyStr "success");
                  ("tour_id", PyInt tour_id);
                  ("tour_date", PyStr formatted_date);
                  ("tour_time", PyStr formatted_time);
                  ("is_virtual", PyBool is_virtual);
                  ("apartment_details", apartment_details);
                  ("message", PyStr "Tour scheduled successfully") ])
        else
          Ok (context_of st, db', error_payload "Failed to schedule tour")
    end.

(** ** Notions the statements use *)

(** A time of the 12-hour clock as a caller writes it: the hour with or
    without a leading zero, optionally [:MM], then the marker. *)
Definition digit_char (d : nat) : ascii := ascii_of_nat (48 + d).

Definition two_digits (n : nat) : string :=
  String (digit_char (n / 10)) (String (digit_char (n mod 10)) EmptyString).

Definition clock12_literal (padded : bool) (h : nat) (minutes : option nat)
    (marker : string) : string :=
  (if padded then two_digits h else format_d (Z.of_nat h))
  +:+ match minutes with
      | Some m => ":" +:+ two_digits m
      | None => ""
      end
  +:+ marker.

(** The same time on the 24-hour clock, as [HH:MM]: 12 am is hour 0 and
    12 pm is hour 12. *)
Definition clock24 (pm : bool) (h : nat) (minutes : option nat) : string :=
  two_digits (h mod 12 + if pm then 12 else 0)
  +:+ ":" +:+ two_digits (default 0%nat minutes).

Definition markers (pm : bool) : list string :=
  if pm then ["pm"; "PM"; "Pm"; " pm"; " PM"] else ["am"; "AM"; "Am"; " am"; " AM"].

(** [parse_time] run on every 12-hour literal. *)
Definition parse_time_agrees (pm padded : bool) (h : nat) (minutes : option nat)
    (marker : string) : bool :=
  match parse_time (clock12_literal padded h minutes marker) with
  | Some t => String.eqb t (clock24 pm h minutes)
  | None => false
  end.

Definition parse_time_table (pm : bool) : bool :=
  forallb (fun h =>
    forallb (fun minutes =>
      forallb (fun padded =>
        forallb (parse_time_agrees pm padded h minutes) (markers pm))
        [false; true])
      (None :: (Some <$> seq 0 60)))
    (seq 1 12).

(** The store after a booking. *)
Definition booked (db : database) (t : Tours.row) : database :=
  {| apartments := apartments db; users := users db; tours := tours db ++ [t] |}.

(** Sample values for the examples: readings of the runtime, a context
    with no state yet, a session in which a prospect is identified. *)
Definition sample_runtime : runtime :=
  {| now := "2025-06-01T10:00:00";
     uuid4 := "3f2b8c1e-0000-4000-8000-000000000001";
     date_after := fun n => if Nat.eqb n 1 then "2025-06-02" else "2025-06-08";
     str_of := fun v => match v with PyStr s => s | _ => "" end |}.

Definition fresh_context : option ToolContext := Some {| state := None |}.

Definition identified_context : option ToolContext :=
  Some {| state := Some {[ "current_user_id" :=
                            PyStr "3f2b8c1e-0000-4000-8000-000000000001" ]} |}.

(** A store whose units are those of [db] with other availability flags. *)
Definition with_availability (flag : Apartments.row -> Z) (db : database) : database :=
  {| apartments :=
       (fun a =>
          {| Apartments.id := Apartments.id a;
             Apartments.unit_number := Apartments.unit_number a;
             Apartments.apartment_type := Apartments.apartment_type a;
             Apartments.floor_plan := Apartments.floor_plan a;
             Apartments.square_feet := Apartments.square_feet a;
             Apartments.bedrooms := Apartments.bedrooms a;
             Apartments.bathrooms := Apartments.bathrooms a;
             Apartments.rent_amount := Apartments.rent_amount a;
             Apartments.is_available := flag a;
             Apartments.available_date := Apartments.available_date a;
             Apartments.features := Apartments.features a |})
       <$> apartments db;
     users := users db;
     tours := tours db |}.

(** The units of a type among some rows, available or not. *)
Definition of_type (ty : string) (rows : list Apartments.row) : list Apartments.row :=
  List.filter (fun a => String.eqb (Apartments.apartment_type a) ty) rows.

(** The sum of the rents of some units. *)
Definition rent_sum (rows : list Apartments.row) : Q :=
  foldr (fun a acc => (Apartments.rent_amount a + acc)%Q) 0%Q rows.

(** What a group holds after the rows of its type have been folded in. *)
Definition summarizes (g : aggregate) (sel : list Apartments.row) : Prop :=
  sel <> []
  /\ agg_count g = Z.of_nat (length sel)
  /\ (agg_sum g == rent_sum sel)%Q
  /\ Forall (fun a => (agg_min g <= Apartments.rent_amount a)%Q
                      /\ (Apartments.rent_amount a <= agg_max g)%Q) sel
  /\ Exists (fun a => (Apartments.rent_amount a == agg_min g)%Q) sel
  /\ Exists (fun a => (Apartments.rent_amount a == agg_max g)%Q) sel.

(** The value a parameter is bound to, [Null] standing in where
    [bind_param] raises. *)
Definition sql_of (v : pyval) : sqlval :=
  match bind_param v with
  | Ok b => b
  | Raise _ => Null
  end.

Definition bindable (v : pyval) : Prop := exists b, bind_param v = Ok b.

(** A column of [users] by its name, for the columns [update_user] can
    write. *)
Definition column (c : string) (u : Users.row) : sqlval :=
  if String.eqb c "name" then Users.name u
  else if String.eqb c "phone" then Users.phone u
  else if String.eqb c "email" then Users.email u
  else if String.eqb c "move_in_date" then Users.move_in_date u
  else if String.eqb c "preferred_apartment_type" then Users.preferred_apartment_type u
  else if String.eqb c "has_pets" then Users.has_pets u
  else if String.eqb c "income" then Users.income u
  else if String.eqb c "credit_score" then Users.credit_score u
  else if String.eqb c "notes" then Users.notes u
  else Null.

(** The [users] table after [UPDATE ... WHERE user_id = key]. *)
Definition updated_users (key : sqlval) (assignments : gmap string sqlval)
    (stamp : sqlval) (us : list Users.row) : list Users.row :=
  (fun u => if user_matches key u then apply_set assignments stamp u else u) <$> us.

(** The field names [update_user] knows. *)
Definition recognized (k : string) : Prop := k ∈ updatable \/ k = "has_pets".


(** A store with one prospect, who has pets and was last contacted in May. *)
Definition one_prospect_db : database :=
  {| apartments := apartments_data;
     users :=
       [ {| Users.id := 1;
            Users.user_id := "3f2b8c1e-0000-4000-8000-000000000001";
            Users.name := Text "Mark";
            Users.phone := Null;
            Users.email := Null;
            Users.move_in_date := Text "2025-07-01";
            Users.preferred_apartment_type := Text "1_bedroom";
            Users.has_pets := Integer 1;
            Users.income := Null;
            Users.credit_score := Null;
            Users.notes := Null;
            Users.created_at := "2025-05-01T09:00:00";
            Users.last_contact := Text "2025-05-01T09:00:00" |} ];
     tours := [] |}.



(** The row [create_user] inserts. *)
Definition created_row (rt : runtime)
    (name phone email move_in_date preferred_apartment_type : option string)
    (has_pets : option bool) (db : database) : Users.row :=
  {| Users.id := next_rowid (Users.id <$> users db);
     Users.user_id := uuid4 rt;
     Users.name := sql_text name;
     Users.phone := sql_text phone;
     Users.email := sql_text email;
     Users.move_in_date := sql_text move_in_date;
     Users.preferred_apartment_type := sql_text preferred_apartment_type;
     Users.has_pets := match has_pets with
                       | Some true => Integer 1
                       | Some false => Integer 0
                       | None => Null
                       end;
     Users.income := Null;
     Users.credit_score := Null;
     Users.notes := Null;
     Users.created_at := now rt;
     Users.last_contact := Text (now rt) |}.

(** The generated identifier is not yet in the store. *)
Definition fresh_id (rt : runtime) (db : database) : Prop :=
  Forall (fun u => Users.user_id u <> uuid4 rt) (users db).

(** The snapshot [manage_user] keeps under ["user_info"], if the state has
    a dict there. *)
Definition user_info (ctx : option ToolContext) : option (gmap string pyval) :=
  match ensure_state ctx ≫= (fun s => s !! "user_info") with
  | Some (PyDict info) => Some info
  | _ => None
  end.

(** The columns the [update] action must not blank. *)
Definition guarded_columns : list string :=
  ["name"; "phone"; "email"; "notes"; "income"; "credit_score"].

(** Row [u'] has, in each guarded column, the value of [u] or a value that
    is neither empty, nor zero, nor null. *)
Definition not_blanked (u u' : Users.row) : Prop :=
  forall c, c ∈ guarded_columns ->
    column c u' = column c u \/ truthy (to_py (column c u')) = true.

(** ** The rest of the store and of the tool layer *)

(** The table [property_amenities]. Only [_populate_initial_data] writes
    it, and every row it writes has all columns set; the functions that
    read it take the table as an argument. *)
Module Amenities.
Record row := {
  id : Z;
  amenity_name : string;
  description : string;
  category : string;
  fee_amount : Q;
  is_included : Z
}.
End Amenities.

(** [_populate_initial_data]: the property amenities. *)
Definition amenities_data : list Amenities.row :=
  let am i n d c fee inc :=
    {| Amenities.id := i; Amenities.amenity_name := n;
       Amenities.description := d; Amenities.category := c;
       Amenities.fee_amount := fee; Amenities.is_included := inc |} in
  [ am 1 "Dog-friendly" "Dogs allowed" "Pets" 50%Q 1;
    am 2 "Cat-friendly" "Cats allowed" "Pets" 30%Q 1;
    am 3 "Fitness Center" "24-hour access fitness center" "Building" 0%Q 1;
    am 4 "Pool" "Outdoor pool with sundeck" "Recreation" 0%Q 1;
    am 5 "Parking" "Covered parking" "Transportation" 75%Q 0;
    am 6 "In-unit Washer/Dryer" "Washer and dryer in each unit" "In-unit" 0%Q 1;
    am 7 "Package Lockers" "24-hour package pickup lockers" "Building" 0%Q 1;
    am 8 "High-speed Internet" "Fiber internet ready" "Technology" 0%Q 1;
    am 9 "Security System" "24-hour security monitoring" "Safety" 0%Q 1;
    am 10 "Bike Storage" "Indoor bike storage area" "Transportation" 0%Q 1 ].

(** [dict(zip(columns, row))] for a row of [property_amenities]. *)
Definition amenity_dict (m : Amenities.row) : gmap string pyval :=
  list_to_map
    [ ("id", PyInt (Amenities.id m));
      ("amenity_name", PyStr (Amenities.amenity_name m));
      ("description", PyStr (Amenities.description m));
      ("category", PyStr (Amenities.category m));
      ("fee_amount", PyFloat (Amenities.fee_amount m));
      ("is_included", PyInt (Amenities.is_included m)) ].

(** The rows [get_amenities] selects: all of them, or, for a truthy
    [category], [WHERE category = ?]. *)
Definition amenity_rows (category : option string)
    (property_amenities : list Amenities.row) : list Amenities.row :=
  if truthy (py_str category)
  then List.filter (fun m => sql_eq (Text (Amenities.category m))
                               (sql_text category)) property_amenities
  else property_amenities.

(** [get_amenities] *)
Definition get_amenities (category : option string)
    (property_amenities : list Amenities.row) : list (gmap string pyval) :=
  amenity_dict <$> amenity_rows category property_amenities.

(** [FROM tours t LEFT JOIN apartments a ON t.apartment_id = a.id] for one
    tour: the tour with each unit of that id, or with no unit at all. *)
Definition tour_join (db : database) (t : Tours.row)
    : list (Tours.row * option Apartments.row) :=
  match List.filter (fun a => sql_eq (Tours.apartment_id t)
                                (Integer (Apartments.id a))) (apartments db) with
  | [] => [(t, None)]
  | units => (fun a => (t, Some a)) <$> units
  end.

(** [ORDER BY t.tour_date, t.tour_time]: text is compared byte-wise. *)
Definition tour_leb (x y : Tours.row * option Apartments.row) : bool :=
  match String.compare (Tours.tour_date x.1) (Tours.tour_date y.1) with
  | Lt => true
  | Eq => String.leb (Tours.tour_time x.1) (Tours.tour_time y.1)
  | Gt => false
  end.

Definition tour_le (x y : Tours.row * option Apartments.row) : Prop :=
  tour_leb x y = true.

(** Sorting by insertion, from the last row to the first: a row is put
    before the first row that is not before it, so that rows with equal
    date and time stay in storage order, as SQLite lists them. *)
Fixpoint place_row (x : Tours.row * option Apartments.row)
    (l : list (Tours.row * option Apartments.row))
    : list (Tours.row * option Apartments.row) :=
  match l with
  | [] => [x]
  | y :: l' => if tour_leb x y then x :: y :: l' else y :: place_row x l'
  end.

Definition order_rows (l : list (Tours.row * option Apartments.row))
    : list (Tours.row * option Apartments.row) :=
  foldr place_row [] l.

(** The rows of the query of [get_user_tours]. *)
Definition user_tour_rows (key : sqlval) (db : database)
    : list (Tours.row * option Apartments.row) :=
  order_rows
    (List.filter (fun t => sql_eq (Tours.user_id t) key) (tours db)
     ≫= tour_join db).

(** [dict(zip(columns, row))] for a row of that query, with [is_virtual]
    converted to a bool. *)
Definition tour_dict (r : Tours.row * option Apartments.row) : gmap string pyval :=
  list_to_map
    [ ("id", PyInt (Tours.id r.1));
      ("user_id", to_py (Tours.user_id r.1));
      ("tour_date", PyStr (Tours.tour_date r.1));
      ("tour_time", PyStr (Tours.tour_time r.1));
      ("apartment_id", to_py (Tours.apartment_id r.1));
      ("is_virtual", PyBool (truthy (PyInt (Tours.is_virtual r.1))));
      ("status", PyStr (Tours.status r.1));
      ("notes", to_py (Tours.notes r.1));
      ("unit_number", from_option (fun a => PyStr (Apartments.unit_number a)) PyNone r.2);
      ("apartment_type",
       from_option (fun a => PyStr (Apartments.apartment_type a)) PyNone r.2);
      ("floor_plan", from_option (fun a => py_str (Apartments.floor_plan a)) PyNone r.2) ].

(** [get_user_tours] *)
Definition get_user_tours (user_id : pyval) (db : database)
    : result (list (gmap string pyval)) :=
  key ← bind_param user_id;
  Ok (tour_dict <$> user_tour_rows key db).

(** The loop of [get_property_policies] over the pet amenities: the key is
    the part of the name before the first hyphen, stripped, in lower case;
    a later amenity of the same key replaces the earlier one. *)
Definition animal_type (amenity_name : string) : string :=
  lower (strip (default "" (head (split "-" amenity_name)))).

Definition pet_policies (pet_amenities : list Amenities.row) : gmap string pyval :=
  foldl (fun policies m =>
           <[animal_type (Amenities.amenity_name m) :=
               PyDict (list_to_map
                 [ ("allowed", PyBool (Amenities.is_included m =? 1));
                   ("fee", PyFloat (Amenities.fee_amount m));
                   ("description", PyStr (Amenities.description m)) ])]> policies)
        ∅ pet_amenities.

(** The price range reported for one type; [round_2] is Python's
    [round(x, 2)] on floats. *)
Definition pricing_range (round_2 : Q -> Q) (info : pricing) : pyval :=
  PyDict (list_to_map
    [ ("min", PyFloat (min_rent info));
      ("max", PyFloat (max_rent info));
      ("average", PyFloat (round_2 (avg_rent info))) ]).

(** [get_property_policies] *)
Definition get_property_policies (round_2 : Q -> Q)
    (tool_context : option ToolContext)
    (property_amenities : list Amenities.row) (db : database)
    : option ToolContext * gmap string pyval :=
  let st := ensure_state tool_context in
  let pet_amenities := amenity_rows (Some "Pets") property_amenities in
  let pricing_ranges := pricing_range round_2 <$> get_pricing_info None db in
  let availability := PyInt <$> count_by_type (available_rows None None db) in
  let result : gmap string pyval :=
    list_to_map
      [ ("status", PyStr "success");
        ("pet_policies", PyDict (pet_policies pet_amenities));
        ("pricing_ranges", PyDict pricing_ranges);
        ("availability", PyDict availability) ] in
  (context_of ((fun s => <["property_policies" := PyDict result]> s) <$> st),
   result).

(** [get_apartment_details] *)
Definition get_apartment_details (round_2 : Q -> Q) (apartment_id : option Z)
    (apartment_type : option string) (tool_context : option ToolContext)
    (db : database) : result (option ToolContext * gmap string pyval) :=
  let st := ensure_state tool_context in
  result ←
    (if truthy (py_int_opt apartment_id) then
       apartment ← get_apartment_by_id (py_int_opt apartment_id) db;
       if truthy (PyDict apartment) then
         Ok (list_to_map [ ("status", PyStr "success");
                           ("apartment", PyDict apartment) ])
       else
         Ok (error_payload ("No apartment found with ID "
                            +:+ format_d (default 0 apartment_id)))
     else if truthy (py_str apartment_type) then
       let ty := default "" apartment_type in
       match get_pricing_info apartment_type db !! ty with
       | Some info =>
           Ok (list_to_map [ ("status", PyStr "success");
                             ("apartment_type", PyStr ty);
                             ("pricing", pricing_range round_2 info) ])
       | None =>
           Ok (error_payload ("No pricing information found for " +:+ ty))
       end
     else
       Ok (list_to_map
             [ ("status", PyStr "success");
               ("pricing_by_type",
                PyDict ((fun info =>
                           PyDict (list_to_map
                             [ ("min_rent", PyFloat (min_rent info));
                               ("max_rent", PyFloat (max_rent info));
                               ("avg_rent", PyFloat (avg_rent info));
                               ("count", PyInt (count info)) ]))
                        <$> get_pricing_info None db)) ]));
  Ok (context_of ((fun s => <["last_apartment_details" := PyDict result]> s) <$> st),
      result).

(** The loop "Organize by category" of [get_amenities_info]. *)
Definition by_category (amenities : list Amenities.row)
    : gmap string (list Amenities.row) :=
  foldl (fun groups m =>
           let cat := Amenities.category m in
           <[cat := default [] (groups !! cat) ++ [m]]> groups)
        ∅ amenities.

(** [get_amenities_info] *)
Definition get_amenities_info (category : option string)
    (tool_context : option ToolContext)
    (property_amenities : list Amenities.row)
    : option ToolContext * gmap string pyval :=
  let st := ensure_state tool_context in
  let rows := amenity_rows category property_amenities in
  let amenities := get_amenities category property_amenities in
  let st' :=
    (fun s =>
       <["last_amenities_query" :=
           PyDict (list_to_map
             [ ("category", py_str category);
               ("result_count", PyInt (Z.of_nat (length amenities))) ])]> s)
    <$> st in
  (context_of st',
   list_to_map
     [ ("status", PyStr "success");
       ("amenities_count", PyInt (Z.of_nat (length amenities)));
       ("amenities", PyList (PyDict <$> amenities));
       ("categories",
        PyDict ((fun group => PyList (PyDict ∘ amenity_dict <$> group))
                <$> by_category rows)) ]).

(** The table [virtual_tours] of [get_virtual_tour]. *)
Definition virtual_tours : gmap string string :=
  list_to_map
    [ ("1_bedroom", "https://photos.app.goo.gl/tzHkairchH2cBTQq6");
      ("2_bedroom", "https://photos.app.goo.gl/w9ARXbSUDza57eFS6") ].

(** [get_virtual_tour] *)
Definition get_virtual_tour (apartment_type : string) : gmap string pyval :=
  match virtual_tours !! apartment_type with
  | Some link =>
      list_to_map [ ("status", PyStr "success");
                    ("tour_link", PyStr link);
                    ("apartment_type", PyStr apartment_type) ]
  | None =>
      error_payload ("No virtual tour available for " +:+ apartment_type)
  end.


(** ** Notions the further statements use *)

(** A 64-bit integer, as SQLite stores them. *)
Definition int64 (z : Z) : Prop := - 2 ^ 63 <= z < 2 ^ 63.

(** What the constraints of the tables and the way rows are inserted keep
    true of a store: identifiers of prospects are unique, row ids are
    unique and positive, every booking has the status "Scheduled" and a
    prospect identifier, and the units are those of the seed data. *)
Record well_formed (db : database) : Prop := {
  wf_user_ids : NoDup (Users.user_id <$> users db);
  wf_user_rowids : NoDup (Users.id <$> users db);
  wf_user_rowids_pos : Forall (fun i => 0 < i) (Users.id <$> users db);
  wf_tour_rowids : NoDup (Tours.id <$> tours db);
  wf_tour_rowids_pos : Forall (fun i => 0 < i) (Tours.id <$> tours db);
  wf_tours : Forall (fun t => Tours.status t = "Scheduled"
                              /\ Tours.user_id t <> Null) (tours db);
  wf_apartments : apartments db = apartments_data
}.

(** One call that may change the store: an operation of the store or a
    tool, when it returns. *)
Inductive store_step (db : database) : database -> Prop :=
| step_create_user rt name phone email move_in_date ty has_pets db' uid :
    create_user rt name phone email move_in_date ty has_pets db = Ok (db', uid) ->
    store_step db db'
| step_update_user rt user_id kwargs db' ok :
    update_user rt user_id kwargs db = Ok (db', ok) ->
    store_step db db'
| step_schedule_tour user_id tour_date tour_time apartment_id is_virtual notes
    db' tour_id :
    schedule_tour user_id tour_date tour_time apartment_id is_virtual notes db
    = (db', tour_id) ->
    store_step db db'
| step_manage_user rt action user_id name phone email move_in_date ty has_pets
    income credit_score notes tool_context ctx' db' payload :
    manage_user rt action user_id name phone email move_in_date ty has_pets
      income credit_score notes tool_context db = Ok (ctx', db', payload) ->
    store_step db db'
| step_schedule_property_tour rt tour_date tour_time is_virtual apartment_id
    apartment_type notes tool_context ctx' db' payload :
    schedule_property_tour rt tour_date tour_time is_virtual apartment_id
      apartment_type notes tool_context db = Ok (ctx', db', payload) ->
    store_step db db'.

(** What [get_user] reads back for a value [update_user] has written. *)
Definition read_back (v : pyval) : pyval := to_py (sql_of v).

(** The sum of the counts of a [counts_by_type] dict. *)
Definition total_count (counts : gmap string Z) : Z :=
  map_fold (fun _ n acc => n + acc) 0 counts.

(** The amenities of a category among some rows. *)
Definition of_category (cat : string) (rows : list Amenities.row) : list Amenities.row :=
  List.filter (fun m => String.eqb (Amenities.category m) cat) rows.

(** The block "Get apartment details if available" of
    [schedule_property_tour], for the unit reference [chosen]. *)
Definition tour_apartment_details (chosen : pyval) (db : database) : result pyval :=
  if truthy chosen then
    apartment ← get_apartment_by_id chosen db;
    if truthy (PyDict apartment) then
      Ok (PyDict (list_to_map
            [ ("unit_number", apartment !!! "unit_number");
              ("apartment_type", apartment !!! "apartment_type");
              ("floor_plan", apartment !!! "floor_plan");
              ("bedrooms", apartment !!! "bedrooms");
              ("bathrooms", apartment !!! "bathrooms") ]))
    else Ok PyNone
  else Ok PyNone.

(** The row a successful [schedule_property_tour] inserts. *)
Definition tour_row (rt : runtime) (uid : sqlval) (tour_date formatted_time : string)
    (apt : sqlval) (is_virtual : bool) (notes : option string) (db : database)
    : Tours.row :=
  {| Tours.id := next_rowid (Tours.id <$> tours db);
     Tours.user_id := uid;
     Tours.tour_date := parse_date rt tour_date;
     Tours.tour_time := formatted_time;
     Tours.apartment_id := apt;
     Tours.is_virtual := if is_virtual then 1 else 0;
     Tours.status := "Scheduled";
     Tours.notes := sql_text notes |}.


(** The context a tool leaves when it records [payload] under [key] in the
    session state, if it was given a context. *)
Definition remembered (key : string) (payload : gmap string pyval)
    (tool_context : option ToolContext) : option ToolContext :=
  context_of ((fun s => <[key := PyDict payload]> s) <$> ensure_state tool_context).

(** The entry of [pet_policies] an amenity of the category "Pets" gives. *)
Definition pet_policy (m : Amenities.row) : pyval :=
  PyDict (list_to_map
    [ ("allowed", PyBool (Amenities.is_included m =? 1));
      ("fee", PyFloat (Amenities.fee_amount m));
      ("description", PyStr (Amenities.description m)) ]).

(** The amenities among some rows whose name gives the key [animal]. *)
Definition for_animal (animal : string) (rows : list Amenities.row)
    : list Amenities.row :=
  List.filter (fun m => String.eqb (animal_type (Amenities.amenity_name m)) animal)
    rows.

(** A value of the type its column is declared with: a str for the text
    columns, a float for [income], a 64-bit int for [credit_score], or
    [None]. SQLite stores such a value as it is bound. *)
Definition well_typed (c : string) (v : pyval) : Prop :=
  match v with
  | PyNone => True
  | PyStr _ => c ∈ ["name"; "phone"; "email"; "move_in_date";
                    "preferred_apartment_type"; "notes"]
  | PyFloat _ => c = "income"
  | PyInt z => c = "credit_score" /\ int64 z
  | _ => False
  end.

(** * Properties *)

(** ** Time literals *)

Lemma parse_time_table_true pm : parse_time_table pm = true.
Proof. destruct pm; vm_compute; reflexivity. Qed.

Lemma parse_time_clock12 pm padded h minutes marker :
  (1 <= h <= 12)%nat ->
  (forall m, minutes = Some m -> (m < 60)%nat) ->
  In marker (markers pm) ->
  parse_time (clock12_literal padded h minutes marker) = Some (clock24 pm h minutes).
Proof.
  intros Hh Hm Hmk.
  pose proof (parse_time_table_true pm) as T. unfold parse_time_table in T.
  rewrite forallb_forall in T.
  specialize (T h). rewrite in_seq in T. specialize (T ltac:(lia)).
  rewrite forallb_forall in T. specialize (T minutes).
  assert (In minutes (None :: (Some <$> seq 0 60))) as Hin.
  { destruct minutes as [m|]; [right | now left].
    apply in_map. apply in_seq. specialize (Hm m eq_refl). lia. }
  specialize (T Hin). rewrite forallb_forall in T.
  specialize (T padded ltac:(destruct padded; simpl; auto)).
  rewrite forallb_forall in T. specialize (T marker Hmk).
  unfold parse_time_agrees in T.
  destruct (parse_time _) as [t|]; [|discriminate].
  apply String.eqb_eq in T. now subst.
Qed.

Lemma parse_time_passthrough tour_time :
  contains "pm" (lower tour_time) = false ->
  contains "am" (lower tour_time) = false ->
  parse_time tour_time = Some tour_time.
Proof. intros Hpm Ham. unfold parse_time. now rewrite Hpm, Ham. Qed.

(** ** The tour-scheduling tool *)

Lemma next_rowid_pos ids : 0 < next_rowid ids.
Proof.
  unfold next_rowid.
  assert (0 <= foldr Z.max 0 ids) by (induction ids; simpl; lia).
  lia.
Qed.

Lemma truthy_str s : s <> "" -> truthy (PyStr s) = true.
Proof.
  intros Hs. simpl. destruct (String.eqb_spec s ""); [contradiction | reflexivity].
Qed.

(** With an identified prospect, a time that parses and a unit reference
    that can be bound, the tool books the tour and reports success. *)
Lemma schedule_property_tour_books rt tour_date tour_time is_virtual
    apartment_id apartment_type notes tool_context db s uid formatted_time apt :
  ensure_state tool_context = Some s ->
  s !! "current_user_id" = Some (PyStr uid) ->
  uid <> "" ->
  parse_time tour_time = Some formatted_time ->
  bind_param (choose_apartment apartment_id apartment_type db) = Ok apt ->
  exists ctx' payload,
    schedule_property_tour rt tour_date tour_time is_virtual apartment_id
      apartment_type notes tool_context db
    = Ok (ctx',
          booked db
            {| Tours.id := next_rowid (Tours.id <$> tours db);
               Tours.user_id := Text uid;
               Tours.tour_date := parse_date rt tour_date;
               Tours.tour_time := formatted_time;
               Tours.apartment_id := apt;
               Tours.is_virtual := if is_virtual then 1 else 0;
               Tours.status := "Scheduled";
               Tours.notes := sql_text notes |},
          payload)
    /\ payload !! "status" = Some (PyStr "success")
    /\ payload !! "tour_date" = Some (PyStr (parse_date rt tour_date))
    /\ payload !! "tour_time" = Some (PyStr formatted_time)
    /\ (apt = Null -> payload !! "apartment_details" = Some PyNone).
Proof.
  intros Hst Hid Hne Htime Hapt.
  unfold schedule_property_tour, session_user.
  rewrite Hst. simpl. rewrite Hid. simpl default.
  rewrite (truthy_str _ Hne). simpl negb. cbv iota.
  rewrite Htime.
  unfold schedule_tour, insert_tour. simpl. rewrite Hapt. simpl.
  pose proof (next_rowid_pos (Tours.id <$> tours db)) as Hpos.
  apply Z.ltb_lt in Hpos. rewrite Hpos.
  destruct (truthy (choose_apartment apartment_id apartment_type db)) eqn:Htr.
  - unfold get_apartment_by_id. rewrite Hapt. simpl.
    assert (apt <> Null) as Hnn.
    { intros ->. destruct (choose_apartment _ _ _) as [| | z | | | |];
        simpl in *; try discriminate.
      destruct ((- 2 ^ 63 <=? z) && (z <? 2 ^ 63)); discriminate. }
    destruct (List.filter _ _) as [|a l]; simpl;
      [|destruct (truthy (PyDict (apartment_dict a))); simpl];
      eexists _, _; (split; [reflexivity|]); repeat split; try reflexivity;
      intros; contradiction.
  - simpl. eexists _, _. split; [reflexivity|]. repeat split; reflexivity.
Qed.

(** C6. Whenever the session holds no current-prospect identifier (no
    context, no ["current_user_id"] key, or a falsy value under it),
    [schedule_property_tour] returns its "No user identified" error payload
    at once, whatever the date, time and unit arguments are, and the store
    it leaves is the store it was given: no row is added to [tours]. *)
Theorem schedule_property_tour_requires_prospect rt tour_date tour_time
    is_virtual apartment_id apartment_type notes tool_context db :
  truthy (default PyNone (session_user (ensure_state tool_context))) = false ->
  exists payload,
    schedule_property_tour rt tour_date tour_time is_virtual apartment_id
      apartment_type notes tool_context db
    = Ok (context_of (ensure_state tool_context), db, payload)
    /\ payload
       = error_payload "No user identified. Please provide user information first."
    /\ payload !! "status" = Some (PyStr "error").
Proof.
  intros Hno. unfold schedule_property_tour. rewrite Hno. simpl.
  eexists. repeat split.
Qed.

Lemma schedule_property_tour_requires_prospect_witness :
  exists payload,
    schedule_property_tour sample_runtime "tomorrow" "3pm" false None
      (Some "1_bedroom") None fresh_context initial_db
    = Ok (context_of (ensure_state fresh_context), initial_db, payload)
    /\ payload
       = error_payload "No user identified. Please provide user information first."
    /\ payload !! "status" = Some (PyStr "error").
Proof.
  apply (schedule_property_tour_requires_prospect sample_runtime "tomorrow" "3pm"
           false None (Some "1_bedroom") None fresh_context initial_db).
  reflexivity.
Defined.

(** C2. The time block of [schedule_property_tour]: every 12-hour literal
    (hour 1..12 with or without a leading zero, optional [:MM], an am/pm
    marker in either case and possibly after a blank) is normalized to the
    24-hour [HH:MM] with 12 am as hour 00 and 12 pm as hour 12 and the
    minutes kept; "2pm", "12am", "12pm" and "9:30am" give "14:00", "00:00",
    "12:00" and "09:30"; a literal in which neither "pm" nor "am" occurs is
    returned unchanged. The normalized time is the one the tool books and
    reports. *)
Theorem parse_time_normalizes :
  (forall pm padded h minutes marker,
      (1 <= h <= 12)%nat ->
      (forall m, minutes = Some m -> (m < 60)%nat) ->
      In marker (markers pm) ->
      parse_time (clock12_literal padded h minutes marker)
      = Some (clock24 pm h minutes))
  /\ parse_time "2pm" = Some "14:00"
  /\ parse_time "12am" = Some "00:00"
  /\ parse_time "12pm" = Some "12:00"
  /\ parse_time "9:30am" = Some "09:30"
  /\ (forall tour_time,
        contains "pm" (lower tour_time) = false ->
        contains "am" (lower tour_time) = false ->
        parse_time tour_time = Some tour_time)
  /\ (forall rt tour_date tour_time is_virtual apartment_id apartment_type notes
             tool_context db s uid formatted_time apt,
        ensure_state tool_context = Some s ->
        s !! "current_user_id" = Some (PyStr uid) ->
        uid <> "" ->
        parse_time tour_time = Some formatted_time ->
        bind_param (choose_apartment apartment_id apartment_type db) = Ok apt ->
        exists ctx' db' payload,
          schedule_property_tour rt tour_date tour_time is_virtual apartment_id
            apartment_type notes tool_context db = Ok (ctx', db', payload)
          /\ payload !! "tour_time" = Some (PyStr formatted_time)
          /\ Tours.tour_time <$> last (tours db') = Some formatted_time).
Proof.
  split; [exact parse_time_clock12|].
  repeat (split; [reflexivity|]).
  split; [exact parse_time_passthrough|].
  intros rt tour_date tour_time is_virtual apartment_id apartment_type notes
    tool_context db s uid formatted_time apt Hst Hid Hne Htime Hapt.
  destruct (schedule_property_tour_books rt tour_date tour_time is_virtual
              apartment_id apartment_type notes tool_context db s uid
              formatted_time apt Hst Hid Hne Htime Hapt)
    as (ctx' & payload & Heq & _ & _ & Ht & _).
  eexists _, _, _. split; [exact Heq|]. split; [exact Ht|].
  simpl. rewrite last_snoc. reflexivity.
Qed.

Lemma parse_time_normalizes_witness :
  parse_time (clock12_literal false 9 (Some 30%nat) " PM") = Some "21:30"
  /\ parse_time "14:00" = Some "14:00"
  /\ exists ctx' db' payload,
       schedule_property_tour sample_runtime "tomorrow" "3pm" false None None None
         identified_context initial_db = Ok (ctx', db', payload)
       /\ payload !! "tour_time" = Some (PyStr "15:00")
       /\ Tours.tour_time <$> last (tours db') = Some "15:00".
Proof.
  destruct parse_time_normalizes as (Hclock & _ & _ & _ & _ & Hpass & Htool).
  split.
  - apply (Hclock true false 9%nat (Some 30%nat) " PM").
    + lia.
    + intros m [= <-]. lia.
    + simpl. auto 10.
  - split.
    + apply (Hpass "14:00"); reflexivity.
    + apply (Htool sample_runtime "tomorrow" "3pm" false None None None
               identified_context initial_db
               {[ "current_user_id" := PyStr "3f2b8c1e-0000-4000-8000-000000000001" ]}
               "3f2b8c1e-0000-4000-8000-000000000001" "15:00" Null);
        try reflexivity.
      discriminate.
Defined.

(** C9. With an identified prospect and a time that parses, a call of
    [schedule_property_tour] that gives an apartment type but no apartment
    id, when no unit of that type is available, still books the tour: the
    new row of [tours] has a null [apartment_id] and the status
    "Scheduled", and the payload reports success with [apartment_details]
    being [None]. *)
Theorem schedule_property_tour_without_unit rt tour_date tour_time is_virtual
    ty notes tool_context db s uid formatted_time :
  ensure_state tool_context = Some s ->
  s !! "current_user_id" = Some (PyStr uid) ->
  uid <> "" ->
  parse_time tour_time = Some formatted_time ->
  available_rows (Some ty) None db = [] ->
  exists ctx' payload,
    schedule_property_tour rt tour_date tour_time is_virtual None (Some ty)
      notes tool_context db
    = Ok (ctx',
          booked db
            {| Tours.id := next_rowid (Tours.id <$> tours db);
               Tours.user_id := Text uid;
               Tours.tour_date := parse_date rt tour_date;
               Tours.tour_time := formatted_time;
               Tours.apartment_id := Null;
               Tours.is_virtual := if is_virtual then 1 else 0;
               Tours.status := "Scheduled";
               Tours.notes := sql_text notes |},
          payload)
    /\ payload !! "status" = Some (PyStr "success")
    /\ payload !! "apartment_details" = Some PyNone.
Proof.
  intros Hst Hid Hne Htime Hnone.
  assert (choose_apartment None (Some ty) db = PyNone) as Hch.
  { unfold choose_apartment. rewrite Hnone. simpl. now destruct (negb _). }
  destruct (schedule_property_tour_books rt tour_date tour_time is_virtual
              None (Some ty) notes tool_context db s uid formatted_time Null
              Hst Hid Hne Htime)
    as (ctx' & payload & Heq & Hs & _ & _ & Hd).
  { now rewrite Hch. }
  exists ctx', payload. auto.
Qed.

Lemma schedule_property_tour_without_unit_witness :
  exists ctx' payload,
    schedule_property_tour sample_runtime "2025-06-20" "10am" true None
      (Some "3_bedroom") None identified_context initial_db
    = Ok (ctx',
          booked initial_db
            {| Tours.id := 1;
               Tours.user_id := Text "3f2b8c1e-0000-4000-8000-000000000001";
               Tours.tour_date := "2025-06-20";
               Tours.tour_time := "10:00";
               Tours.apartment_id := Null;
               Tours.is_virtual := 1;
               Tours.status := "Scheduled";
               Tours.notes := Null |},
          payload)
    /\ payload !! "status" = Some (PyStr "success")
    /\ payload !! "apartment_details" = Some PyNone.
Proof.
  apply (schedule_property_tour_without_unit sample_runtime "2025-06-20" "10am"
           true "3_bedroom" None identified_context initial_db
           {[ "current_user_id" := PyStr "3f2b8c1e-0000-4000-8000-000000000001" ]}
           "3f2b8c1e-0000-4000-8000-000000000001" "10:00");
    try reflexivity.
  discriminate.
Defined.

(** ** The unit query *)

Lemma formatted_move_in_date_july d :
  lower d = "july" -> formatted_move_in_date (Some d) = Some "2025-07-01".
Proof.
  intros H. unfold formatted_move_in_date. rewrite H.
  destruct d; [discriminate|]. reflexivity.
Qed.

Lemma formatted_move_in_date_august d :
  lower d = "august" -> formatted_move_in_date (Some d) = Some "2025-08-01".
Proof.
  intros H. unfold formatted_move_in_date. rewrite H.
  destruct d; [discriminate|]. reflexivity.
Qed.

Lemma formatted_move_in_date_other d :
  lower d <> "july" -> lower d <> "august" ->
  formatted_move_in_date (Some d) = None.
Proof.
  intros Hj Ha. unfold formatted_move_in_date.
  destruct (truthy (PyStr d)); [|reflexivity].
  destruct (String.eqb_spec (lower d) "july"); [contradiction|].
  destruct (String.eqb_spec (lower d) "august"); [contradiction|].
  reflexivity.
Qed.

(** A hint that is neither month is not handed to the store: the query
    runs without a date bound. *)
Lemma query_apartments_other_hint ty d tool_context db :
  lower d <> "july" -> lower d <> "august" ->
  (query_apartments ty (Some d) tool_context db).2
  = (query_apartments ty None tool_context db).2.
Proof.
  intros Hj Ha. unfold query_apartments.
  rewrite (formatted_move_in_date_other d Hj Ha). reflexivity.
Qed.

(** C1. [query_apartments] maps "july" and "august", in any case, to
    2025-07-01 and 2025-08-01. Any other hint is dropped instead of being
    handed to the store as the date bound: asked for one-bedroom units with
    the date "2025-07-01", the tool queries the store with no bound and
    reports units 101 and 102, while the store queried with that bound
    selects unit 101 only (unit 102 is available from 2025-07-15). *)
Theorem query_apartments_drops_date :
  formatted_move_in_date (Some "july") = Some "2025-07-01"
  /\ formatted_move_in_date (Some "JULY") = Some "2025-07-01"
  /\ formatted_move_in_date (Some "August") = Some "2025-08-01"
  /\ formatted_move_in_date (Some "2025-07-01") = None
  /\ (query_apartments (Some "1_bedroom") (Some "2025-07-01") fresh_context
        initial_db).2
     = list_to_map
         [ ("status", PyStr "success");
           ("available_count", PyInt 2);
           ("counts_by_type", PyDict {[ "1_bedroom" := PyInt 2 ]});
           ("apartments",
            PyList (PyDict <$> get_available_apartments (Some "1_bedroom") None
                                 initial_db)) ]
  /\ Apartments.id <$> available_rows (Some "1_bedroom") None initial_db
     = [101; 102]
  /\ Apartments.id <$> available_rows (Some "1_bedroom") (Some "2025-07-01")
                         initial_db
     = [101].
Proof. repeat split; vm_compute; reflexivity. Qed.

(** ** The pricing summary *)

Lemma group_by_type_snoc rows a :
  group_by_type (rows ++ [a])
  = partial_alter (agg_step (Apartments.rent_amount a))
      (Apartments.apartment_type a) (group_by_type rows).
Proof. unfold group_by_type. now rewrite foldl_app. Qed.

Lemma of_type_snoc ty rows a :
  of_type ty (rows ++ [a])
  = of_type ty rows
    ++ (if String.eqb (Apartments.apartment_type a) ty then [a] else []).
Proof. unfold of_type. now rewrite List.filter_app. Qed.

Lemma rent_sum_app l1 l2 : (rent_sum (l1 ++ l2) == rent_sum l1 + rent_sum l2)%Q.
Proof.
  induction l1 as [|a l1 IH]; simpl.
  - ring.
  - rewrite IH. ring.
Qed.

Lemma group_by_type_lookup rows ty :
  match group_by_type rows !! ty with
  | Some g => summarizes g (of_type ty rows)
  | None => of_type ty rows = []
  end.
Proof.
  induction rows as [|a rows IH] using rev_ind.
  - reflexivity.
  - rewrite group_by_type_snoc, of_type_snoc.
    destruct (String.eqb_spec (Apartments.apartment_type a) ty) as [->|Hne].
    + rewrite lookup_partial_alter_eq. revert IH.
      destruct (group_by_type rows !! ty) as [g|];
        simpl; intros IH.
      * destruct IH as (Hnil & Hc & Hs & Hb & Hlo & Hhi).
        unfold summarizes; simpl.
        split; [now destruct (of_type _ rows)|].
        split; [rewrite length_app; simpl; lia|].
        split; [rewrite rent_sum_app, Hs; simpl; ring|].
        split.
        { apply Forall_app. split.
          - eapply Forall_impl; [exact Hb|]. intros b [H1 H2]. simpl in *. split.
            + eapply Qle_trans; [apply Q.le_min_l | exact H1].
            + eapply Qle_trans; [exact H2 | apply Q.le_max_l].
          - constructor; [|constructor]. split.
            + apply Q.le_min_r.
            + apply Q.le_max_r. }
        split.
        { apply Exists_app.
          destruct (Q.min_spec (agg_min g) (Apartments.rent_amount a)) as [[_ E]|[_ E]].
          - left. eapply Exists_impl; [exact Hlo|]. intros b Hb'. simpl in *.
            now rewrite E.
          - right. constructor. now rewrite E. }
        { apply Exists_app.
          destruct (Q.max_spec (agg_max g) (Apartments.rent_amount a)) as [[_ E]|[_ E]].
          - right. constructor. now rewrite E.
          - left. eapply Exists_impl; [exact Hhi|]. intros b Hb'. simpl in *.
            now rewrite E. }
      * rewrite IH. unfold summarizes; simpl.
        split; [discriminate|]. split; [reflexivity|]. split; [ring|].
        split; [constructor; [split; apply Qle_refl|constructor]|].
        split; constructor; reflexivity.
    + rewrite lookup_partial_alter_ne by assumption.
      rewrite app_nil_r. exact IH.
Qed.

Lemma rent_sum_bounds lo hi sel :
  Forall (fun a => (lo <= Apartments.rent_amount a)%Q
                   /\ (Apartments.rent_amount a <= hi)%Q) sel ->
  (lo * inject_Z (Z.of_nat (length sel)) <= rent_sum sel)%Q
  /\ (rent_sum sel <= hi * inject_Z (Z.of_nat (length sel)))%Q.
Proof.
  induction 1 as [|a sel [Hlo Hhi] _ [IHlo IHhi]].
  - change (inject_Z (Z.of_nat (length []))) with 0%Q.
    change (rent_sum []) with 0%Q. split; lra.
  - change (rent_sum (a :: sel)) with (Apartments.rent_amount a + rent_sum sel)%Q.
    change (length (a :: sel)) with (S (length sel)).
    rewrite Nat2Z.inj_succ. unfold Z.succ. rewrite inject_Z_plus.
    change (inject_Z 1) with 1%Q.
    split; lra.
Qed.

Lemma of_type_idemp ty rows : of_type ty (of_type ty rows) = of_type ty rows.
Proof.
  unfold of_type. induction rows as [|a rows IH]; simpl; [reflexivity|].
  destruct (String.eqb _ ty) eqn:E; simpl; [rewrite E|]; now rewrite ?IH.
Qed.

(** The rows [get_pricing_info] aggregates contain every unit of the type
    looked up, whether the call names that type or no type. *)
Lemma pricing_rows_of_type apartment_type db ty :
  apartment_type = None \/ apartment_type = Some ty ->
  of_type ty
    (if truthy (py_str apartment_type)
     then List.filter (fun a => sql_eq (Text (Apartments.apartment_type a))
                                  (sql_text apartment_type)) (apartments db)
     else apartments db)
  = of_type ty (apartments db).
Proof.
  intros [-> | ->]; [reflexivity|].
  destruct (truthy (py_str (Some ty))); [|reflexivity].
  apply (of_type_idemp ty (apartments db)).
Qed.

(** [get_pricing_info] on any store: the entry of a type that has units
    aggregates all of them. *)
Lemma get_pricing_info_lookup apartment_type db ty :
  apartment_type = None \/ apartment_type = Some ty ->
  of_type ty (apartments db) <> [] ->
  exists p,
    get_pricing_info apartment_type db !! ty = Some p
    /\ count p = Z.of_nat (length (of_type ty (apartments db)))
    /\ Forall (fun a => (min_rent p <= Apartments.rent_amount a)%Q
                        /\ (Apartments.rent_amount a <= max_rent p)%Q)
         (of_type ty (apartments db))
    /\ Exists (fun a => (Apartments.rent_amount a == min_rent p)%Q)
         (of_type ty (apartments db))
    /\ Exists (fun a => (Apartments.rent_amount a == max_rent p)%Q)
         (of_type ty (apartments db))
    /\ (avg_rent p * inject_Z (count p) == rent_sum (of_type ty (apartments db)))%Q
    /\ (min_rent p <= avg_rent p)%Q /\ (avg_rent p <= max_rent p)%Q.
Proof.
  intros Hty Hne. unfold get_pricing_info. rewrite lookup_fmap.
  match goal with |- context [group_by_type ?rows] =>
    pose proof (group_by_type_lookup rows ty) as Hg;
    destruct (group_by_type rows !! ty) as [g|]
  end; rewrite (pricing_rows_of_type apartment_type db ty Hty) in Hg;
    [|contradiction].
  destruct Hg as (_ & Hc & Hs & Hb & Hlo & Hhi).
  exists (agg_final g). simpl.
  destruct (rent_sum_bounds _ _ _ Hb) as [Blo Bhi].
  assert (0 < inject_Z (agg_count g))%Q as Hpos.
  { rewrite Hc. change 0%Q with (inject_Z 0). rewrite <- Zlt_Qlt.
    destruct (of_type ty (apartments db)); [contradiction | simpl; lia]. }
  rewrite <- Hc in Blo, Bhi. rewrite <- Hs in Blo, Bhi.
  repeat split; try assumption.
  - rewrite <- Hs. field. intros E. rewrite E in Hpos. now apply Qlt_irrefl in Hpos.
  - now apply Qle_shift_div_l.
  - now apply Qle_shift_div_r.
Qed.

Lemma group_by_type_ext rows rows' :
  Forall2 (fun a b => Apartments.apartment_type a = Apartments.apartment_type b
                      /\ Apartments.rent_amount a = Apartments.rent_amount b)
    rows rows' ->
  group_by_type rows = group_by_type rows'.
Proof.
  unfold group_by_type. generalize (∅ : gmap string aggregate).
  intros groups H. revert groups.
  induction H as [|a b rows rows' [Ht Hr] _ IH]; intros groups; simpl.
  - reflexivity.
  - rewrite Ht, Hr. apply IH.
Qed.

Lemma filter_Forall2 {A} (R : A -> A -> Prop) (p : A -> bool) l l' :
  (forall a b, R a b -> p a = p b) ->
  Forall2 R l l' -> Forall2 R (List.filter p l) (List.filter p l').
Proof.
  intros Hp. induction 1 as [|a b l l' Hab _ IH]; simpl; [constructor|].
  rewrite (Hp a b Hab). destruct (p b); [constructor|]; assumption.
Qed.

(** The availability flags play no part in the pricing summary. *)
Lemma get_pricing_info_with_availability flag apartment_type db :
  get_pricing_info apartment_type (with_availability flag db)
  = get_pricing_info apartment_type db.
Proof.
  unfold get_pricing_info. f_equal. symmetry. apply group_by_type_ext.
  assert (Forall2 (fun a b =>
            Apartments.apartment_type a = Apartments.apartment_type b
            /\ Apartments.rent_amount a = Apartments.rent_amount b)
            (apartments db) (apartments (with_availability flag db))) as H.
  { simpl. induction (apartments db); simpl; constructor; auto. }
  destruct (truthy (py_str apartment_type)); [|exact H].
  apply filter_Forall2; [|exact H].
  intros a b [Ht _]. now rewrite Ht.
Qed.

(** C5. For every apartment type of the seed data, [get_pricing_info]
    (asked for that type or for all types) has an entry whose [count] is
    the number of seed rows of the type, 4, available or not (2 of them
    are available); its [min_rent] and [max_rent] bound the rent of every
    unit of the type and are the rent of one of them, its [avg_rent] is
    the sum of the rents over the count and lies between them; changing
    availability flags changes nothing. The one-bedroom units have min
    1600 and max 1650, the two-bedroom units min 2100 and max 2200. *)
Theorem get_pricing_info_seed ty :
  In ty (Apartments.apartment_type <$> apartments_data) ->
  exists p,
    get_pricing_info (Some ty) initial_db !! ty = Some p
    /\ get_pricing_info None initial_db !! ty = Some p
    /\ (forall flag,
          get_pricing_info (Some ty) (with_availability flag initial_db) !! ty
          = Some p)
    /\ count p = Z.of_nat (length (of_type ty apartments_data))
    /\ count p = 4
    /\ length (available_rows (Some ty) None initial_db) = 2%nat
    /\ Forall (fun a => (min_rent p <= Apartments.rent_amount a)%Q
                        /\ (Apartments.rent_amount a <= max_rent p)%Q)
         (of_type ty apartments_data)
    /\ Exists (fun a => (Apartments.rent_amount a == min_rent p)%Q)
         (of_type ty apartments_data)
    /\ Exists (fun a => (Apartments.rent_amount a == max_rent p)%Q)
         (of_type ty apartments_data)
    /\ (avg_rent p * inject_Z (count p) == rent_sum (of_type ty apartments_data))%Q
    /\ (min_rent p <= avg_rent p)%Q /\ (avg_rent p <= max_rent p)%Q
    /\ (ty = "1_bedroom" ->
        min_rent p = 1600%Q /\ max_rent p = 1650%Q /\ (avg_rent p == 1625)%Q)
    /\ (ty = "2_bedroom" ->
        min_rent p = 2100%Q /\ max_rent p = 2200%Q /\ (avg_rent p == 2150)%Q).
Proof.
  intros Hin.
  assert (ty = "1_bedroom" \/ ty = "2_bedroom") as Hty.
  { simpl in Hin. intuition. }
  assert (of_type ty (apartments initial_db) <> []) as Hne.
  { destruct Hty as [-> | ->]; discriminate. }
  destruct (get_pricing_info_lookup (Some ty) initial_db ty (or_intror eq_refl) Hne)
    as (p & Hp & Hc & Hb & Hlo & Hhi & Havg & Hmin & Hmax).
  exists p. split; [exact Hp|].
  assert (get_pricing_info None initial_db !! ty = Some p) as HpAll.
  { rewrite <- Hp. destruct Hty as [-> | ->]; vm_compute; reflexivity. }
  split; [exact HpAll|].
  split; [intros flag; now rewrite get_pricing_info_with_availability|].
  split; [exact Hc|].
  split; [rewrite Hc; destruct Hty as [-> | ->]; reflexivity|].
  split; [destruct Hty as [-> | ->]; reflexivity|].
  do 6 (split; [assumption|]).
  split; intros ->; revert Hp; vm_compute; intros [= <-]; repeat split.
Qed.

Lemma get_pricing_info_seed_witness :
  exists p,
    get_pricing_info (Some "1_bedroom") initial_db !! "1_bedroom" = Some p
    /\ count p = 4
    /\ min_rent p = 1600%Q /\ max_rent p = 1650%Q
    /\ (min_rent p <= avg_rent p)%Q /\ (avg_rent p <= max_rent p)%Q.
Proof.
  destruct (get_pricing_info_seed "1_bedroom") as
    (p & Hp & _ & _ & _ & Hc & _ & _ & _ & _ & _ & Hlo & Hhi & H1 & _).
  - simpl. auto.
  - exists p. destruct (H1 eq_refl) as (Hmin & Hmax & _). auto 10.
Defined.

(** ** The prospect update of the store *)

Lemma bind_params_ok l :
  Forall (fun kv => bindable kv.2) l ->
  bind_params l = Ok (prod_map id sql_of <$> l).
Proof.
  induction 1 as [|[k v] l [b Hb] _ IH]; simpl; [reflexivity|].
  simpl in Hb. unfold sql_of at 1. rewrite Hb, IH. reflexivity.
Qed.

Lemma set_clause_lookup kwargs k :
  set_clause kwargs !! k = kwargs !! k ≫= set_param k.
Proof. unfold set_clause. apply map_lookup_imap. Qed.

Lemma size_zero_empty {A} (m : gmap string A) :
  Nat.eqb (size m) 0 = true <-> m = ∅.
Proof. rewrite Nat.eqb_eq. apply map_size_empty_iff. Qed.

Lemma set_clause_empty : set_clause ∅ = ∅.
Proof. apply map_eq. intros k. rewrite set_clause_lookup. now rewrite !lookup_empty. Qed.

Lemma database_eta db :
  {| apartments := apartments db; users := users db; tours := tours db |} = db.
Proof. now destruct db. Qed.

(** [update_user] when its parameters can be bound. *)
Lemma update_user_bound rt user_id kwargs db key :
  (forall k v, set_clause kwargs !! k = Some v -> bindable v) ->
  bind_param user_id = Ok key ->
  update_user rt user_id kwargs db
  = if Nat.eqb (size (set_clause kwargs)) 0 then Ok (db, false)
    else Ok ({| apartments := apartments db;
                users := updated_users key (sql_of <$> set_clause kwargs)
                           (Text (now rt)) (users db);
                tours := tours db |},
             bool_decide (0 < length (List.filter (user_matches key) (users db)))%nat).
Proof.
  intros Hb Hkey. unfold update_user.
  destruct (Nat.eqb (size kwargs) 0) eqn:E.
  - apply size_zero_empty in E. subst kwargs. now rewrite set_clause_empty.
  - destruct (Nat.eqb (size (set_clause kwargs)) 0); [reflexivity|].
    rewrite bind_params_ok.
    + change (bind_param (PyStr (now rt))) with (Ok (Text (now rt))).
      rewrite Hkey. cbv beta iota delta [mbind result_bind].
      rewrite list_to_map_fmap, list_to_map_to_list. reflexivity.
    + apply Forall_forall. intros [k v] Hin. simpl.
      apply elem_of_map_to_list in Hin. eauto.
Qed.

Lemma updatable_spec k :
  existsb (String.eqb k) updatable = true <-> k ∈ updatable.
Proof.
  rewrite existsb_exists, list_elem_of_In. split.
  - intros (x & Hx & E). apply String.eqb_eq in E. now subst.
  - intros H. exists k. split; [exact H | apply String.eqb_refl].
Qed.

Lemma set_param_updatable k v : k ∈ updatable -> set_param k v = Some v.
Proof.
  intros H. unfold set_param. apply updatable_spec in H. now rewrite H.
Qed.

Lemma set_param_has_pets v :
  set_param "has_pets" v
  = match v with
    | PyNone => None
    | _ => Some (PyInt (if truthy v then 1 else 0))
    end.
Proof. now destruct v. Qed.

Lemma set_param_unrecognized k v : ~ recognized k -> set_param k v = None.
Proof.
  intros H. unfold set_param.
  destruct (existsb (String.eqb k) updatable) eqn:E.
  - apply updatable_spec in E. destruct H. now left.
  - destruct (String.eqb_spec k "has_pets") as [->|]; [|reflexivity].
    destruct H. now right.
Qed.

Lemma set_param_recognized k v w : set_param k v = Some w -> recognized k.
Proof.
  intros H. destruct (decide (recognized k)) as [|Hn]; [assumption|].
  now rewrite (set_param_unrecognized k v Hn) in H.
Qed.


Lemma apply_set_column c assignments stamp u :
  recognized c ->
  column c (apply_set assignments stamp u) = default (column c u) (assignments !! c).
Proof.
  intros [H | ->]; [|reflexivity].
  unfold updatable in H. repeat (apply elem_of_cons in H as [-> | H]; [reflexivity|]).
  now apply elem_of_nil in H.
Qed.

Lemma updated_users_no_match key assignments stamp us :
  Forall (fun u => user_matches key u = false) us ->
  updated_users key assignments stamp us = us.
Proof.
  unfold updated_users. induction 1 as [|u us Hu _ IH]; simpl; [reflexivity|].
  rewrite Hu. f_equal. exact IH.
Qed.

Lemma filter_no_match {A} (p : A -> bool) l :
  Forall (fun x => p x = false) l -> List.filter p l = [].
Proof. induction 1 as [|x l Hx _ IH]; simpl; [reflexivity|]. now rewrite Hx. Qed.




Lemma sql_of_flag (c : bool) :
  sql_of (PyInt (if c then 1 else 0)) = Integer (if c then 1 else 0).
Proof. now destruct c. Qed.





(** ** Creating and reading a prospect *)

Lemma to_py_sql_text o : to_py (sql_text o) = py_str o.
Proof. now destruct o. Qed.

Lemma fresh_id_no_match rt db :
  fresh_id rt db ->
  Forall (fun u => user_matches (Text (uuid4 rt)) u = false) (users db).
Proof.
  intros Hf. eapply Forall_impl; [exact Hf|].
  intros u Hu. unfold user_matches. simpl.
  now destruct (String.eqb_spec (Users.user_id u) (uuid4 rt)).
Qed.

Lemma create_user_fresh rt name phone email move_in_date ty has_pets db :
  fresh_id rt db ->
  create_user rt name phone email move_in_date ty has_pets db
  = Ok ({| apartments := apartments db;
           users := users db
                    ++ [created_row rt name phone email move_in_date ty has_pets db];
           tours := tours db |}, uuid4 rt).
Proof.
  intros Hf. unfold create_user.
  assert (existsb (user_matches (Text (uuid4 rt))) (users db) = false) as ->.
  { apply not_true_is_false. rewrite existsb_exists. intros (u & Hin & Hm).
    apply fresh_id_no_match in Hf. rewrite Forall_forall in Hf.
    apply list_elem_of_In in Hin. rewrite (Hf u Hin) in Hm. discriminate. }
  reflexivity.
Qed.

Lemma get_user_created rt db new :
  fresh_id rt db ->
  Users.user_id new = uuid4 rt ->
  get_user (PyStr (uuid4 rt))
    {| apartments := apartments db; users := users db ++ [new]; tours := tours db |}
  = Ok (user_dict new).
Proof.
  intros Hf Hid. unfold get_user. simpl.
  rewrite List.filter_app, (filter_no_match _ _ (fresh_id_no_match rt db Hf)).
  simpl. unfold user_matches. simpl. rewrite Hid, String.eqb_refl. reflexivity.
Qed.

(** The record [get_user] returns for the row [create_user] has just
    inserted. *)
Lemma get_user_created_row rt name phone email move_in_date
    preferred_apartment_type has_pets db :
  fresh_id rt db ->
  get_user (PyStr (uuid4 rt))
    {| apartments := apartments db;
       users := users db
                ++ [created_row rt name phone email move_in_date
                      preferred_apartment_type has_pets db];
       tours := tours db |}
  = Ok (list_to_map
          [ ("id", PyInt (next_rowid (Users.id <$> users db)));
            ("user_id", PyStr (uuid4 rt));
            ("name", py_str name);
            ("phone", py_str phone);
            ("email", py_str email);
            ("move_in_date", py_str move_in_date);
            ("preferred_apartment_type", py_str preferred_apartment_type);
            ("has_pets", py_bool has_pets);
            ("income", PyNone);
            ("credit_score", PyNone);
            ("notes", PyNone);
            ("created_at", PyStr (now rt));
            ("last_contact", PyStr (now rt)) ]).
Proof.
  intros Hf.
  rewrite get_user_created by (assumption || reflexivity).
  unfold user_dict, created_row. cbn [Users.id Users.user_id Users.name
    Users.phone Users.email Users.move_in_date Users.preferred_apartment_type
    Users.has_pets Users.income Users.credit_score Users.notes
    Users.created_at Users.last_contact].
  rewrite !to_py_sql_text.
  replace (has_pets_py _) with (py_bool has_pets)
    by (now destruct has_pets as [[]|]).
  reflexivity.
Qed.

(** C7. When the generated identifier is fresh, [create_user] returns it,
    and [get_user] with it, right after, returns the record whose name,
    phone, email, move-in date, preferred type and has-pets flag are the
    values given at creation ([None] where none was given), whose income,
    credit score and notes are [None], and whose [created_at] and
    [last_contact] are both the time of the creating call. *)
Theorem create_user_then_get_user rt name phone email move_in_date
    preferred_apartment_type has_pets db :
  fresh_id rt db ->
  exists db',
    create_user rt name phone email move_in_date preferred_apartment_type
      has_pets db = Ok (db', uuid4 rt)
    /\ get_user (PyStr (uuid4 rt)) db'
       = Ok (list_to_map
               [ ("id", PyInt (next_rowid (Users.id <$> users db)));
                 ("user_id", PyStr (uuid4 rt));
                 ("name", py_str name);
                 ("phone", py_str phone);
                 ("email", py_str email);
                 ("move_in_date", py_str move_in_date);
                 ("preferred_apartment_type", py_str preferred_apartment_type);
                 ("has_pets", py_bool has_pets);
                 ("income", PyNone);
                 ("credit_score", PyNone);
                 ("notes", PyNone);
                 ("created_at", PyStr (now rt));
                 ("last_contact", PyStr (now rt)) ]).
Proof.
  intros Hf. eexists. split; [now apply create_user_fresh|].
  now apply get_user_created_row.
Qed.

Lemma create_user_then_get_user_witness :
  exists db',
    create_user sample_runtime (Some "Mark") None (Some "") None
      (Some "1_bedroom") (Some false) initial_db
    = Ok (db', uuid4 sample_runtime)
    /\ get_user (PyStr (uuid4 sample_runtime)) db'
       = Ok (list_to_map
               [ ("id", PyInt 1);
                 ("user_id", PyStr (uuid4 sample_runtime));
                 ("name", PyStr "Mark");
                 ("phone", PyNone);
                 ("email", PyStr "");
                 ("move_in_date", PyNone);
                 ("preferred_apartment_type", PyStr "1_bedroom");
                 ("has_pets", PyBool false);
                 ("income", PyNone);
                 ("credit_score", PyNone);
                 ("notes", PyNone);
                 ("created_at", PyStr (now sample_runtime));
                 ("last_contact", PyStr (now sample_runtime)) ]).
Proof.
  apply (create_user_then_get_user sample_runtime (Some "Mark") None (Some "")
           None (Some "1_bedroom") (Some false) initial_db).
  constructor.
Defined.

(** ** The prospect-management tool *)

Lemma lookup_set_if_eq c k v (m : gmap string pyval) :
  set_if c k v m !! k = if c then Some v else m !! k.
Proof. destruct c; simpl; [apply lookup_insert_eq | reflexivity]. Qed.

Lemma lookup_set_if_ne c k k' v (m : gmap string pyval) :
  k <> k' -> set_if c k v m !! k' = m !! k'.
Proof. intros H. destruct c; simpl; [now apply lookup_insert_ne | reflexivity]. Qed.

Ltac other_keys :=
  rewrite ?lookup_set_if_ne by discriminate; rewrite ?lookup_empty.

(** The entry of [update_fields] under each of its keys. *)
Lemma update_fields_entries name phone email formatted_date ty has_pets
    income credit_score notes :
  let fields := update_fields name phone email formatted_date ty has_pets
                  income credit_score notes in
  let entry (v : pyval) := if truthy v then Some v else None in
  fields !! "name" = entry (py_str name)
  /\ fields !! "phone" = entry (py_str phone)
  /\ fields !! "email" = entry (py_str email)
  /\ fields !! "move_in_date" = entry (py_str formatted_date)
  /\ fields !! "preferred_apartment_type" = entry (py_str ty)
  /\ fields !! "has_pets" = PyBool <$> has_pets
  /\ fields !! "income" = entry (py_float income)
  /\ fields !! "credit_score" = entry (py_int_opt credit_score)
  /\ fields !! "notes" = entry (py_str notes).
Proof.
  unfold update_fields. cbv zeta.
  repeat split; other_keys; rewrite lookup_set_if_eq; other_keys;
    try reflexivity.
  destruct has_pets; reflexivity.
Qed.

Lemma update_fields_keys name phone email formatted_date ty has_pets
    income credit_score notes k :
  is_Some (update_fields name phone email formatted_date ty has_pets income
             credit_score notes !! k) ->
  recognized k.
Proof.
  unfold update_fields, recognized, updatable.
  repeat match goal with
         | |- is_Some (set_if _ ?key _ _ !! k) -> _ =>
             destruct (decide (key = k)) as [<- | ?];
             [intros _; set_solver | rewrite lookup_set_if_ne by assumption]
         end.
  rewrite lookup_empty. intros [? ?]. discriminate.
Qed.

(** No falsy value enters the update set, except the flag [has_pets]. *)
Lemma update_fields_truthy name phone email formatted_date ty has_pets
    income credit_score notes k v :
  update_fields name phone email formatted_date ty has_pets income
    credit_score notes !! k = Some v ->
  k <> "has_pets" ->
  truthy v = true.
Proof.
  intros Hk Hne.
  pose proof (update_fields_keys name phone email formatted_date ty has_pets
                income credit_score notes k ltac:(eauto)) as [Hin | ->];
    [|contradiction].
  pose proof (update_fields_entries name phone email formatted_date ty has_pets
                income credit_score notes) as E. cbv zeta in E.
  destruct E as (E1 & E2 & E3 & E4 & E5 & _ & E7 & E8 & E9).
  unfold updatable in Hin.
  repeat (apply elem_of_cons in Hin as [-> | Hin];
          [match goal with
           | E : _ !! ?key = _, H : _ !! ?key = Some _ |- _ =>
               rewrite E in H;
               match type of H with
               | (if truthy ?w then _ else _) = _ =>
                   destruct (truthy w) eqn:T; [|discriminate];
                   injection H as <-; exact T
               end
           end|]).
  now apply elem_of_nil in Hin.
Qed.

Lemma bind_params_inv l l' :
  bind_params l = Ok l' ->
  l' = (prod_map id sql_of <$> l) /\ Forall (fun kv => bindable kv.2) l.
Proof.
  revert l'. induction l as [|[k v] l IH]; simpl; intros l' H.
  - injection H as <-. split; [reflexivity | constructor].
  - destruct (bind_param v) as [b|] eqn:Hb; simpl in H; [|discriminate].
    destruct (bind_params l) as [bs|]; simpl in H; [|discriminate].
    injection H as <-. destruct (IH bs eq_refl) as [-> HF]. split.
    + assert (sql_of v = b) as <- by (unfold sql_of; now rewrite Hb).
      reflexivity.
    + constructor; [now exists b | exact HF].
Qed.

(** What a returning [update_user] has done to the rows. *)
Lemma update_user_inv rt user_id kwargs db db' ok :
  update_user rt user_id kwargs db = Ok (db', ok) ->
  apartments db' = apartments db
  /\ tours db' = tours db
  /\ Forall2 (fun u u' =>
                u' = u
                \/ (u' = apply_set (sql_of <$> set_clause kwargs) (Text (now rt)) u
                    /\ forall k v, set_clause kwargs !! k = Some v -> bindable v))
       (users db) (users db').
Proof.
  unfold update_user.
  destruct (Nat.eqb (size kwargs) 0);
    [intros [= <- <-]; repeat split; apply Forall_Forall2_diag, Forall_forall; auto|].
  destruct (Nat.eqb (size (set_clause kwargs)) 0);
    [intros [= <- <-]; repeat split; apply Forall_Forall2_diag, Forall_forall; auto|].
  destruct (bind_params (map_to_list (set_clause kwargs))) as [bound|] eqn:B;
    [|discriminate].
  apply bind_params_inv in B as [-> HF].
  change (bind_param (PyStr (now rt))) with (Ok (Text (now rt))).
  destruct (bind_param user_id) as [key|]; [|discriminate].
  cbv beta iota delta [mbind result_bind].
  rewrite list_to_map_fmap, list_to_map_to_list.
  intros [= <- <-]. repeat split. simpl.
  apply Forall2_fmap_r, Forall_Forall2_diag, Forall_forall. intros u _.
  simpl. destruct (user_matches key u) eqn:Em; [right | left; reflexivity].
  split; [reflexivity|]. intros k v Hk.
  rewrite Forall_forall in HF. apply (HF (k, v)).
  now apply elem_of_map_to_list.
Qed.

Lemma truthy_stored v :
  truthy v = true -> bindable v -> truthy (to_py (sql_of v)) = true.
Proof.
  intros Ht [b Hb]. unfold sql_of. rewrite Hb.
  destruct v; simpl in *; try discriminate;
    try (injection Hb as <-; simpl; assumption).
  - subst. injection Hb as <-. reflexivity.
  - destruct ((- 2 ^ 63 <=? z) && (z <? 2 ^ 63)); [|discriminate].
    injection Hb as <-. exact Ht.
Qed.

(** The rows after the [update] action of [manage_user]. *)
Lemma manage_user_update_rows rt user_id name phone email move_in_date ty
    has_pets income credit_score notes tool_context db ctx' db' payload :
  manage_user rt "update" user_id name phone email move_in_date ty has_pets
    income credit_score notes tool_context db = Ok (ctx', db', payload) ->
  Forall2 not_blanked (users db) (users db').
Proof.
  unfold manage_user.
  change (String.eqb "update" "create") with false.
  change (String.eqb "update" "update") with true. cbv iota.
  set (fields := update_fields _ _ _ _ _ _ _ _ _).
  assert (Forall2 not_blanked (users db) (users db)) as Hrefl.
  { apply Forall_Forall2_diag, Forall_forall. intros u _ c _. now left. }
  destruct (negb _); [intros [= _ <- _]; exact Hrefl|].
  destruct (update_user _ _ _ _) as [[db1 ok]|] eqn:U; [|discriminate].
  apply update_user_inv in U as (_ & _ & HF).
  cbv beta iota delta [mbind result_bind].
  assert (Forall2 not_blanked (users db) (users db1)) as Hrows.
  { eapply Forall2_impl; [exact HF|]. intros u u' [-> | [-> Hb]] c Hc;
      [now left|].
    assert (c ∈ updatable /\ c <> "has_pets") as [Hu Hp].
    { unfold guarded_columns in Hc. unfold updatable.
      repeat (apply elem_of_cons in Hc as [-> | Hc];
              [split; [set_solver | discriminate]|]).
      now apply elem_of_nil in Hc. }
    rewrite apply_set_column by now left.
    rewrite lookup_fmap.
    destruct (set_clause fields !! c) as [v|] eqn:Hv; simpl; [right | now left].
    specialize (Hb c v Hv).
    rewrite set_clause_lookup in Hv.
    destruct (fields !! c) as [w|] eqn:Hw; simpl in Hv; [|discriminate].
    rewrite (set_param_updatable c w Hu) in Hv. injection Hv as ->.
    apply truthy_stored; [|exact Hb].
    eapply update_fields_truthy; [exact Hw | exact Hp]. }
  destruct ok.
  - destruct (merge_user_info _ _ _); [|discriminate].
    intros [= _ <- _]. exact Hrows.
  - intros [= _ <- _]. exact Hrows.
Qed.

(** C10. In the [update] action of [manage_user], a falsy argument is
    treated as absent: the update set built from an empty name, phone,
    email or notes, from an income of 0 or from a credit score of 0 is the
    one built without that argument, and no entry of the update set other
    than [has_pets] is falsy; so whenever the action returns, each row of
    [users] has, as its name, phone, email, notes, income and credit score,
    the value it had or a value that is not empty, zero or null. Only
    [has_pets] tells [False] from absence: [False] is an entry of the update
    set, an absent flag is not. *)
Theorem manage_user_update_skips_falsy :
  (forall name phone email formatted_date ty has_pets income credit_score notes
          k v,
      update_fields name phone email formatted_date ty has_pets income
        credit_score notes !! k = Some v ->
      k <> "has_pets" -> truthy v = true)
  /\ (forall phone email formatted_date ty has_pets income credit_score notes,
        update_fields (Some "") phone email formatted_date ty has_pets income
          credit_score notes
        = update_fields None phone email formatted_date ty has_pets income
            credit_score notes)
  /\ (forall name email formatted_date ty has_pets income credit_score notes,
        update_fields name (Some "") email formatted_date ty has_pets income
          credit_score notes
        = update_fields name None email formatted_date ty has_pets income
            credit_score notes)
  /\ (forall name phone formatted_date ty has_pets income credit_score notes,
        update_fields name phone (Some "") formatted_date ty has_pets income
          credit_score notes
        = update_fields name phone None formatted_date ty has_pets income
            credit_score notes)
  /\ (forall name phone email formatted_date ty has_pets income credit_score,
        update_fields name phone email formatted_date ty has_pets income
          credit_score (Some "")
        = update_fields name phone email formatted_date ty has_pets income
            credit_score None)
  /\ (forall name phone email formatted_date ty has_pets credit_score notes,
        update_fields name phone email formatted_date ty has_pets (Some 0%Q)
          credit_score notes
        = update_fields name phone email formatted_date ty has_pets None
            credit_score notes)
  /\ (forall name phone email formatted_date ty has_pets income notes,
        update_fields name phone email formatted_date ty has_pets income
          (Some 0) notes
        = update_fields name phone email formatted_date ty has_pets income
            None notes)
  /\ (forall name phone email formatted_date ty income credit_score notes,
        update_fields name phone email formatted_date ty (Some false) income
          credit_score notes !! "has_pets" = Some (PyBool false)
        /\ update_fields name phone email formatted_date ty None income
             credit_score notes !! "has_pets" = None)
  /\ (forall rt user_id name phone email move_in_date ty has_pets income
             credit_score notes tool_context db ctx' db' payload,
        manage_user rt "update" user_id name phone email move_in_date ty
          has_pets income credit_score notes tool_context db
        = Ok (ctx', db', payload) ->
        Forall2 not_blanked (users db) (users db')).
Proof.
  split; [exact update_fields_truthy|].
  do 6 (split; [reflexivity|]).
  split; [|exact manage_user_update_rows].
  intros. split.
  - apply (update_fields_entries name phone email formatted_date ty (Some false)
             income credit_score notes).
  - apply (update_fields_entries name phone email formatted_date ty None
             income credit_score notes).
Qed.

Lemma manage_user_update_skips_falsy_witness :
  exists ctx' db' payload,
    manage_user sample_runtime "update" None (Some "") None None None None
      (Some false) (Some 0%Q) (Some 0) (Some "prefers a high floor")
      identified_context one_prospect_db
    = Ok (ctx', db', payload)
    /\ Users.name <$> users db' = [Text "Mark"]
    /\ Users.has_pets <$> users db' = [Integer 0]
    /\ Users.notes <$> users db' = [Text "prefers a high floor"]
    /\ Forall2 not_blanked (users one_prospect_db) (users db').
Proof.
  destruct manage_user_update_skips_falsy as (_ & _ & _ & _ & _ & _ & _ & _ & H).
  eexists _, _, _. split; [vm_compute; reflexivity|].
  repeat (split; [reflexivity|]).
  eapply (H sample_runtime None (Some "") None None None None (Some false)
            (Some 0%Q) (Some 0) (Some "prefers a high floor")
            identified_context one_prospect_db).
  vm_compute. reflexivity.
Defined.

Lemma user_info_context s info :
  s !! "user_info" = Some (PyDict info) ->
  user_info (Some {| state := Some s |}) = Some info.
Proof. intros H. unfold user_info. simpl. now rewrite H. Qed.

(** The [create] action with a fresh, non-empty identifier. *)
Lemma manage_user_create rt user_id name phone email move_in_date ty has_pets
    income credit_score notes tool_context s db :
  ensure_state tool_context = Some s ->
  fresh_id rt db ->
  uuid4 rt <> "" ->
  exists s' info,
    manage_user rt "create" user_id name phone email move_in_date ty has_pets
      income credit_score notes tool_context db
    = Ok (Some {| state := Some s' |},
          {| apartments := apartments db;
             users := users db
                      ++ [created_row rt name phone email
                            (formatted_move_in_date move_in_date) ty has_pets db];
             tours := tours db |},
          list_to_map
            [ ("status", PyStr "success");
              ("user_id", PyStr (uuid4 rt));
              ("message", PyStr "User created successfully") ])
    /\ s' !! "current_user_id" = Some (PyStr (uuid4 rt))
    /\ s' !! "user_info" = Some (PyDict info)
    /\ info !! "move_in_date" = Some (py_str move_in_date)
    /\ info !! "formatted_move_in_date"
       = Some (py_str (formatted_move_in_date move_in_date)).
Proof.
  intros Hst Hf Hne. unfold manage_user.
  change (String.eqb "create" "create") with true. cbv iota.
  rewrite (create_user_fresh rt name phone email _ ty has_pets db Hf).
  cbv beta iota delta [mbind result_bind].
  rewrite (truthy_str _ Hne), Hst.
  eexists _, _. split; [reflexivity|].
  split; [now rewrite lookup_insert_ne, lookup_insert_eq|].
  split; [apply lookup_insert_eq|].
  split; reflexivity.
Qed.

(** The [get] action for the prospect of the session. *)
Lemma manage_user_get_current rt s db uid user :
  s !! "current_user_id" = Some (PyStr uid) ->
  uid <> "" ->
  get_user (PyStr uid) db = Ok user ->
  truthy (PyDict user) = true ->
  manage_user rt "get" None None None None None None None None None None
    (Some {| state := Some s |}) db
  = Ok (Some {| state := Some (<["user_info" := PyDict user]> s) |}, db,
        list_to_map [ ("status", PyStr "success"); ("user", PyDict user) ]).
Proof.
  intros Hid Hne Hget Htr. unfold manage_user.
  change (String.eqb "get" "create") with false.
  change (String.eqb "get" "update") with false.
  change (String.eqb "get" "get") with true. cbv iota.
  unfold resolve_user_id, session_user. simpl. rewrite Hid. simpl default.
  rewrite (truthy_str _ Hne). simpl negb. cbv iota.
  rewrite Hget. cbv beta iota delta [mbind result_bind].
  simpl in Htr. rewrite Htr. reflexivity.
Qed.




(** * Further properties of the store and of the tools *)

(** ** Listing the available units *)

Lemma filter_sublist {A} (p : A -> bool) l : sublist (List.filter p l) l.
Proof.
  induction l as [|x l IH]; simpl; [constructor|].
  destruct (p x); now constructor.
Qed.

Lemma filter_sublist_impl {A} (p q : A -> bool) l :
  (forall x, p x = true -> q x = true) ->
  sublist (List.filter p l) (List.filter q l).
Proof.
  intros H. induction l as [|x l IH]; simpl; [constructor|].
  destruct (p x) eqn:Hp.
  - rewrite (H x Hp). now constructor.
  - destruct (q x); [now constructor | exact IH].
Qed.

Lemma truthy_py_str o :
  truthy (py_str o) = true <-> exists s, o = Some s /\ s <> "".
Proof.
  destruct o as [s|]; simpl.
  - destruct (String.eqb_spec s ""); simpl; split.
    + discriminate.
    + intros (t & [= <-] & Hne). contradiction.
    + intros _. eauto.
    + reflexivity.
  - split; [discriminate | intros (s & H & _); discriminate].
Qed.

Lemma truthy_some s : s <> "" -> truthy (py_str (Some s)) = true.
Proof. exact (truthy_str s). Qed.

(** X1. The units [get_available_apartments] selects are exactly the
    units of the table with the availability flag 1 that have the type
    asked for, when a non-empty type is given, and a date not after the
    bound, when a non-empty bound is given (a unit without a date fails
    every bound); they come in storage order; an empty string as type or
    as bound filters nothing. *)
Theorem available_rows_spec apartment_type move_in_date db :
  (forall a,
      a ∈ available_rows apartment_type move_in_date db <->
      a ∈ apartments db
      /\ Apartments.is_available a = 1
      /\ (forall ty, apartment_type = Some ty -> ty <> "" ->
            Apartments.apartment_type a = ty)
      /\ (forall bound, move_in_date = Some bound -> bound <> "" ->
            exists d, Apartments.available_date a = Some d
                      /\ String.leb d bound = true))
  /\ sublist (available_rows apartment_type move_in_date db) (apartments db)
  /\ available_rows (Some "") move_in_date db = available_rows None move_in_date db
  /\ available_rows apartment_type (Some "") db = available_rows apartment_type None db
  /\ get_available_apartments apartment_type move_in_date db
     = apartment_dict <$> available_rows apartment_type move_in_date db.
Proof.
  split; [|split; [apply filter_sublist | repeat split]].
  intros a. unfold available_rows.
  rewrite list_elem_of_In, filter_In, <- list_elem_of_In.
  rewrite !andb_true_iff, Z.eqb_eq.
  split.
  - intros (Hin & (Hav & Hty) & Hd). repeat split; try assumption.
    + intros ty -> Hne. rewrite (truthy_some ty Hne) in Hty. simpl in Hty.
      now apply String.eqb_eq in Hty.
    + intros bound -> Hne. rewrite (truthy_some bound Hne) in Hd.
      destruct (Apartments.available_date a) as [d|]; [eauto | discriminate].
  - intros (Hin & Hav & Hty & Hd). repeat split; try assumption.
    + destruct (truthy (py_str apartment_type)) eqn:T; [|reflexivity].
      apply truthy_py_str in T as (ty & -> & Hne). simpl.
      apply String.eqb_eq. now apply Hty.
    + destruct (truthy (py_str move_in_date)) eqn:T; [|reflexivity].
      apply truthy_py_str in T as (bound & -> & Hne).
      destruct (Hd bound eq_refl Hne) as (d & -> & Hle). exact Hle.
Qed.

Lemma available_rows_spec_witness :
  exists a,
    a ∈ available_rows (Some "1_bedroom") (Some "2025-07-01") initial_db
    /\ Apartments.apartment_type a = "1_bedroom"
    /\ exists d, Apartments.available_date a = Some d
                 /\ String.leb d "2025-07-01" = true.
Proof.
  assert (exists a, available_rows (Some "1_bedroom") (Some "2025-07-01")
                      initial_db !! 0%nat = Some a)
    as (a & Ha) by (eexists; reflexivity).
  apply list_elem_of_lookup_2 in Ha. exists a. split; [exact Ha|].
  destruct (available_rows_spec (Some "1_bedroom") (Some "2025-07-01")
              initial_db) as (Hspec & _).
  apply Hspec in Ha as (_ & _ & Hty & Hd).
  split.
  - apply (Hty "1_bedroom"); [reflexivity|discriminate].
  - apply (Hd "2025-07-01"); [reflexivity|discriminate].
Defined.

(** Byte-wise comparison of text. *)
Lemma ascii_compare_N a b :
  Ascii.compare a b = N.compare (N_of_ascii a) (N_of_ascii b).
Proof. reflexivity. Qed.

Lemma ascii_compare_eq a b : Ascii.compare a b = Eq -> a = b.
Proof.
  rewrite ascii_compare_N, N.compare_eq_iff. intros H.
  rewrite <- (ascii_N_embedding a), <- (ascii_N_embedding b). now rewrite H.
Qed.

Lemma string_compare_refl s : String.compare s s = Eq.
Proof.
  induction s as [|c s IH]; simpl; [reflexivity|].
  rewrite ascii_compare_N, N.compare_refl. exact IH.
Qed.

Lemma string_compare_lt_trans s1 :
  forall s2 s3,
    String.compare s1 s2 = Lt -> String.compare s2 s3 = Lt ->
    String.compare s1 s3 = Lt.
Proof.
  induction s1 as [|a s1 IH]; intros [|b s2] [|c s3]; simpl; try discriminate;
    try reflexivity.
  rewrite !ascii_compare_N.
  destruct (N.compare_spec (N_of_ascii a) (N_of_ascii b)) as [Eab|Lab|Gab];
    try discriminate;
    destruct (N.compare_spec (N_of_ascii b) (N_of_ascii c)) as [Ebc|Lbc|Gbc];
    try discriminate; intros H1 H2.
  - rewrite Eab, Ebc, N.compare_refl. eapply IH; eassumption.
  - rewrite Eab. now apply N.compare_lt_iff in Lbc as ->.
  - rewrite <- Ebc. now apply N.compare_lt_iff in Lab as ->.
  - assert (N_of_ascii a < N_of_ascii c)%N as H by lia.
    now apply N.compare_lt_iff in H as ->.
Qed.

Lemma string_leb_trans s1 s2 s3 :
  String.leb s1 s2 = true -> String.leb s2 s3 = true -> String.leb s1 s3 = true.
Proof.
  unfold String.leb.
  destruct (String.compare s1 s2) eqn:E12; try discriminate;
    destruct (String.compare s2 s3) eqn:E23; try discriminate; intros _ _.
  - apply String.compare_eq_iff in E12, E23. subst.
    now rewrite string_compare_refl.
  - apply String.compare_eq_iff in E12. subst. now rewrite E23.
  - apply String.compare_eq_iff in E23. subst. now rewrite E12.
  - now rewrite (string_compare_lt_trans _ _ _ E12 E23).
Qed.

(** X2. Listing is monotone: a later bound lists at least the units of an
    earlier one, and a listing with a type or a bound is a sub-listing, in
    the same order, of the listing without it. *)
Theorem available_rows_monotone apartment_type move_in_date db :
  (forall earlier later,
      earlier <> "" -> String.leb earlier later = true ->
      sublist (available_rows apartment_type (Some earlier) db)
              (available_rows apartment_type (Some later) db))
  /\ sublist (available_rows apartment_type move_in_date db)
             (available_rows None move_in_date db)
  /\ sublist (available_rows apartment_type move_in_date db)
             (available_rows apartment_type None db).
Proof.
  split; [|split].
  - intros earlier later Hne Hle. unfold available_rows.
    apply filter_sublist_impl. intros a.
    rewrite (truthy_some earlier Hne). rewrite !andb_true_iff.
    intros [Hrest Hd]. split; [exact Hrest|].
    destruct (truthy (py_str (Some later))); [|reflexivity].
    destruct (Apartments.available_date a) as [d|]; [|discriminate].
    eapply string_leb_trans; eassumption.
  - unfold available_rows. apply filter_sublist_impl. intros a.
    rewrite !andb_true_iff. intros [[Hav _] Hd]. simpl. auto.
  - unfold available_rows. apply filter_sublist_impl. intros a.
    rewrite !andb_true_iff. intros [[Hav Ht] _]. simpl. auto.
Qed.

Lemma available_rows_monotone_witness :
  sublist (available_rows (Some "1_bedroom") (Some "2025-07-01") initial_db)
          (available_rows (Some "1_bedroom") (Some "2025-07-31") initial_db).
Proof.
  apply (proj1 (available_rows_monotone (Some "1_bedroom") None initial_db)
           "2025-07-01" "2025-07-31").
  - discriminate.
  - reflexivity.
Defined.

(** ** Looking a unit up *)

Lemma filter_unique {A} (f : A -> Z) (l : list A) (a : A) :
  NoDup (f <$> l) -> a ∈ l ->
  List.filter (fun x => f x =? f a) l = [a].
Proof.
  induction l as [|x l IH]; intros Hnd Hin; [now apply elem_of_nil in Hin|].
  rewrite fmap_cons in Hnd. apply NoDup_cons in Hnd as [Hx Hnd]. simpl.
  apply elem_of_cons in Hin as [-> | Hin].
  - rewrite Z.eqb_refl. f_equal. apply filter_no_match, Forall_forall.
    intros y Hy. apply Z.eqb_neq. intros E. apply Hx. rewrite <- E.
    now apply list_elem_of_fmap_2.
  - destruct (Z.eqb_spec (f x) (f a)) as [E|_]; [|now apply IH].
    destruct Hx. rewrite E. now apply list_elem_of_fmap_2.
Qed.

Lemma bind_param_int z : int64 z -> bind_param (PyInt z) = Ok (Integer z).
Proof.
  intros [H1 H2]. simpl.
  apply Z.leb_le in H1. apply Z.ltb_lt in H2. now rewrite H1, H2.
Qed.

Lemma bind_param_int_raises z : ~ int64 z -> bind_param (PyInt z) = Raise BindingError.
Proof.
  intros H. simpl.
  destruct (Z.leb_spec (- 2 ^ 63) z); destruct (Z.ltb_spec z (2 ^ 63));
    try reflexivity.
  destruct H. split; assumption.
Qed.

(** X3. [get_apartment_by_id] with a 64-bit id returns the empty dict when
    no unit has the id and, the ids being unique, the record of the unit
    that has it (a non-empty dict with that id); it raises for an int
    beyond 64 bits; [None] matches no unit. *)
Theorem get_apartment_by_id_spec db :
  (forall z,
      int64 z ->
      Forall (fun a => Apartments.id a <> z) (apartments db) ->
      get_apartment_by_id (PyInt z) db = Ok ∅)
  /\ (forall a,
        a ∈ apartments db ->
        NoDup (Apartments.id <$> apartments db) ->
        int64 (Apartments.id a) ->
        get_apartment_by_id (PyInt (Apartments.id a)) db = Ok (apartment_dict a)
        /\ truthy (PyDict (apartment_dict a)) = true
        /\ apartment_dict a !! "id" = Some (PyInt (Apartments.id a)))
  /\ (forall z, ~ int64 z ->
        get_apartment_by_id (PyInt z) db = Raise BindingError)
  /\ get_apartment_by_id PyNone db = Ok ∅.
Proof.
  split; [|split; [intros a H H0 H1; split; [|split] | split]].
  - intros z Hz Hno. unfold get_apartment_by_id. rewrite (bind_param_int z Hz).
    cbv beta iota delta [mbind result_bind]. rewrite filter_no_match; [reflexivity|].
    eapply Forall_impl; [exact Hno|]. intros a Ha. simpl. now apply Z.eqb_neq.
  - unfold get_apartment_by_id. rewrite (bind_param_int _ H1).
    cbv beta iota delta [mbind result_bind]. simpl sql_eq.
    now rewrite (filter_unique Apartments.id (apartments db) a H0 H).
  - reflexivity.
  - reflexivity.
  - intros z Hz. unfold get_apartment_by_id. now rewrite (bind_param_int_raises z Hz).
  - unfold get_apartment_by_id. simpl.
    rewrite filter_no_match; [reflexivity | apply Forall_forall; auto].
Qed.

Lemma get_apartment_by_id_spec_witness :
  get_apartment_by_id (PyInt 999) initial_db = Ok ∅
  /\ (exists a, apartments_data !! 4%nat = Some a
                /\ get_apartment_by_id (PyInt (Apartments.id a)) initial_db
                   = Ok (apartment_dict a))
  /\ get_apartment_by_id (PyInt (2 ^ 63)) initial_db = Raise BindingError.
Proof.
  destruct (get_apartment_by_id_spec initial_db) as (Hmiss & Hhit & Hraise & _).
  split; [|split].
  - apply (Hmiss 999).
    + unfold int64. lia.
    + repeat constructor; discriminate.
  - eexists. split; [reflexivity|]. apply Hhit.
    + simpl. do 4 right. left.
    + apply (bool_decide_unpack _). vm_compute. exact I.
    + simpl. unfold int64. lia.
  - apply (Hraise (2 ^ 63)). unfold int64. lia.
Defined.

(** ** Booking in the store *)

Lemma next_rowid_above ids : Forall (fun i => i < next_rowid ids) ids.
Proof.
  unfold next_rowid. induction ids as [|i ids IH]; simpl; constructor; [lia|].
  eapply Forall_impl; [exact IH|]. simpl. intros; lia.
Qed.

Lemma next_rowid_fresh ids : next_rowid ids ∉ ids.
Proof.
  intros Hin. pose proof (next_rowid_above ids) as H.
  rewrite Forall_forall in H. specialize (H _ Hin). lia.
Qed.

Lemma schedule_tour_cases user_id tour_date tour_time apartment_id is_virtual
    notes db :
  (schedule_tour user_id tour_date tour_time apartment_id is_virtual notes db
   = (db, -1)
   /\ (~ bindable user_id \/ bind_param user_id = Ok Null
       \/ ~ bindable apartment_id))
  \/ (exists uid apt,
        bind_param user_id = Ok uid /\ uid <> Null
        /\ bind_param apartment_id = Ok apt
        /\ schedule_tour user_id tour_date tour_time apartment_id is_virtual
             notes db
           = (booked db
                {| Tours.id := next_rowid (Tours.id <$> tours db);
                   Tours.user_id := uid;
                   Tours.tour_date := tour_date;
                   Tours.tour_time := tour_time;
                   Tours.apartment_id := apt;
                   Tours.is_virtual := if is_virtual then 1 else 0;
                   Tours.status := "Scheduled";
                   Tours.notes := sql_text notes |},
              next_rowid (Tours.id <$> tours db))).
Proof.
  unfold schedule_tour, insert_tour, bindable.
  destruct (bind_param user_id) as [uid|];
    [|left; split; [reflexivity|left; intros [b Hb]; discriminate]].
  destruct (bind_param apartment_id) as [apt|];
    cbv beta iota delta [mbind result_bind];
    [|left; split; [reflexivity|right; right; intros [b Hb]; discriminate]].
  destruct uid; [left; split; [reflexivity|right; left; reflexivity]|..];
    right; eexists _, _; repeat split; discriminate.
Qed.

(** X4. [schedule_tour], given a prospect identifier (a str or [None])
    and a unit reference (an int or [None]), returns either the sentinel
    -1, and then the store is the one it was given and the identifier is
    [None] or the reference is beyond 64 bits, or a positive id above the
    ids of all bookings there were, and then the store has exactly one more
    row in [tours], with that id, the arguments as given and the status
    "Scheduled"; the reference is not checked against the units. *)
Theorem schedule_tour_outcome user_id tour_date tour_time apartment_id
    is_virtual notes db :
  let out := schedule_tour (py_str user_id) tour_date tour_time
               (py_int_opt apartment_id) is_virtual notes db in
  (out.2 = -1 /\ out.1 = db
   /\ (user_id = None \/ exists z, apartment_id = Some z /\ ~ int64 z))
  \/ (exists u,
        user_id = Some u
        /\ 0 < out.2
        /\ (out.2 ∉ (Tours.id <$> tours db))
        /\ Forall (fun i => i < out.2) (Tours.id <$> tours db)
        /\ out.1 = booked db
                     {| Tours.id := out.2;
                        Tours.user_id := Text u;
                        Tours.tour_date := tour_date;
                        Tours.tour_time := tour_time;
                        Tours.apartment_id := from_option Integer Null apartment_id;
                        Tours.is_virtual := if is_virtual then 1 else 0;
                        Tours.status := "Scheduled";
                        Tours.notes := sql_text notes |}).
Proof.
  cbv zeta.
  destruct (schedule_tour_cases (py_str user_id) tour_date tour_time
              (py_int_opt apartment_id) is_virtual notes db)
    as [[-> Hwhy] | (uid & apt & Hu & Hnn & Ha & ->)].
  - left. split; [reflexivity|]. split; [reflexivity|].
    destruct Hwhy as [Hu | [Hu | Ha]].
    + exfalso. apply Hu. destruct user_id; eexists; reflexivity.
    + left. destruct user_id; [discriminate|reflexivity].
    + right. destruct apartment_id as [z|];
        [|exfalso; apply Ha; eexists; reflexivity].
      exists z. split; [reflexivity|]. intros Hz. apply Ha.
      exists (Integer z). exact (bind_param_int z Hz).
  - right. destruct user_id as [u|]; simpl in Hu;
      [injection Hu as <-|injection Hu as <-; congruence].
    exists u. simpl.
    split; [reflexivity|]. split; [apply next_rowid_pos|].
    split; [apply next_rowid_fresh|]. split; [apply next_rowid_above|].
    do 2 f_equal.
    destruct apartment_id as [z|]; simpl in Ha |- *; [|now injection Ha as <-].
    destruct ((- 2 ^ 63 <=? z) && (z <? 2 ^ 63)); [|discriminate].
    now injection Ha as <-.
Qed.

Lemma schedule_tour_outcome_witness :
  schedule_tour PyNone "2025-07-01" "10:00" (PyInt 101) false None initial_db
  = (initial_db, -1)
  /\ (schedule_tour (PyStr "u") "2025-07-01" "10:00" (PyInt 101) false None
        initial_db).2 = 1.
Proof.
  split.
  - destruct (schedule_tour_outcome None "2025-07-01" "10:00" (Some 101)
                false None initial_db) as [(H2 & H1 & _) | (u & Hu & _)].
    + now apply injective_projections.
    + discriminate.
  - destruct (schedule_tour_outcome (Some "u") "2025-07-01" "10:00"
                (Some 101) false None initial_db)
      as [(H2 & _) | (u & _ & _ & _ & _ & _)]; [|reflexivity].
    exfalso. vm_compute in H2. discriminate.
Defined.

(** ** What every reachable store satisfies *)

Lemma well_formed_initial : well_formed initial_db.
Proof. split; simpl; try constructor; reflexivity. Qed.

Lemma create_user_inv rt name phone email move_in_date ty has_pets db db' uid :
  create_user rt name phone email move_in_date ty has_pets db = Ok (db', uid) ->
  uid = uuid4 rt
  /\ (uuid4 rt ∉ (Users.user_id <$> users db))
  /\ db' = {| apartments := apartments db;
              users := users db
                       ++ [created_row rt name phone email move_in_date ty
                             has_pets db];
              tours := tours db |}.
Proof.
  unfold create_user.
  destruct (existsb _ _) eqn:E; [discriminate|].
  intros [= <- <-]. repeat split.
  intros Hin. apply list_elem_of_fmap in Hin as (u & Hu & Hin).
  assert (existsb (user_matches (Text (uuid4 rt))) (users db) = true) as Ht.
  { apply existsb_exists. exists u. split; [now apply list_elem_of_In|].
    unfold user_matches. simpl. rewrite <- Hu. apply String.eqb_refl. }
  congruence.
Qed.

Lemma create_user_well_formed rt name phone email move_in_date ty has_pets db
    db' uid :
  create_user rt name phone email move_in_date ty has_pets db = Ok (db', uid) ->
  well_formed db -> well_formed db'.
Proof.
  intros H [W1 W2 W3 W4 W5 W6 W7].
  apply create_user_inv in H as (_ & Hfresh & ->).
  split; simpl; try assumption; rewrite ?fmap_app; simpl.
  - apply NoDup_app. repeat split; [assumption | | apply NoDup_singleton].
    intros x Hx Hin. apply list_elem_of_singleton in Hin. now subst.
  - apply NoDup_app. repeat split; [assumption | | apply NoDup_singleton].
    intros x Hx Hin. apply list_elem_of_singleton in Hin. subst.
    now apply next_rowid_fresh in Hx.
  - apply Forall_app. split; [assumption|]. repeat constructor.
    apply next_rowid_pos.
Qed.

Lemma update_user_keeps_ids rt user_id kwargs db db' ok :
  update_user rt user_id kwargs db = Ok (db', ok) ->
  Users.user_id <$> users db' = Users.user_id <$> users db
  /\ Users.id <$> users db' = Users.id <$> users db
  /\ Users.created_at <$> users db' = Users.created_at <$> users db.
Proof.
  intros H. apply update_user_inv in H as (_ & _ & HF).
  induction HF as [|u u' l l' Hu _ IH]; [repeat split|].
  destruct IH as (I1 & I2 & I3). rewrite !fmap_cons, I1, I2, I3.
  destruct Hu as [-> | [-> _]]; repeat split.
Qed.

Lemma update_user_well_formed rt user_id kwargs db db' ok :
  update_user rt user_id kwargs db = Ok (db', ok) ->
  well_formed db -> well_formed db'.
Proof.
  intros H [W1 W2 W3 W4 W5 W6 W7].
  pose proof (update_user_keeps_ids _ _ _ _ _ _ H) as (I1 & I2 & _).
  apply update_user_inv in H as (Ha & Ht & _).
  split; rewrite ?I1, ?I2, ?Ha, ?Ht; assumption.
Qed.

Lemma schedule_tour_well_formed user_id tour_date tour_time apartment_id
    is_virtual notes db :
  well_formed db ->
  well_formed (schedule_tour user_id tour_date tour_time apartment_id
                 is_virtual notes db).1.
Proof.
  intros [W1 W2 W3 W4 W5 W6 W7].
  destruct (schedule_tour_cases user_id tour_date tour_time apartment_id
              is_virtual notes db)
    as [[-> _] | (uid & apt & _ & Hnn & _ & ->)];
    [now split|].
  pose proof (next_rowid_pos (Tours.id <$> tours db)) as Hpos.
  pose proof (next_rowid_fresh (Tours.id <$> tours db)) as Hfresh.
  split; simpl; try assumption; rewrite ?fmap_app; simpl.
  - apply NoDup_app. repeat split; [assumption | | apply NoDup_singleton].
    intros x Hx Hin. apply list_elem_of_singleton in Hin. now subst.
  - apply Forall_app. split; [assumption|]. now repeat constructor.
  - apply Forall_app. split; [assumption|]. now repeat constructor.
Qed.

(** What a tool does to the store is what the store operations it calls
    do. *)
Lemma manage_user_store rt action user_id name phone email move_in_date ty
    has_pets income credit_score notes tool_context db ctx' db' payload :
  manage_user rt action user_id name phone email move_in_date ty has_pets
    income credit_score notes tool_context db = Ok (ctx', db', payload) ->
  db' = db
  \/ (action = "create"
      /\ create_user rt name phone email (formatted_move_in_date move_in_date)
           ty has_pets db = Ok (db', uuid4 rt))
  \/ (action = "update"
      /\ exists uid ok,
           update_user rt uid
             (update_fields name phone email
                (formatted_move_in_date move_in_date) ty has_pets income
                credit_score notes) db = Ok (db', ok)).
Proof.
  unfold manage_user.
  destruct (String.eqb_spec action "create") as [-> | _].
  { destruct (create_user _ _ _ _ _ _ _ _) as [[db1 uid]|] eqn:C; [|discriminate].
    pose proof (create_user_inv _ _ _ _ _ _ _ _ _ _ C) as (-> & _).
    cbv beta iota delta [mbind result_bind].
    destruct (truthy _); intros [= _ <- _]; right; left; auto. }
  destruct (String.eqb_spec action "update") as [-> | _].
  { destruct (negb _); [intros [= _ <- _]; now left|].
    destruct (update_user _ _ _ _) as [[db1 ok]|] eqn:U; [|discriminate].
    cbv beta iota delta [mbind result_bind].
    destruct ok; [destruct (merge_user_info _ _ _); [|discriminate]|];
      intros [= _ <- _]; right; right; eauto. }
  destruct (String.eqb action "get").
  { destruct (negb _); [intros [= _ <- _]; now left|].
    destruct (get_user _ _); [|discriminate].
    cbv beta iota delta [mbind result_bind].
    destruct (truthy _); intros [= _ <- _]; now left. }
  intros [= _ <- _]. now left.
Qed.

Lemma schedule_property_tour_store rt tour_date tour_time is_virtual
    apartment_id apartment_type notes tool_context db ctx' db' payload :
  schedule_property_tour rt tour_date tour_time is_virtual apartment_id
    apartment_type notes tool_context db = Ok (ctx', db', payload) ->
  db' = db
  \/ exists user_id formatted_time,
       parse_time tour_time = Some formatted_time
       /\ db' = (schedule_tour user_id (parse_date rt tour_date) formatted_time
                   (choose_apartment apartment_id apartment_type db)
                   is_virtual notes db).1.
Proof.
  unfold schedule_property_tour.
  destruct (negb _); [intros [= _ <- _]; now left|].
  destruct (parse_time tour_time) as [ft|]; [|intros [= _ <- _]; now left].
  destruct (schedule_tour _ _ _ _ _ _ _) as [db1 tid] eqn:S.
  assert (db1 = (schedule_tour
                   (default PyNone (session_user (ensure_state tool_context)))
                   (parse_date rt tour_date) ft
                   (choose_apartment apartment_id apartment_type db)
                   is_virtual notes db).1) as Hdb by now rewrite S.
  destruct (0 <? tid).
  - match goal with |- context [mbind _ ?m] => destruct m end;
      [|discriminate].
    cbv beta iota delta [mbind result_bind].
    intros [= _ <- _]. right. eauto.
  - intros [= _ <- _]. right. eauto.
Qed.

Lemma store_step_well_formed db db' :
  store_step db db' -> well_formed db -> well_formed db'.
Proof.
  intros [ | | | | ]; intros.
  - eapply create_user_well_formed; eassumption.
  - eapply update_user_well_formed; eassumption.
  - match goal with H : schedule_tour _ _ _ _ _ _ _ = _ |- _ =>
      apply (f_equal fst) in H; simpl in H; rewrite <- H end.
    now apply schedule_tour_well_formed.
  - match goal with H : manage_user _ _ _ _ _ _ _ _ _ _ _ _ _ _ = _ |- _ =>
      apply manage_user_store in H
        as [-> | [[_ H] | [_ (uid & ok & H)]]] end;
      [assumption
      | eapply create_user_well_formed; eassumption
      | eapply update_user_well_formed; eassumption].
  - match goal with H : schedule_property_tour _ _ _ _ _ _ _ _ _ = _ |- _ =>
      apply schedule_property_tour_store in H
        as [-> | (uid & ft & _ & ->)] end;
      [assumption | now apply schedule_tour_well_formed].
Qed.

(** X5. Every store reached from the seeded store by calls of
    [create_user], [update_user], [schedule_tour], [manage_user] and
    [schedule_property_tour] is well formed: prospect identifiers are
    unique, row ids of prospects and of bookings are unique and positive,
    every booking has the status "Scheduled" and a prospect identifier, and
    the units are still those of the seed data. *)
Theorem reachable_well_formed db :
  rtc store_step initial_db db -> well_formed db.
Proof.
  intros H. pose proof well_formed_initial as W. revert W.
  induction H as [db | db0 db1 db2 Hstep _ IH]; intros W; [exact W|].
  apply IH. eapply store_step_well_formed; eassumption.
Qed.

Lemma reachable_well_formed_witness :
  well_formed
    (schedule_tour (PyStr (uuid4 sample_runtime)) "2025-06-21" "09:00"
       (PyInt 101) true None
       (schedule_tour (PyStr (uuid4 sample_runtime)) "2025-06-20" "10:00"
          PyNone false None initial_db).1).1.
Proof.
  apply reachable_well_formed.
  eapply rtc_l; [|apply rtc_once].
  - eapply (step_schedule_tour initial_db (PyStr (uuid4 sample_runtime))
              "2025-06-20" "10:00" PyNone false None).
    apply surjective_pairing.
  - eapply (step_schedule_tour _ (PyStr (uuid4 sample_runtime))
              "2025-06-21" "09:00" (PyInt 101) true None).
    apply surjective_pairing.
Defined.

(** ** Listing the bookings of a prospect *)

Lemma tour_le_total : Total tour_le.
Proof.
  intros x y. unfold tour_le, tour_leb.
  rewrite (String.compare_antisym (Tours.tour_date y.1) (Tours.tour_date x.1)).
  destruct (String.compare (Tours.tour_date x.1) (Tours.tour_date y.1)); simpl;
    auto.
  apply String.leb_total.
Qed.

Lemma tour_le_trans : Transitive tour_le.
Proof.
  intros x y z. unfold tour_le, tour_leb.
  destruct (String.compare (Tours.tour_date x.1) (Tours.tour_date y.1)) eqn:Exy;
    try discriminate;
    destruct (String.compare (Tours.tour_date y.1) (Tours.tour_date z.1)) eqn:Eyz;
    try discriminate; intros Hxy Hyz.
  - apply String.compare_eq_iff in Exy, Eyz. rewrite Exy, Eyz, string_compare_refl.
    eapply string_leb_trans; eassumption.
  - apply String.compare_eq_iff in Exy. now rewrite Exy, Eyz.
  - apply String.compare_eq_iff in Eyz. now rewrite <- Eyz, Exy.
  - now rewrite (string_compare_lt_trans _ _ _ Exy Eyz).
Qed.

Lemma sql_eq_same_id v x y :
  sql_eq v (Integer x) = true -> sql_eq v (Integer y) = true -> x = y.
Proof.
  destruct v as [|z|q|s]; simpl; try discriminate.
  - rewrite !Z.eqb_eq. congruence.
  - intros Hx Hy. apply Qeq_bool_iff in Hx, Hy.
    apply (inject_Z_injective x y). now rewrite Hx, Hy.
Qed.

Lemma filter_at_most_one {A} (f : A -> Z) (p : A -> bool) (l : list A) :
  NoDup (f <$> l) ->
  (forall x y, p x = true -> p y = true -> f x = f y) ->
  List.filter p l = [] \/ exists a, List.filter p l = [a].
Proof.
  intros Hnd Hp. induction l as [|x l IH]; [now left|].
  rewrite fmap_cons in Hnd. apply NoDup_cons in Hnd as [Hx Hnd]. simpl.
  destruct (p x) eqn:Px; [|now apply IH].
  right. exists x. f_equal. apply filter_no_match, Forall_forall.
  intros y Hy. destruct (p y) eqn:Py; [|reflexivity].
  destruct Hx. rewrite (Hp x y Px Py). now apply list_elem_of_fmap_2.
Qed.

(** The left join pairs a booking with a unit of its id, or with none when
    no unit has it. *)
Lemma elem_of_tour_join db t t' oa :
  (t', oa) ∈ tour_join db t <->
  t' = t
  /\ match oa with
     | Some a => a ∈ apartments db
                 /\ sql_eq (Tours.apartment_id t) (Integer (Apartments.id a)) = true
     | None => Forall (fun a => sql_eq (Tours.apartment_id t)
                                  (Integer (Apartments.id a)) = false)
                 (apartments db)
     end.
Proof.
  unfold tour_join.
  set (p := fun a => sql_eq (Tours.apartment_id t) (Integer (Apartments.id a))).
  assert (forall a, a ∈ List.filter p (apartments db) <-> a ∈ apartments db /\ p a = true)
    as Hf by (intros a; now rewrite !list_elem_of_In, filter_In).
  destruct (List.filter p (apartments db)) as [|u units] eqn:E.
  - rewrite list_elem_of_singleton. split.
    + intros [= -> ->]. split; [reflexivity|]. apply Forall_forall.
      intros a Ha. destruct (p a) eqn:Pa; [|exact Pa].
      assert (a ∈ []) as Hnil by (apply Hf; auto). now apply elem_of_nil in Hnil.
    + intros [-> H]. destruct oa as [a|]; [|reflexivity].
      destruct H as [Ha Pa]. assert (a ∈ []) as Hnil by (apply Hf; auto).
      now apply elem_of_nil in Hnil.
  - rewrite list_elem_of_fmap. split.
    + intros (a & [= -> ->] & Ha). split; [reflexivity|]. now apply Hf.
    + intros [-> H]. destruct oa as [a|].
      * exists a. split; [reflexivity|]. now apply Hf.
      * rewrite Forall_forall in H. assert (u ∈ u :: units) as Hu by constructor.
        apply Hf in Hu as [Hu Pu]. unfold p in Pu. rewrite (H u Hu) in Pu.
        discriminate.
Qed.

Lemma tour_join_unique db t :
  NoDup (Apartments.id <$> apartments db) ->
  (tour_join db t).*1 = [t].
Proof.
  intros Hnd. unfold tour_join.
  destruct (filter_at_most_one Apartments.id
              (fun a => sql_eq (Tours.apartment_id t) (Integer (Apartments.id a)))
              (apartments db) Hnd) as [-> | [a ->]]; try reflexivity.
  intros x y. apply sql_eq_same_id.
Qed.

Lemma place_row_Permutation x l : place_row x l ≡ₚ x :: l.
Proof.
  induction l as [|y l IH]; simpl; [reflexivity|].
  destruct (tour_leb x y); [reflexivity|].
  rewrite IH. apply Permutation_swap.
Qed.

Lemma order_rows_Permutation l : order_rows l ≡ₚ l.
Proof.
  induction l as [|x l IH]; simpl; [reflexivity|].
  now rewrite place_row_Permutation, IH.
Qed.

Lemma place_row_sorted x l :
  StronglySorted tour_le l -> StronglySorted tour_le (place_row x l).
Proof.
  induction 1 as [|y l Hs IH Hy]; simpl; [repeat constructor|].
  destruct (tour_leb x y) eqn:E.
  - constructor; [now constructor|]. constructor; [exact E|].
    eapply Forall_impl; [exact Hy|]. intros z Hz.
    exact (tour_le_trans x y z E Hz).
  - constructor; [exact IH|].
    rewrite place_row_Permutation. constructor; [|exact Hy].
    destruct (tour_le_total x y) as [H|H]; [|exact H].
    unfold tour_le in H. congruence.
Qed.

Lemma order_rows_sorted l : StronglySorted tour_le (order_rows l).
Proof.
  induction l as [|x l IH]; simpl; [constructor|]. now apply place_row_sorted.
Qed.

(** Rows that are all of one date and time are listed as they are
    stored. *)
Lemma order_rows_ties l :
  (forall x y, x ∈ l -> y ∈ l -> tour_leb x y = true) -> order_rows l = l.
Proof.
  induction l as [|x l IH]; intros H; [reflexivity|]. simpl.
  rewrite IH by (intros y z Hy Hz; apply H; now right).
  destruct l as [|y l]; [reflexivity|]. simpl.
  now rewrite (H x y) by (repeat constructor).
Qed.

Lemma elem_of_user_tour_rows key db t oa :
  (t, oa) ∈ user_tour_rows key db <->
  t ∈ tours db
  /\ sql_eq (Tours.user_id t) key = true
  /\ match oa with
     | Some a =>
         a ∈ apartments db
         /\ sql_eq (Tours.apartment_id t) (Integer (Apartments.id a)) = true
     | None =>
         Forall (fun a => sql_eq (Tours.apartment_id t)
                            (Integer (Apartments.id a)) = false)
           (apartments db)
     end.
Proof.
  unfold user_tour_rows.
  rewrite order_rows_Permutation, list_elem_of_bind. split.
  - intros (t' & Hj & Hin). apply elem_of_tour_join in Hj as [-> Hj].
    apply list_elem_of_In, filter_In in Hin as [Hin Hk].
    apply list_elem_of_In in Hin. auto.
  - intros (Hin & Hk & Hj). exists t. split.
    + apply elem_of_tour_join. auto.
    + apply list_elem_of_In, filter_In. split; [now apply list_elem_of_In | exact Hk].
Qed.

(** X6. The rows [get_user_tours] lists for an identifier are ordered by
    date, then by time (text compared byte-wise); they are the bookings of
    the store with that prospect identifier, each paired with a unit of the
    id it refers to, or with no unit when there is none of that id (or no
    reference); with unit ids unique every such booking is listed exactly
    once; the function returns their dicts. *)
Theorem user_tour_rows_spec u db :
  StronglySorted tour_le (user_tour_rows (Text u) db)
  /\ (forall t oa,
        (t, oa) ∈ user_tour_rows (Text u) db <->
        t ∈ tours db
        /\ Tours.user_id t = Text u
        /\ match oa with
           | Some a =>
               a ∈ apartments db
               /\ sql_eq (Tours.apartment_id t) (Integer (Apartments.id a)) = true
           | None =>
               Forall (fun a => sql_eq (Tours.apartment_id t)
                                  (Integer (Apartments.id a)) = false)
                 (apartments db)
           end)
  /\ (NoDup (Apartments.id <$> apartments db) ->
      (user_tour_rows (Text u) db).*1
      ≡ₚ List.filter (fun t => sql_eq (Tours.user_id t) (Text u)) (tours db))
  /\ get_user_tours (PyStr u) db = Ok (tour_dict <$> user_tour_rows (Text u) db).
Proof.
  split; [apply order_rows_sorted|].
  split; [|split; [|reflexivity]].
  - intros t oa. rewrite elem_of_user_tour_rows.
    assert (sql_eq (Tours.user_id t) (Text u) = true <-> Tours.user_id t = Text u)
      as ->; [|reflexivity].
    destruct (Tours.user_id t) as [|z|q|s]; simpl; try (split; discriminate).
    rewrite String.eqb_eq. split; congruence.
  - intros Hnd. unfold user_tour_rows. rewrite order_rows_Permutation.
    induction (List.filter _ (tours db)) as [|t l IH]; [reflexivity|].
    rewrite bind_cons, fmap_app, (tour_join_unique db t Hnd). simpl.
    now constructor.
Qed.

Lemma user_tour_rows_spec_witness :
  let db := (schedule_tour (PyStr "u") "2025-07-02" "10:00" (PyInt 101) false
               None
               (schedule_tour (PyStr "u") "2025-07-01" "15:00" PyNone true None
                  initial_db).1).1 in
  (user_tour_rows (Text "u") db).*1
  ≡ₚ List.filter (fun t => sql_eq (Tours.user_id t) (Text "u")) (tours db)
  /\ get_user_tours (PyStr "u") db
     = Ok (tour_dict <$> user_tour_rows (Text "u") db).
Proof.
  cbv zeta.
  match goal with |- context [user_tour_rows (Text ?k) ?d] =>
    destruct (user_tour_rows_spec k d) as (_ & _ & Hp & Hg) end.
  split.
  - apply Hp. apply (bool_decide_unpack _). vm_compute. exact I.
  - exact Hg.
Defined.

Lemma tour_join_inhabited db t : exists oa, (t, oa) ∈ tour_join db t.
Proof.
  unfold tour_join. destruct (List.filter _ _) as [|a l].
  - exists None. constructor.
  - exists (Some a). simpl. constructor.
Qed.

Lemma tour_join_booked db new t : tour_join (booked db new) t = tour_join db t.
Proof. reflexivity. Qed.

(** X7. A booking [schedule_tour] has made for a prospect is in that
    prospect's listing, with the id returned, the date, time and virtual
    flag given and the status "Scheduled"; the listings of the other
    prospects are what they were. *)
Theorem schedule_tour_listed u tour_date tour_time apartment_id is_virtual
    notes db :
  bindable apartment_id ->
  let out := schedule_tour (PyStr u) tour_date tour_time apartment_id
               is_virtual notes db in
  0 < out.2
  /\ (exists listing entry,
        get_user_tours (PyStr u) out.1 = Ok listing
        /\ entry ∈ listing
        /\ entry !! "id" = Some (PyInt out.2)
        /\ entry !! "user_id" = Some (PyStr u)
        /\ entry !! "tour_date" = Some (PyStr tour_date)
        /\ entry !! "tour_time" = Some (PyStr tour_time)
        /\ entry !! "is_virtual" = Some (PyBool is_virtual)
        /\ entry !! "status" = Some (PyStr "Scheduled"))
  /\ (forall other,
        other <> u ->
        get_user_tours (PyStr other) out.1 = get_user_tours (PyStr other) db).
Proof.
  intros [apt Hapt]. cbv zeta.
  destruct (schedule_tour_cases (PyStr u) tour_date tour_time apartment_id
              is_virtual notes db)
    as [[_ [Hu | [Hu | Ha]]] | (uid & apt' & Hu & _ & _ & Hdb)];
    [exfalso; apply Hu; eexists; reflexivity
    |discriminate
    |exfalso; apply Ha; now exists apt
    |].
  injection Hu as <-.
  rewrite Hdb. split; [apply next_rowid_pos|]. split.
  - set (new := {| Tours.id := _ |}).
    destruct (tour_join_inhabited db new) as [oa Hj].
    exists (tour_dict <$> user_tour_rows (Text u) (booked db new)),
      (tour_dict (new, oa)).
    split; [reflexivity|]. split.
    + apply list_elem_of_fmap_2.
      apply elem_of_user_tour_rows.
      apply elem_of_tour_join in Hj as [_ Hj].
      split; [simpl; apply elem_of_app; right; constructor|].
      split; [simpl; apply String.eqb_refl | exact Hj].
    + repeat split; try reflexivity. simpl. now destruct is_virtual.
  - intros other Hne. unfold get_user_tours. simpl. f_equal. f_equal.
    unfold user_tour_rows. simpl. rewrite List.filter_app. simpl.
    destruct (String.eqb_spec u other) as [E|_]; [congruence|].
    now rewrite app_nil_r.
Qed.

Lemma schedule_tour_listed_witness :
  exists listing entry,
    get_user_tours (PyStr "u")
      (schedule_tour (PyStr "u") "2025-07-02" "10:00" (PyInt 101) false None
         initial_db).1 = Ok listing
    /\ entry ∈ listing
    /\ entry !! "id" = Some (PyInt 1)
    /\ entry !! "status" = Some (PyStr "Scheduled").
Proof.
  destruct (schedule_tour_listed "u" "2025-07-02" "10:00" (PyInt 101) false None
              initial_db)
    as (_ & (listing & entry & H1 & H2 & H3 & _ & _ & _ & _ & H4) & _).
  - eexists. reflexivity.
  - exists listing, entry. auto.
Defined.

(** ** Updating and reading a prospect *)

Lemma set_clause_bindable kwargs :
  (forall k v, kwargs !! k = Some v -> k ∈ updatable -> bindable v) ->
  forall k v, set_clause kwargs !! k = Some v -> bindable v.
Proof.
  intros Hvals k v. rewrite set_clause_lookup.
  destruct (kwargs !! k) as [w|] eqn:Hw; simpl; [|discriminate].
  intros Hs. destruct (set_param_recognized _ _ _ Hs) as [Hk | ->].
  - rewrite (set_param_updatable k w Hk) in Hs. injection Hs as <-. eauto.
  - rewrite set_param_has_pets in Hs.
    destruct w; try discriminate; injection Hs as <-;
      match goal with |- bindable (PyInt (if ?c then _ else _)) =>
        destruct c; eexists; reflexivity end.
Qed.

(** A returning [update_user] either had nothing to write, or bound all
    its parameters and ran the [UPDATE]. *)
Lemma update_user_cases rt user_id kwargs db db' ok :
  update_user rt user_id kwargs db = Ok (db', ok) ->
  (set_clause kwargs = ∅ /\ db' = db /\ ok = false)
  \/ (set_clause kwargs <> ∅
      /\ exists key,
           bind_param user_id = Ok key
           /\ (forall k v, set_clause kwargs !! k = Some v -> bindable v)
           /\ db' = {| apartments := apartments db;
                       users := updated_users key (sql_of <$> set_clause kwargs)
                                  (Text (now rt)) (users db);
                       tours := tours db |}
           /\ ok = bool_decide
                     (0 < length (List.filter (user_matches key) (users db)))%nat).
Proof.
  intros H.
  assert (forall k v, Nat.eqb (size (set_clause kwargs)) 0 = false ->
            set_clause kwargs !! k = Some v -> bindable v) as Hb.
  { intros k v E Hk. revert H. unfold update_user.
    destruct (Nat.eqb (size kwargs) 0) eqn:E0.
    { apply size_zero_empty in E0. subst. rewrite set_clause_empty in Hk.
      now rewrite lookup_empty in Hk. }
    rewrite E.
    destruct (bind_params _) as [bound|] eqn:B; [|discriminate]. intros _.
    apply bind_params_inv in B as [_ HF]. rewrite Forall_forall in HF.
    apply (HF (k, v)). now apply elem_of_map_to_list. }
  destruct (Nat.eqb (size (set_clause kwargs)) 0) eqn:E.
  - left. revert H. unfold update_user. rewrite E.
    destruct (Nat.eqb (size kwargs) 0); intros [= <- <-];
      apply size_zero_empty in E; auto.
  - right. split; [intros He; apply size_zero_empty in He; congruence|].
    destruct (bind_param user_id) as [key|] eqn:K.
    + exists key. rewrite (update_user_bound rt user_id kwargs db key) in H
        by (eauto using Hb). rewrite E in H. injection H as <- <-. eauto 10.
    + revert H. unfold update_user.
      destruct (Nat.eqb (size kwargs) 0) eqn:E0.
      { apply size_zero_empty in E0. subst. rewrite set_clause_empty in E.
        discriminate. }
      rewrite E, K. destruct (bind_params _); discriminate.
Qed.

Lemma filter_updated_users key assignments stamp us :
  List.filter (user_matches key) (updated_users key assignments stamp us)
  = apply_set assignments stamp <$> List.filter (user_matches key) us.
Proof.
  unfold updated_users. induction us as [|u us IH]; [reflexivity|].
  rewrite fmap_cons. simpl. destruct (user_matches key u) eqn:E; simpl.
  - change (user_matches key (apply_set assignments stamp u))
      with (user_matches key u). rewrite E. simpl. now rewrite IH.
  - now rewrite E, IH.
Qed.

Lemma user_dict_column c u :
  c ∈ updatable -> user_dict u !! c = Some (to_py (column c u)).
Proof.
  unfold updatable. intros H.
  repeat (apply elem_of_cons in H as [-> | H]; [reflexivity|]).
  now apply elem_of_nil in H.
Qed.

Lemma well_typed_read_back c v : well_typed c v -> read_back v = v.
Proof.
  destruct v as [|b|z|q|s|d|l]; simpl; try tauto; try reflexivity.
  intros [_ Hz]. unfold read_back, sql_of. now rewrite (bind_param_int z Hz).
Qed.

(** X8. After an [update_user] that returned true, with values of the
    types of their columns (a str for the text columns, a float for
    [income], a 64-bit int for [credit_score], or [None]), [get_user] with
    the same identifier returns the record it returned before, with each
    supplied plain field replaced by the supplied value, [has_pets]
    replaced by the truth value of a supplied value other than [None], and
    [last_contact] set to the time of the call; the id, the identifier and
    [created_at] are the same. *)
Theorem update_user_then_get_user rt uid kwargs db db' :
  (forall c v, kwargs !! c = Some v -> c ∈ updatable -> well_typed c v) ->
  update_user rt (PyStr uid) kwargs db = Ok (db', true) ->
  exists before after,
    get_user (PyStr uid) db = Ok before
    /\ get_user (PyStr uid) db' = Ok after
    /\ after !! "last_contact" = Some (PyStr (now rt))
    /\ (forall c, c ∈ updatable ->
          after !! c = match kwargs !! c with
                       | Some v => Some v
                       | None => before !! c
                       end)
    /\ after !! "has_pets"
       = match kwargs !! "has_pets" with
         | None | Some PyNone => before !! "has_pets"
         | Some v => Some (PyBool (truthy v))
         end
    /\ after !! "user_id" = Some (PyStr uid)
    /\ before !! "user_id" = Some (PyStr uid)
    /\ after !! "id" = before !! "id"
    /\ after !! "created_at" = before !! "created_at".
Proof.
  intros Hty H. apply update_user_cases in H
    as [(_ & _ & [=]) | (Hne & key & [= <-] & Hb & -> & Hok)].
  symmetry in Hok. apply bool_decide_eq_true in Hok.
  unfold get_user. simpl bind_param.
  cbv beta iota delta [mbind result_bind]. simpl users.
  rewrite filter_updated_users.
  destruct (List.filter (user_matches (Text uid)) (users db)) as [|u us] eqn:F;
    [simpl in Hok; lia|].
  assert (Users.user_id u = uid) as Hu.
  { assert (In u (List.filter (user_matches (Text uid)) (users db))) as Hin
      by (rewrite F; now left).
    apply filter_In in Hin as [_ Hm]. unfold user_matches in Hm. simpl in Hm.
    now apply String.eqb_eq in Hm. }
  eexists _, _. split; [reflexivity|]. split; [reflexivity|].
  split; [reflexivity|]. split; [|split].
  - intros c Hc. rewrite !user_dict_column by assumption.
    rewrite apply_set_column by now left.
    rewrite lookup_fmap, set_clause_lookup.
    destruct (kwargs !! c) as [v|] eqn:Hv; simpl; [|reflexivity].
    rewrite (set_param_updatable c v Hc). simpl. f_equal.
    exact (well_typed_read_back c v (Hty c v Hv Hc)).
  - change (user_dict ?r !! "has_pets") with (Some (has_pets_py (Users.has_pets r))).
    change (Users.has_pets (apply_set ?a ?s ?r))
      with (default (Users.has_pets r) (a !! "has_pets")).
    rewrite lookup_fmap, set_clause_lookup.
    destruct (kwargs !! "has_pets") as [v|]; simpl; [|reflexivity].
    rewrite set_param_has_pets.
    destruct v; try reflexivity; simpl; rewrite sql_of_flag; simpl;
      match goal with |- context [if ?c then _ else _] => now destruct c end.
  - repeat split; try reflexivity;
      change (user_dict ?r !! "user_id") with (Some (PyStr (Users.user_id r)));
      simpl; now rewrite Hu.
Qed.

Lemma update_user_then_get_user_witness :
  exists before after,
    get_user (PyStr "3f2b8c1e-0000-4000-8000-000000000001") one_prospect_db
    = Ok before
    /\ get_user (PyStr "3f2b8c1e-0000-4000-8000-000000000001")
         {| apartments := apartments one_prospect_db;
            users := updated_users
                       (Text "3f2b8c1e-0000-4000-8000-000000000001")
                       (sql_of <$> set_clause {[ "income" := PyFloat 5200 ]})
                       (Text (now sample_runtime)) (users one_prospect_db);
            tours := tours one_prospect_db |} = Ok after
    /\ after !! "income" = Some (PyFloat 5200)
    /\ after !! "name" = before !! "name".
Proof.
  destruct (update_user_then_get_user sample_runtime
              "3f2b8c1e-0000-4000-8000-000000000001"
              {[ "income" := PyFloat 5200 ]} one_prospect_db
              {| apartments := apartments one_prospect_db;
                 users := updated_users
                            (Text "3f2b8c1e-0000-4000-8000-000000000001")
                            (sql_of <$> set_clause {[ "income" := PyFloat 5200 ]})
                            (Text (now sample_runtime)) (users one_prospect_db);
                 tours := tours one_prospect_db |})
    as (before & after & H1 & H2 & _ & Hc & _).
  - intros c v Hv _. apply lookup_singleton_Some in Hv as [<- <-]. reflexivity.
  - vm_compute. reflexivity.
  - exists before, after. split; [exact H1|]. split; [exact H2|]. split.
    + rewrite (Hc "income") by (unfold updatable; set_solver). reflexivity.
    + rewrite (Hc "name") by (unfold updatable; set_solver). reflexivity.
Defined.

(** ** The pricing summary of any store *)

Lemma group_by_type_of_type rows ty :
  group_by_type rows !! ty = group_by_type (of_type ty rows) !! ty.
Proof.
  induction rows as [|a rows IH] using rev_ind; [reflexivity|].
  rewrite of_type_snoc, group_by_type_snoc.
  destruct (String.eqb_spec (Apartments.apartment_type a) ty) as [E|Hne].
  - rewrite group_by_type_snoc, E, !lookup_partial_alter_eq. now rewrite IH.
  - rewrite lookup_partial_alter_ne by assumption. now rewrite app_nil_r.
Qed.

Lemma of_type_other ty t rows : ty <> t -> of_type ty (of_type t rows) = [].
Proof.
  intros Hne. unfold of_type. apply filter_no_match, Forall_forall.
  intros a Ha. apply list_elem_of_In, filter_In in Ha as [_ Ht].
  apply String.eqb_eq in Ht. rewrite Ht. now apply String.eqb_neq.
Qed.

Lemma get_pricing_info_no_unit db ty :
  of_type ty (apartments db) = [] -> get_pricing_info None db !! ty = None.
Proof.
  intros E. unfold get_pricing_info. simpl. rewrite lookup_fmap.
  pose proof (group_by_type_lookup (apartments db) ty) as H.
  destruct (group_by_type (apartments db) !! ty) as [g|]; simpl; [|reflexivity].
  destruct H as [H _]. contradiction.
Qed.

Lemma get_pricing_info_one_type db t ty :
  t <> "" ->
  get_pricing_info (Some t) db !! ty
  = if String.eqb ty t then get_pricing_info None db !! ty else None.
Proof.
  intros Ht. unfold get_pricing_info. rewrite (truthy_some t Ht). simpl.
  change (List.filter _ (apartments db)) with (of_type t (apartments db)).
  rewrite !lookup_fmap.
  destruct (String.eqb_spec ty t) as [-> | Hne].
  - now rewrite <- group_by_type_of_type.
  - rewrite group_by_type_of_type, (of_type_other ty t _ Hne). reflexivity.
Qed.



(** ** Counting and grouping *)

Lemma count_by_type_snoc rows a :
  count_by_type (rows ++ [a])
  = <[Apartments.apartment_type a :=
        default 0 (count_by_type rows !! Apartments.apartment_type a) + 1]>
      (count_by_type rows).
Proof. unfold count_by_type. now rewrite foldl_app. Qed.

Lemma count_by_type_lookup rows ty :
  count_by_type rows !! ty
  = match of_type ty rows with
    | [] => None
    | g => Some (Z.of_nat (length g))
    end.
Proof.
  induction rows as [|a rows IH] using rev_ind; [reflexivity|].
  rewrite count_by_type_snoc, of_type_snoc.
  destruct (String.eqb_spec (Apartments.apartment_type a) ty) as [-> | Hne].
  - rewrite lookup_insert_eq, IH.
    destruct (of_type ty rows) as [|b g]; simpl; [reflexivity|].
    f_equal. rewrite length_app. simpl. lia.
  - rewrite lookup_insert_ne by assumption. now rewrite app_nil_r.
Qed.

Lemma total_count_by_type rows :
  total_count (count_by_type rows) = Z.of_nat (length rows).
Proof.
  unfold total_count.
  induction rows as [|a rows IH] using rev_ind; [reflexivity|].
  rewrite count_by_type_snoc, length_app. simpl.
  set (t := Apartments.apartment_type a). set (c := count_by_type rows) in *.
  destruct (c !! t) as [n|] eqn:E; simpl.
  - rewrite <- insert_delete_eq.
    rewrite map_fold_insert_L; [|intros; lia | apply lookup_delete_eq].
    rewrite (map_fold_delete_L _ _ t n c) in IH; [|intros; lia | exact E]. lia.
  - rewrite map_fold_insert_L; [|intros; lia | exact E]. lia.
Qed.

(** X10. In the answer of [query_apartments], [apartments] are the dicts
    of the units selected for the type and the mapped date,
    [available_count] is their number, and [counts_by_type] has, for each
    type with a selected unit and for no other type, the number of selected
    units of that type; the counts add up to [available_count]. *)
Theorem query_apartments_counts apartment_type move_in_date tool_context db :
  let rows := available_rows apartment_type
                (formatted_move_in_date move_in_date) db in
  let payload := (query_apartments apartment_type move_in_date tool_context db).2 in
  payload !! "status" = Some (PyStr "success")
  /\ payload !! "apartments" = Some (PyList (PyDict ∘ apartment_dict <$> rows))
  /\ payload !! "available_count" = Some (PyInt (Z.of_nat (length rows)))
  /\ payload !! "counts_by_type" = Some (PyDict (PyInt <$> count_by_type rows))
  /\ (forall ty,
        count_by_type rows !! ty
        = match of_type ty rows with
          | [] => None
          | g => Some (Z.of_nat (length g))
          end)
  /\ total_count (count_by_type rows) = Z.of_nat (length rows).
Proof.
  cbv zeta. unfold query_apartments, get_available_apartments. simpl.
  repeat split; try reflexivity.
  - rewrite <- list_fmap_compose. reflexivity.
  - now rewrite length_fmap.
  - apply count_by_type_lookup.
  - apply total_count_by_type.
Qed.

Lemma by_category_snoc rows m :
  by_category (rows ++ [m])
  = <[Amenities.category m :=
        default [] (by_category rows !! Amenities.category m) ++ [m]]>
      (by_category rows).
Proof. unfold by_category. now rewrite foldl_app. Qed.

Lemma of_category_snoc cat rows m :
  of_category cat (rows ++ [m])
  = of_category cat rows
    ++ (if String.eqb (Amenities.category m) cat then [m] else []).
Proof. unfold of_category. now rewrite List.filter_app. Qed.

Lemma by_category_lookup rows cat :
  by_category rows !! cat
  = match of_category cat rows with
    | [] => None
    | g => Some g
    end.
Proof.
  induction rows as [|m rows IH] using rev_ind; [reflexivity|].
  rewrite by_category_snoc, of_category_snoc.
  destruct (String.eqb_spec (Amenities.category m) cat) as [-> | Hne].
  - rewrite lookup_insert_eq, IH.
    now destruct (of_category cat rows).
  - rewrite lookup_insert_ne by assumption. now rewrite app_nil_r.
Qed.

Lemma amenity_rows_category c table :
  c <> "" -> amenity_rows (Some c) table = of_category c table.
Proof.
  intros Hc. unfold amenity_rows. now rewrite (truthy_some c Hc).
Qed.

(** X11. [get_amenities_info] groups the amenities it selected by
    category: the group of a category holds the selected amenities of that
    category, in storage order, and a category without one has no group.
    With a non-empty category argument the selected amenities are those of
    that category, so that there is at most that one group; with none, or
    an empty one, all amenities are selected. *)
Theorem get_amenities_info_groups category tool_context table :
  let rows := amenity_rows category table in
  let payload := (get_amenities_info category tool_context table).2 in
  payload !! "status" = Some (PyStr "success")
  /\ payload !! "amenities" = Some (PyList (PyDict ∘ amenity_dict <$> rows))
  /\ payload !! "amenities_count" = Some (PyInt (Z.of_nat (length rows)))
  /\ payload !! "categories"
     = Some (PyDict ((fun g => PyList (PyDict ∘ amenity_dict <$> g))
                     <$> by_category rows))
  /\ (forall cat,
        by_category rows !! cat
        = match of_category cat rows with
          | [] => None
          | g => Some g
          end)
  /\ (forall c, category = Some c -> c <> "" ->
        rows = of_category c table
        /\ forall cat, cat <> c -> by_category rows !! cat = None)
  /\ (category = None \/ category = Some "" -> rows = table).
Proof.
  cbv zeta. unfold get_amenities_info, get_amenities. simpl.
  repeat split; try reflexivity.
  - now rewrite <- list_fmap_compose.
  - now rewrite length_fmap.
  - apply by_category_lookup.
  - subst. now apply amenity_rows_category.
  - intros cat Hne. subst. rewrite by_category_lookup, amenity_rows_category by assumption.
    unfold of_category. rewrite filter_no_match; [reflexivity|].
    apply Forall_forall. intros m Hm.
    apply list_elem_of_In, filter_In in Hm as [_ Hm]. apply String.eqb_eq in Hm.
    rewrite Hm. apply String.eqb_neq. congruence.
  - intros [-> | ->]; reflexivity.
Qed.

Lemma get_amenities_info_groups_witness :
  amenity_rows (Some "Building") amenities_data
  = of_category "Building" amenities_data
  /\ by_category (amenity_rows (Some "Building") amenities_data) !! "Pets" = None
  /\ Amenities.id <$> amenity_rows (Some "Building") amenities_data = [3; 7].
Proof.
  destruct (get_amenities_info_groups (Some "Building") None amenities_data)
    as (_ & _ & _ & _ & _ & H & _).
  destruct (H "Building" eq_refl) as [H1 H2]; [discriminate|].
  split; [exact H1|]. split; [apply H2; discriminate | reflexivity].
Defined.

(** ** The outcomes of the tour-scheduling tool *)

Lemma get_apartment_by_id_found a db :
  a ∈ apartments db ->
  NoDup (Apartments.id <$> apartments db) ->
  int64 (Apartments.id a) ->
  get_apartment_by_id (PyInt (Apartments.id a)) db = Ok (apartment_dict a).
Proof.
  intros Hin Hnd Hz. unfold get_apartment_by_id. rewrite (bind_param_int _ Hz).
  cbv beta iota delta [mbind result_bind]. simpl sql_eq.
  now rewrite (filter_unique Apartments.id (apartments db) a Hnd Hin).
Qed.

Lemma get_apartment_by_id_missing z db :
  int64 z ->
  Forall (fun a => Apartments.id a <> z) (apartments db) ->
  get_apartment_by_id (PyInt z) db = Ok ∅.
Proof.
  intros Hz Hno. unfold get_apartment_by_id. rewrite (bind_param_int z Hz).
  cbv beta iota delta [mbind result_bind]. rewrite filter_no_match; [reflexivity|].
  eapply Forall_impl; [exact Hno|]. intros a Ha. simpl. now apply Z.eqb_neq.
Qed.

Lemma tour_apartment_details_ok chosen db apt :
  bind_param chosen = Ok apt ->
  exists details, tour_apartment_details chosen db = Ok details.
Proof.
  intros Hb. unfold tour_apartment_details, get_apartment_by_id. rewrite Hb.
  cbv beta iota delta [mbind result_bind].
  destruct (truthy chosen); [|eauto].
  destruct (List.filter _ _); destruct (truthy (PyDict _)); eauto.
Qed.

(** The tool, once the prospect is known and the time has parsed. *)
Lemma schedule_property_tour_run rt tour_date tour_time is_virtual apartment_id
    apartment_type notes tool_context db user_id formatted_time :
  default PyNone (session_user (ensure_state tool_context)) = user_id ->
  truthy user_id = true ->
  parse_time tour_time = Some formatted_time ->
  let chosen := choose_apartment apartment_id apartment_type db in
  schedule_property_tour rt tour_date tour_time is_virtual apartment_id
    apartment_type notes tool_context db
  = match bind_param user_id, bind_param chosen with
    | Ok uid, Ok apt =>
        match uid with
        | Null =>
            Ok (context_of (ensure_state tool_context), db,
                error_payload "Failed to schedule tour")
        | _ =>
            let t := tour_row rt uid tour_date formatted_time apt is_virtual
                       notes db in
            details ← tour_apartment_details chosen db;
            Ok (context_of
                  ((fun s =>
                      <["last_scheduled_tour" :=
                          PyDict (list_to_map
                            [ ("tour_id", PyInt (Tours.id t));
                              ("tour_date", PyStr (parse_date rt tour_date));
                              ("tour_time", PyStr formatted_time);
                              ("apartment_id", chosen);
                              ("apartment_type", py_str apartment_type);
                              ("is_virtual", PyBool is_virtual) ])]> s)
                   <$> ensure_state tool_context),
                booked db t,
                list_to_map
                  [ ("status", PyStr "success");
                    ("tour_id", PyInt (Tours.id t));
                    ("tour_date", PyStr (parse_date rt tour_date));
                    ("tour_time", PyStr formatted_time);
                    ("is_virtual", PyBool is_virtual);
                    ("apartment_details", details);
                    ("message", PyStr "Tour scheduled successfully") ])
        end
    | _, _ =>
        Ok (context_of (ensure_state tool_context), db,
            error_payload "Failed to schedule tour")
    end.
Proof.
  intros Hid Htr Htime. cbv zeta. unfold schedule_property_tour.
  rewrite Hid, Htr, Htime. simpl negb. cbv iota.
  unfold schedule_tour, insert_tour.
  destruct (bind_param user_id) as [uid|]; [|reflexivity].
  destruct (bind_param (choose_apartment apartment_id apartment_type db))
    as [apt|]; cbv beta iota delta [mbind result_bind]; [|now destruct uid].
  pose proof (next_rowid_pos (Tours.id <$> tours db)) as Hpos.
  apply Z.ltb_lt in Hpos.
  destruct uid; try reflexivity; cbv beta iota; rewrite Hpos; reflexivity.
Qed.

(** X12. [schedule_property_tour] never raises, and its answer tells what
    it did to the store: with an error payload the store and the session
    state are as they were (no prospect identified, a time that does not
    parse, or a failed insertion); with a success payload the store has
    exactly one more booking, whose id the payload reports, with the parsed
    date and time, the status "Scheduled", the virtual flag and notes
    given and the identifier of the session's prospect, and nothing else is
    changed. *)
Theorem schedule_property_tour_outcome rt tour_date tour_time is_virtual
    apartment_id apartment_type notes tool_context db :
  exists ctx' db' payload,
    schedule_property_tour rt tour_date tour_time is_virtual apartment_id
      apartment_type notes tool_context db = Ok (ctx', db', payload)
    /\ ((payload !! "status" = Some (PyStr "error")
         /\ db' = db
         /\ ctx' = context_of (ensure_state tool_context))
        \/ (payload !! "status" = Some (PyStr "success")
            /\ exists t,
                 db' = booked db t
                 /\ Tours.id t = next_rowid (Tours.id <$> tours db)
                 /\ payload !! "tour_id" = Some (PyInt (Tours.id t))
                 /\ Tours.tour_date t = parse_date rt tour_date
                 /\ parse_time tour_time = Some (Tours.tour_time t)
                 /\ Tours.status t = "Scheduled"
                 /\ Tours.is_virtual t = (if is_virtual then 1 else 0)
                 /\ Tours.notes t = sql_text notes
                 /\ forall u,
                      session_user (ensure_state tool_context) = Some (PyStr u) ->
                      Tours.user_id t = Text u)).
Proof.
  destruct (truthy (default PyNone (session_user (ensure_state tool_context))))
    eqn:Htr.
  2:{ unfold schedule_property_tour. rewrite Htr. simpl.
      eexists _, _, _. split; [reflexivity|]. left. repeat split. }
  destruct (parse_time tour_time) as [ft|] eqn:Htime.
  2:{ unfold schedule_property_tour. rewrite Htr, Htime. simpl.
      eexists _, _, _. split; [reflexivity|]. left. repeat split. }
  rewrite (schedule_property_tour_run rt tour_date tour_time is_virtual
             apartment_id apartment_type notes tool_context db _ ft eq_refl Htr
             Htime).
  cbv zeta.
  destruct (bind_param (default PyNone _)) as [uid|] eqn:Hu;
    [|eexists _, _, _; split; [reflexivity|]; left; repeat split].
  destruct (bind_param (choose_apartment _ _ _)) as [apt|] eqn:Ha;
    [|eexists _, _, _; split; [reflexivity|]; left; repeat split].
  destruct (tour_apartment_details_ok _ db apt Ha) as [details Hd].
  destruct uid;
    [eexists _, _, _; split; [reflexivity|]; left; repeat split | | |];
    rewrite Hd; cbv beta iota delta [mbind result_bind];
    (eexists _, _, _; split; [reflexivity|]); right;
    (split; [reflexivity|]); eexists; repeat split;
    intros u Hs; rewrite Hs in Hu; simpl in Hu; unfold tour_row; simpl;
    congruence.
Qed.

Lemma session_user_identified tool_context s uid :
  ensure_state tool_context = Some s ->
  s !! "current_user_id" = Some (PyStr uid) ->
  default PyNone (session_user (ensure_state tool_context)) = PyStr uid.
Proof. intros -> H. unfold session_user. simpl. now rewrite H. Qed.

(** X13. Asked for a type without a unit id, [schedule_property_tour]
    books the first available unit of that type in storage order: with an
    identified prospect, a time that parses, unique unit ids and [a] the
    first unit the store lists as available for the type, the new booking
    refers to [a], and the payload describes [a] (unit number, type, floor
    plan, bedrooms, bathrooms), provided the id of [a] is a 64-bit integer
    other than 0. *)
Theorem schedule_property_tour_first_available rt tour_date tour_time
    is_virtual apartment_id ty notes tool_context db s uid formatted_time a rest :
  ensure_state tool_context = Some s ->
  s !! "current_user_id" = Some (PyStr uid) ->
  uid <> "" ->
  parse_time tour_time = Some formatted_time ->
  apartment_id = None \/ apartment_id = Some 0 ->
  ty <> "" ->
  available_rows (Some ty) None db = a :: rest ->
  NoDup (Apartments.id <$> apartments db) ->
  int64 (Apartments.id a) ->
  Apartments.id a <> 0 ->
  exists ctx' payload,
    schedule_property_tour rt tour_date tour_time is_virtual apartment_id
      (Some ty) notes tool_context db
    = Ok (ctx',
          booked db (tour_row rt (Text uid) tour_date formatted_time
                       (Integer (Apartments.id a)) is_virtual notes db),
          payload)
    /\ payload !! "status" = Some (PyStr "success")
    /\ payload !! "apartment_details"
       = Some (PyDict (list_to_map
           [ ("unit_number", PyStr (Apartments.unit_number a));
             ("apartment_type", PyStr ty);
             ("floor_plan", py_str (Apartments.floor_plan a));
             ("bedrooms", PyInt (Apartments.bedrooms a));
             ("bathrooms", PyFloat (Apartments.bathrooms a)) ]))
    /\ Apartments.is_available a = 1
    /\ Apartments.apartment_type a = ty.
Proof.
  intros Hst Hid Hne Htime Hno Hty Hav Hnd Hz Hnz.
  assert (a ∈ available_rows (Some ty) None db) as Hin by (rewrite Hav; constructor).
  unfold available_rows in Hin.
  apply list_elem_of_In, filter_In in Hin as [Hin Hp]. apply list_elem_of_In in Hin.
  rewrite (truthy_some ty Hty) in Hp. simpl in Hp.
  rewrite !andb_true_iff, Z.eqb_eq, String.eqb_eq in Hp.
  destruct Hp as [[Hflag Htype] _].
  assert (choose_apartment apartment_id (Some ty) db = PyInt (Apartments.id a))
    as Hch.
  { unfold choose_apartment. rewrite (truthy_some ty Hty), Hav.
    now destruct Hno as [-> | ->]. }
  rewrite (schedule_property_tour_run rt tour_date tour_time is_virtual
             apartment_id (Some ty) notes tool_context db (PyStr uid)
             formatted_time (session_user_identified _ _ _ Hst Hid)
             (truthy_str _ Hne) Htime).
  cbv zeta. rewrite Hch, (bind_param_int _ Hz). simpl bind_param. cbv iota.
  assert (tour_apartment_details (PyInt (Apartments.id a)) db
          = Ok (PyDict (list_to_map
              [ ("unit_number", PyStr (Apartments.unit_number a));
                ("apartment_type", PyStr ty);
                ("floor_plan", py_str (Apartments.floor_plan a));
                ("bedrooms", PyInt (Apartments.bedrooms a));
                ("bathrooms", PyFloat (Apartments.bathrooms a)) ]))) as ->.
  { unfold tour_apartment_details.
    rewrite (get_apartment_by_id_found a db Hin Hnd Hz).
    cbv beta iota delta [mbind result_bind].
    change (truthy (PyDict (apartment_dict a))) with true. cbv iota.
    rewrite <- Htype.
    destruct (truthy (PyInt (Apartments.id a))) eqn:T; [reflexivity|].
    simpl in T. apply negb_false_iff, Z.eqb_eq in T. contradiction. }
  cbv beta iota delta [mbind result_bind].
  eexists _, _. split; [reflexivity|]. repeat split; assumption.
Qed.

Lemma schedule_property_tour_first_available_witness :
  exists ctx' payload,
    schedule_property_tour sample_runtime "tomorrow" "3pm" false None
      (Some "1_bedroom") None identified_context initial_db
    = Ok (ctx',
          booked initial_db
            (tour_row sample_runtime (Text (uuid4 sample_runtime)) "tomorrow"
               "15:00" (Integer 101) false None initial_db),
          payload)
    /\ payload !! "status" = Some (PyStr "success")
    /\ payload !! "apartment_details"
       = Some (PyDict (list_to_map
           [ ("unit_number", PyStr "101");
             ("apartment_type", PyStr "1_bedroom");
             ("floor_plan", PyStr "Maple");
             ("bedrooms", PyInt 1);
             ("bathrooms", PyFloat 1) ])).
Proof.
  edestruct (schedule_property_tour_first_available sample_runtime "tomorrow"
               "3pm" false None "1_bedroom" None identified_context initial_db)
    as (ctx' & payload & H1 & H2 & H3 & _).
  - reflexivity.
  - reflexivity.
  - discriminate.
  - reflexivity.
  - now left.
  - discriminate.
  - reflexivity.
  - apply (bool_decide_unpack _). vm_compute. exact I.
  - unfold int64. simpl. lia.
  - discriminate.
  - exists ctx', payload. auto.
Defined.

(** X14. An explicit unit id other than 0 is booked as given, whatever the
    type argument and whether or not a unit has that id (the reference is
    not checked against the units): with an identified prospect and a time
    that parses, the booking refers to the id, and when no unit has the id
    the tool still reports success, with [apartment_details] being
    [None]. *)
Theorem schedule_property_tour_explicit_unit rt tour_date tour_time is_virtual
    z apartment_type notes tool_context db s uid formatted_time :
  ensure_state tool_context = Some s ->
  s !! "current_user_id" = Some (PyStr uid) ->
  uid <> "" ->
  parse_time tour_time = Some formatted_time ->
  int64 z ->
  z <> 0 ->
  exists ctx' payload,
    schedule_property_tour rt tour_date tour_time is_virtual (Some z)
      apartment_type notes tool_context db
    = Ok (ctx',
          booked db (tour_row rt (Text uid) tour_date formatted_time
                       (Integer z) is_virtual notes db),
          payload)
    /\ payload !! "status" = Some (PyStr "success")
    /\ (Forall (fun a => Apartments.id a <> z) (apartments db) ->
        payload !! "apartment_details" = Some PyNone).
Proof.
  intros Hst Hid Hne Htime Hz Hnz.
  assert (choose_apartment (Some z) apartment_type db = PyInt z) as Hch.
  { unfold choose_apartment. simpl.
    destruct (Z.eqb_spec z 0); [contradiction | reflexivity]. }
  rewrite (schedule_property_tour_run rt tour_date tour_time is_virtual
             (Some z) apartment_type notes tool_context db (PyStr uid)
             formatted_time (session_user_identified _ _ _ Hst Hid)
             (truthy_str _ Hne) Htime).
  cbv zeta. rewrite Hch, (bind_param_int _ Hz). simpl bind_param. cbv iota.
  destruct (tour_apartment_details_ok (PyInt z) db _ (bind_param_int _ Hz))
    as [details Hd].
  rewrite Hd. cbv beta iota delta [mbind result_bind].
  eexists _, _. split; [reflexivity|]. split; [reflexivity|].
  intros Hno. revert Hd. unfold tour_apartment_details.
  rewrite (get_apartment_by_id_missing z db Hz Hno).
  cbv beta iota delta [mbind result_bind].
  destruct (truthy (PyInt z)); intros [= <-]; reflexivity.
Qed.

Lemma schedule_property_tour_explicit_unit_witness :
  exists ctx' payload,
    schedule_property_tour sample_runtime "2025-06-20" "10am" false (Some 999)
      (Some "1_bedroom") None identified_context initial_db
    = Ok (ctx',
          booked initial_db
            (tour_row sample_runtime (Text (uuid4 sample_runtime)) "2025-06-20"
               "10:00" (Integer 999) false None initial_db),
          payload)
    /\ payload !! "status" = Some (PyStr "success")
    /\ payload !! "apartment_details" = Some PyNone.
Proof.
  edestruct (schedule_property_tour_explicit_unit sample_runtime "2025-06-20"
               "10am" false 999 (Some "1_bedroom") None identified_context
               initial_db)
    as (ctx' & payload & H1 & H2 & H3).
  - reflexivity.
  - reflexivity.
  - discriminate.
  - reflexivity.
  - unfold int64. lia.
  - discriminate.
  - exists ctx', payload. split; [exact H1|]. split; [exact H2|].
    apply H3. repeat constructor; discriminate.
Defined.

(** ** The prospect-management tool and the store *)

Lemma action_cases action :
  action = "create" \/ action = "update" \/ action = "get"
  \/ (String.eqb action "create" = false /\ String.eqb action "update" = false
      /\ String.eqb action "get" = false).
Proof.
  destruct (String.eqb_spec action "create"); [auto|].
  destruct (String.eqb_spec action "update"); [auto|].
  destruct (String.eqb_spec action "get"); auto 10.
Qed.

(** X15. Whatever [manage_user] is asked, when it returns, the units and
    the bookings are untouched; [create] appends exactly the new prospect,
    under the generated identifier, which no prospect had; [update] keeps
    the row ids, identifiers and creation times of all prospects, in order;
    [get] and an unknown action leave the store as it was, and an unknown
    action is answered by an error payload naming it. *)
Theorem manage_user_frame rt action user_id name phone email move_in_date ty
    has_pets income credit_score notes tool_context db ctx' db' payload :
  manage_user rt action user_id name phone email move_in_date ty has_pets
    income credit_score notes tool_context db = Ok (ctx', db', payload) ->
  apartments db' = apartments db
  /\ tours db' = tours db
  /\ (action = "create" ->
      users db' = users db
                  ++ [created_row rt name phone email
                        (formatted_move_in_date move_in_date) ty has_pets db]
      /\ (uuid4 rt ∉ (Users.user_id <$> users db)))
  /\ (action = "update" ->
      Users.user_id <$> users db' = Users.user_id <$> users db
      /\ Users.id <$> users db' = Users.id <$> users db
      /\ Users.created_at <$> users db' = Users.created_at <$> users db)
  /\ (action <> "create" -> action <> "update" -> db' = db)
  /\ (action <> "create" -> action <> "update" -> action <> "get" ->
      ctx' = context_of (ensure_state tool_context)
      /\ payload = error_payload ("Unknown action: " +:+ action)).
Proof.
  intros H.
  assert (Hunk : action <> "create" -> action <> "update" -> action <> "get" ->
                 ctx' = context_of (ensure_state tool_context)
                 /\ payload = error_payload ("Unknown action: " +:+ action)).
  { intros Hc Hu Hg. revert H. unfold manage_user.
    apply String.eqb_neq in Hc, Hu, Hg. rewrite Hc, Hu, Hg.
    now intros [= <- _ <-]. }
  assert (Hget : action <> "create" -> action <> "update" -> db' = db).
  { intros Hc Hu.
    pose proof (manage_user_store _ _ _ _ _ _ _ _ _ _ _ _ _ _ _ _ _ H)
      as [-> | [[-> _] | [-> _]]]; congruence. }
  assert (Hcre : action = "create" ->
                 create_user rt name phone email
                   (formatted_move_in_date move_in_date) ty has_pets db
                 = Ok (db', uuid4 rt)).
  { intros ->. revert H. unfold manage_user.
    change (String.eqb "create" "create") with true. cbv iota.
    destruct (create_user _ _ _ _ _ _ _ _) as [[db1 u]|] eqn:C; [|discriminate].
    pose proof (create_user_inv _ _ _ _ _ _ _ _ _ _ C) as (-> & _).
    cbv beta iota delta [mbind result_bind].
    destruct (truthy _); now intros [= _ <- _]. }
  assert (Hupd : action = "update" ->
                 db' = db \/ exists uid ok,
                   update_user rt uid
                     (update_fields name phone email
                        (formatted_move_in_date move_in_date) ty has_pets income
                        credit_score notes) db = Ok (db', ok)).
  { intros ->.
    pose proof (manage_user_store _ _ _ _ _ _ _ _ _ _ _ _ _ _ _ _ _ H)
      as [-> | [[? _] | [_ ?]]]; [now left|discriminate|now right]. }
  assert (Hfr : apartments db' = apartments db /\ tours db' = tours db).
  { pose proof (manage_user_store _ _ _ _ _ _ _ _ _ _ _ _ _ _ _ _ _ H)
      as [-> | [[_ Hc] | [_ (uid & ok & Hu)]]]; [now split| |].
    - now apply create_user_inv in Hc as (_ & _ & ->).
    - now apply update_user_inv in Hu as (? & ? & _). }
  destruct Hfr as [Ha Ht].
  split; [exact Ha|]. split; [exact Ht|].
  split; [|split; [|split; [exact Hget|exact Hunk]]].
  - intros Hc. apply Hcre in Hc.
    now apply create_user_inv in Hc as (_ & ? & ->).
  - intros Hu. destruct (Hupd Hu) as [-> | (uid & ok & U)]; [now repeat split|].
    exact (update_user_keeps_ids _ _ _ _ _ _ U).
Qed.

Lemma manage_user_frame_witness :
  exists ctx' db' payload,
    manage_user sample_runtime "delete" (Some "x") None None None None None None
      None None None fresh_context one_prospect_db = Ok (ctx', db', payload)
    /\ db' = one_prospect_db
    /\ payload = error_payload "Unknown action: delete".
Proof.
  eexists _, _, _. split; [reflexivity|].
  destruct (manage_user_frame sample_runtime "delete" (Some "x") None None
              None None None None None None None fresh_context
              one_prospect_db _ _ _ eq_refl) as (_ & _ & _ & _ & Hg & Hu).
  split; [apply Hg; discriminate|apply Hu; discriminate].
Defined.

Lemma update_fields_nothing name phone email ty income credit_score notes :
  truthy (py_str name) = false ->
  truthy (py_str phone) = false ->
  truthy (py_str email) = false ->
  truthy (py_str ty) = false ->
  truthy (py_float income) = false ->
  truthy (py_int_opt credit_score) = false ->
  truthy (py_str notes) = false ->
  update_fields name phone email None ty None income credit_score notes = ∅.
Proof.
  unfold update_fields, set_if. now intros -> -> -> -> -> -> ->.
Qed.

(** X16. An [update] in which every field is absent or falsy (an empty
    string, a zero income or score, no pet flag, a move-in hint that names
    neither July nor August) fails with "Failed to update user information"
    even when the prospect exists: nothing is written, not even the contact
    time, and the session state is left as it was. *)
Theorem manage_user_update_nothing rt user_id name phone email move_in_date ty
    income credit_score notes tool_context db :
  truthy (resolve_user_id user_id (ensure_state tool_context)) = true ->
  truthy (py_str name) = false ->
  truthy (py_str phone) = false ->
  truthy (py_str email) = false ->
  formatted_move_in_date move_in_date = None ->
  truthy (py_str ty) = false ->
  truthy (py_float income) = false ->
  truthy (py_int_opt credit_score) = false ->
  truthy (py_str notes) = false ->
  manage_user rt "update" user_id name phone email move_in_date ty None income
    credit_score notes tool_context db
  = Ok (context_of (ensure_state tool_context), db,
        error_payload "Failed to update user information").
Proof.
  intros Hid Hn Hp He Hd Ht Hi Hc Ho. unfold manage_user.
  change (String.eqb "update" "create") with false.
  change (String.eqb "update" "update") with true. cbv iota.
  rewrite Hid, Hd. cbv [negb].
  rewrite (update_fields_nothing _ _ _ _ _ _ _ Hn Hp He Ht Hi Hc Ho).
  unfold update_user. rewrite map_size_empty. reflexivity.
Qed.

Lemma manage_user_update_nothing_witness :
  manage_user sample_runtime "update" (Some "3f2b8c1e-0000-4000-8000-000000000001") (Some "") None None
    (Some "2025-09-01") None None (Some 0%Q) (Some 0) None fresh_context
    one_prospect_db
  = Ok (context_of (ensure_state fresh_context), one_prospect_db,
        error_payload "Failed to update user information").
Proof.
  apply (manage_user_update_nothing sample_runtime (Some "3f2b8c1e-0000-4000-8000-000000000001") (Some "") None
           None (Some "2025-09-01") None (Some 0%Q) (Some 0) None fresh_context
           one_prospect_db); reflexivity.
Defined.

Lemma unknown_id_no_match uid us :
  uid ∉ (Users.user_id <$> us) ->
  Forall (fun u => user_matches (Text uid) u = false) us.
Proof.
  intros H. apply Forall_forall. intros u Hu. unfold user_matches. simpl.
  apply String.eqb_neq. intros E. apply H. rewrite <- E.
  now apply list_elem_of_fmap_2.
Qed.

Lemma update_fields_bindable name phone email formatted_date ty has_pets
    income credit_score notes :
  (forall n, credit_score = Some n -> int64 n) ->
  forall k v,
    update_fields name phone email formatted_date ty has_pets income
      credit_score notes !! k = Some v ->
    bindable v.
Proof.
  intros Hc k v. unfold update_fields.
  assert (forall o : option string, bindable (py_str o)) as Hs
    by (intros [s|]; eexists; reflexivity).
  assert (bindable (py_float income)) as Hi
    by (destruct income; eexists; reflexivity).
  assert (bindable (py_bool has_pets)) as Hp
    by (destruct has_pets; eexists; reflexivity).
  assert (bindable (py_int_opt credit_score)) as Hn.
  { destruct credit_score as [n|]; [|eexists; reflexivity].
    destruct (Hc n eq_refl) as [Hlo Hhi]. exists (Integer n). simpl.
    apply Z.leb_le in Hlo. apply Z.ltb_lt in Hhi. now rewrite Hlo, Hhi. }
  repeat match goal with
         | |- set_if _ ?key _ _ !! k = Some v -> _ =>
             destruct (decide (key = k)) as [<- | ?];
             [rewrite lookup_set_if_eq;
              match goal with
              | |- (if ?c then _ else _) = _ -> _ =>
                  destruct c; [now intros [= <-]|]
              end
             | rewrite lookup_set_if_ne by assumption]
         end;
    other_keys; try discriminate.
  all: repeat (rewrite ?lookup_set_if_eq;
               match goal with
               | |- (if ?c then _ else _) = _ -> _ =>
                   destruct c; [now intros [= <-]|]
               | _ => idtac
               end; other_keys); try discriminate.
Qed.

(** X17. Asking [manage_user] about an identifier no prospect has: [get]
    answers with the error "No user found with ID ..." and [update]
    (with a credit score, if any, in the 64-bit range) with "Failed to
    update user information"; in both cases the store and the session
    state are left exactly as they were. *)
Theorem manage_user_unknown_prospect rt uid name phone email move_in_date ty
    has_pets income credit_score notes tool_context db :
  uid <> "" ->
  (uid ∉ (Users.user_id <$> users db)) ->
  (forall n, credit_score = Some n -> int64 n) ->
  manage_user rt "get" (Some uid) name phone email move_in_date ty has_pets
    income credit_score notes tool_context db
  = Ok (context_of (ensure_state tool_context), db,
        error_payload ("No user found with ID " +:+ str_of rt (PyStr uid)))
  /\ manage_user rt "update" (Some uid) name phone email move_in_date ty
       has_pets income credit_score notes tool_context db
     = Ok (context_of (ensure_state tool_context), db,
           error_payload "Failed to update user information").
Proof.
  intros Hne Hun Hc.
  pose proof (unknown_id_no_match _ _ Hun) as Hno.
  assert (resolve_user_id (Some uid) (ensure_state tool_context) = PyStr uid)
    as Hres by (unfold resolve_user_id; now rewrite (truthy_some _ Hne)).
  split; unfold manage_user.
  - change (String.eqb "get" "create") with false.
    change (String.eqb "get" "update") with false.
    change (String.eqb "get" "get") with true. cbv iota.
    rewrite Hres, (truthy_str _ Hne). simpl negb. cbv iota.
    unfold get_user. simpl bind_param.
    cbv beta iota delta [mbind result_bind].
    rewrite (filter_no_match _ _ Hno). reflexivity.
  - change (String.eqb "update" "create") with false.
    change (String.eqb "update" "update") with true. cbv iota.
    rewrite Hres, (truthy_str _ Hne). simpl negb. cbv iota.
    rewrite (update_user_bound rt (PyStr uid) _ db (Text uid));
      [|apply set_clause_bindable; intros k v Hk _;
        exact (update_fields_bindable _ _ _ _ _ _ _ _ _ Hc k v Hk)
       |reflexivity].
    destruct (Nat.eqb _ 0); [reflexivity|].
    rewrite (updated_users_no_match _ _ _ _ Hno), database_eta.
    rewrite (filter_no_match _ _ Hno). reflexivity.
Qed.

Lemma manage_user_unknown_prospect_witness :
  manage_user sample_runtime "get" (Some "nobody") None None None None None
    None None None None fresh_context one_prospect_db
  = Ok (context_of (ensure_state fresh_context), one_prospect_db,
        error_payload ("No user found with ID "
                       +:+ str_of sample_runtime (PyStr "nobody")))
  /\ manage_user sample_runtime "update" (Some "nobody") (Some "Ann") None None
       None None None None None None fresh_context one_prospect_db
     = Ok (context_of (ensure_state fresh_context), one_prospect_db,
           error_payload "Failed to update user information").
Proof.
  assert ("nobody" ∉ (Users.user_id <$> users one_prospect_db)) as Hun
    by (apply (bool_decide_unpack _); vm_compute; exact I).
  split.
  - apply (manage_user_unknown_prospect sample_runtime "nobody" None None None
             None None None None None None fresh_context one_prospect_db);
      [discriminate|exact Hun|discriminate].
  - apply (manage_user_unknown_prospect sample_runtime "nobody" (Some "Ann")
             None None None None None None None None fresh_context
             one_prospect_db); [discriminate|exact Hun|discriminate].
Defined.

Lemma update_fields_name n :
  n <> "" ->
  update_fields (Some n) None None None None None None None None
  = {["name" := PyStr n]}.
Proof.
  intros Hn. unfold update_fields. rewrite (truthy_some _ Hn).
  simpl. now rewrite insert_empty.
Qed.

Lemma set_clause_name v : set_clause {["name" := v]} = {["name" := v]}.
Proof.
  apply map_eq. intros k. rewrite set_clause_lookup.
  destruct (decide (k = "name")) as [-> | Hk].
  - now rewrite lookup_singleton_eq.
  - now rewrite lookup_singleton_ne by congruence.
Qed.

(** X18. A session that creates a prospect, renames them with an [update]
    that passes no identifier, and then asks [get], again without an
    identifier: all three calls succeed on the prospect of the session,
    and the record returned (and kept as the session snapshot) has the new
    name, the other fields as created, the creation time of the first call
    and the contact time of the second. *)
Theorem manage_user_create_update_get rt1 rt2 rt3 name phone email move_in_date
    ty has_pets n tool_context s db :
  ensure_state tool_context = Some s ->
  fresh_id rt1 db ->
  uuid4 rt1 <> "" ->
  n <> "" ->
  exists ctx1 db1 p1 ctx2 db2 p2 ctx3 p3 user,
    manage_user rt1 "create" None name phone email move_in_date ty has_pets
      None None None tool_context db = Ok (ctx1, db1, p1)
    /\ manage_user rt2 "update" None (Some n) None None None None None None
         None None ctx1 db1 = Ok (ctx2, db2, p2)
    /\ p2 !! "status" = Some (PyStr "success")
    /\ manage_user rt3 "get" None None None None None None None None None None
         ctx2 db2 = Ok (ctx3, db2, p3)
    /\ p3 !! "status" = Some (PyStr "success")
    /\ p3 !! "user" = Some (PyDict user)
    /\ user_info ctx3 = Some user
    /\ user = list_to_map
                [ ("id", PyInt (next_rowid (Users.id <$> users db)));
                  ("user_id", PyStr (uuid4 rt1));
                  ("name", PyStr n);
                  ("phone", py_str phone);
                  ("email", py_str email);
                  ("move_in_date", py_str (formatted_move_in_date move_in_date));
                  ("preferred_apartment_type", py_str ty);
                  ("has_pets", py_bool has_pets);
                  ("income", PyNone);
                  ("credit_score", PyNone);
                  ("notes", PyNone);
                  ("created_at", PyStr (now rt1));
                  ("last_contact", PyStr (now rt2)) ].
Proof.
  intros Hst Hf Hid Hn.
  destruct (manage_user_create rt1 None name phone email move_in_date ty
              has_pets None None None tool_context s db Hst Hf Hid)
    as (s1 & info & Hcreate & Hcur & Hinfo & _).
  set (row := created_row rt1 name phone email
                (formatted_move_in_date move_in_date) ty has_pets db) in *.
  set (db1 := {| apartments := apartments db; users := users db ++ [row];
                 tours := tours db |}) in *.
  set (row' := apply_set {["name" := Text n]} (Text (now rt2)) row).
  set (db2 := {| apartments := apartments db; users := users db ++ [row'];
                 tours := tours db |}).
  set (s2 := <["user_info" := PyDict ({["name" := PyStr n]} ∪ info)]> s1).
  assert (Hupdate :
    manage_user rt2 "update" None (Some n) None None None None None None None
      None (Some {| state := Some s1 |}) db1
    = Ok (Some {| state := Some s2 |}, db2,
          list_to_map [ ("status", PyStr "success");
                        ("message", PyStr "User updated successfully") ])).
  { unfold manage_user.
    change (String.eqb "update" "create") with false.
    change (String.eqb "update" "update") with true. cbv iota.
    change (formatted_move_in_date None) with (@None string).
    assert (resolve_user_id None (ensure_state (Some {| state := Some s1 |}))
            = PyStr (uuid4 rt1)) as ->
      by (unfold resolve_user_id, session_user; simpl; now rewrite Hcur).
    rewrite (truthy_str _ Hid). simpl negb. cbv iota.
    rewrite (update_fields_name n Hn).
    rewrite (update_user_bound rt2 (PyStr (uuid4 rt1)) _ db1 (Text (uuid4 rt1)));
      [|rewrite set_clause_name; intros k v Hk;
        apply lookup_singleton_Some in Hk as [_ <-]; eexists; reflexivity
       |reflexivity].
    rewrite set_clause_name, map_size_singleton, map_fmap_singleton.
    change (sql_of (PyStr n)) with (Text n). simpl Nat.eqb. cbv iota.
    pose proof (fresh_id_no_match rt1 db Hf) as Hno.
    assert (user_matches (Text (uuid4 rt1)) row = true) as Hrow
      by (unfold user_matches; simpl; apply String.eqb_refl).
    unfold db1. cbn [users apartments tours]. unfold updated_users.
    rewrite fmap_app. fold (updated_users (Text (uuid4 rt1)) {["name" := Text n]}
                              (Text (now rt2)) (users db)).
    rewrite (updated_users_no_match _ _ _ _ Hno).
    simpl fmap. rewrite Hrow. fold row'.
    rewrite List.filter_app, (filter_no_match _ _ Hno). simpl List.filter.
    rewrite Hrow. simpl length.
    rewrite bool_decide_eq_true_2 by lia.
    cbv beta iota delta [mbind result_bind].
    simpl ensure_state. unfold merge_user_info. rewrite Hinfo.
    reflexivity. }
  assert (Hget : get_user (PyStr (uuid4 rt1)) db2 = Ok (user_dict row'))
    by (apply (get_user_created rt1 db row' Hf); reflexivity).
  eexists _, db1, _, _, db2, _, _, _, (user_dict row').
  split; [exact Hcreate|]. split; [exact Hupdate|]. split; [reflexivity|].
  split.
  { apply (manage_user_get_current rt3 s2 db2 (uuid4 rt1) (user_dict row'));
      [unfold s2; now rewrite lookup_insert_ne by discriminate
      |exact Hid|exact Hget|reflexivity]. }
  split; [reflexivity|]. split; [reflexivity|].
  split; [apply user_info_context, lookup_insert_eq|].
  unfold user_dict, row', row, apply_set, created_row. simpl.
  rewrite lookup_singleton_eq.
  rewrite !lookup_singleton_ne by discriminate. simpl.
  rewrite !to_py_sql_text.
  destruct has_pets as [[]|]; reflexivity.
Qed.

Lemma manage_user_create_update_get_witness :
  exists ctx1 db1 p1 ctx2 db2 p2 ctx3 p3 user,
    manage_user sample_runtime "create" None (Some "Ann") None None
      (Some "July") (Some "studio") (Some true) None None None fresh_context
      initial_db = Ok (ctx1, db1, p1)
    /\ manage_user sample_runtime "update" None (Some "Anna") None None None
         None None None None None ctx1 db1 = Ok (ctx2, db2, p2)
    /\ manage_user sample_runtime "get" None None None None None None None None
         None None ctx2 db2 = Ok (ctx3, db2, p3)
    /\ p3 !! "user" = Some (PyDict user)
    /\ user !! "name" = Some (PyStr "Anna")
    /\ user !! "move_in_date" = Some (PyStr "2025-07-01").
Proof.
  destruct (manage_user_create_update_get sample_runtime sample_runtime
              sample_runtime (Some "Ann") None None (Some "July")
              (Some "studio") (Some true) "Anna" fresh_context ∅ initial_db)
    as (ctx1 & db1 & p1 & ctx2 & db2 & p2 & ctx3 & p3 & user
        & H1 & H2 & _ & H3 & _ & Hu & _ & ->);
    [reflexivity|constructor|discriminate|discriminate|].
  exists ctx1, db1, p1, ctx2, db2, p2, ctx3, p3. eexists.
  split; [exact H1|]. split; [exact H2|]. split; [exact H3|].
  split; [exact Hu|]. split; reflexivity.
Defined.

(** ** The tools that describe units and policies *)

(** X19. [get_apartment_details] with a non-zero id looks the unit up by
    id and ignores the type argument: for a 64-bit id, the ids being
    unique, it answers with the full record of the unit that has the id,
    whether the unit is available or not, and with the error "No apartment
    found with ID ..." when no unit has it, recording the answer in the
    session state either way; for an id beyond 64 bits the call raises. *)
Theorem get_apartment_details_by_id round_2 i ty tool_context db :
  i <> 0 ->
  NoDup (Apartments.id <$> apartments db) ->
  (forall a, a ∈ apartments db -> Apartments.id a = i -> int64 i ->
     let payload := list_to_map [ ("status", PyStr "success");
                                  ("apartment", PyDict (apartment_dict a)) ] in
     get_apartment_details round_2 (Some i) ty tool_context db
     = Ok (remembered "last_apartment_details" payload tool_context, payload))
  /\ (Forall (fun a => Apartments.id a <> i) (apartments db) -> int64 i ->
      let payload := error_payload ("No apartment found with ID " +:+ format_d i) in
      get_apartment_details round_2 (Some i) ty tool_context db
      = Ok (remembered "last_apartment_details" payload tool_context, payload))
  /\ (~ int64 i ->
      get_apartment_details round_2 (Some i) ty tool_context db
      = Raise BindingError).
Proof.
  intros Hi Hnd.
  assert (truthy (py_int_opt (Some i)) = true) as Htr
    by (simpl; now apply negb_true_iff, Z.eqb_neq).
  unfold get_apartment_details. rewrite Htr.
  change (py_int_opt (Some i)) with (PyInt i).
  split; [|split].
  - intros a Hin <- Hz. cbv zeta.
    rewrite (get_apartment_by_id_found a db Hin Hnd Hz).
    reflexivity.
  - intros Hno Hz. cbv zeta.
    rewrite (get_apartment_by_id_missing i db Hz Hno).
    reflexivity.
  - intros Hz. unfold get_apartment_by_id.
    now rewrite (bind_param_int_raises i Hz).
Qed.

Lemma get_apartment_details_by_id_witness :
  (get_apartment_details id (Some 999) (Some "studio") fresh_context initial_db
   = Ok (remembered "last_apartment_details"
           (error_payload "No apartment found with ID 999") fresh_context,
         error_payload "No apartment found with ID 999"))
  /\ get_apartment_details id (Some (2 ^ 63)) None fresh_context initial_db
     = Raise BindingError.
Proof.
  assert (NoDup (Apartments.id <$> apartments initial_db)) as Hnd
    by (apply (bool_decide_unpack _); vm_compute; exact I).
  split.
  - apply (get_apartment_details_by_id id 999 (Some "studio") fresh_context
             initial_db ltac:(discriminate) Hnd).
    + apply (bool_decide_unpack _). vm_compute. exact I.
    + unfold int64. lia.
  - apply (get_apartment_details_by_id id (2 ^ 63) None fresh_context
             initial_db ltac:(discriminate) Hnd).
    unfold int64. lia.
Defined.

(** X20. [get_apartment_details] without an id, or with the id 0, and with
    a non-empty type answers from the pricing summary of that type: it
    succeeds exactly when the table has a unit of the type, available or
    not, reporting the minimum and maximum of the summary and its rounded
    average, and fails with "No pricing information found for ..."
    otherwise; the answer is recorded in the session state. *)
Theorem get_apartment_details_by_type round_2 apartment_id ty tool_context db :
  apartment_id = None \/ apartment_id = Some 0 ->
  ty <> "" ->
  exists payload,
    get_apartment_details round_2 apartment_id (Some ty) tool_context db
    = Ok (remembered "last_apartment_details" payload tool_context, payload)
    /\ match get_pricing_info None db !! ty with
       | Some p =>
           payload = list_to_map
                       [ ("status", PyStr "success");
                         ("apartment_type", PyStr ty);
                         ("pricing",
                          PyDict (list_to_map
                            [ ("min", PyFloat (min_rent p));
                              ("max", PyFloat (max_rent p));
                              ("average", PyFloat (round_2 (avg_rent p))) ])) ]
       | None =>
           payload = error_payload ("No pricing information found for " +:+ ty)
       end
    /\ (payload !! "status" = Some (PyStr "success") <->
        exists a, a ∈ apartments db /\ Apartments.apartment_type a = ty).
Proof.
  intros Hid Hty.
  assert (truthy (py_int_opt apartment_id) = false) as Hf
    by (destruct Hid as [-> | ->]; reflexivity).
  unfold get_apartment_details. rewrite Hf, (truthy_some ty Hty).
  simpl default. rewrite (get_pricing_info_one_type db ty ty Hty).
  rewrite String.eqb_refl.
  assert (of_type ty (apartments db) <> []
          <-> exists a, a ∈ apartments db /\ Apartments.apartment_type a = ty)
    as Hex.
  { unfold of_type. split.
    - destruct (List.filter _ _) as [|a l] eqn:E; [congruence|]. intros _.
      assert (In a (List.filter
                      (fun a => String.eqb (Apartments.apartment_type a) ty)
                      (apartments db))) as Ha by (rewrite E; now left).
      apply filter_In in Ha as [Hin Ht]. exists a.
      split; [now apply list_elem_of_In | now apply String.eqb_eq].
    - intros (a & Hin & Ht) E.
      assert (In a (List.filter
                      (fun a => String.eqb (Apartments.apartment_type a) ty)
                      (apartments db))) as Ha
        by (apply filter_In; split;
            [now apply list_elem_of_In | now apply String.eqb_eq]).
      now rewrite E in Ha. }
  destruct (of_type ty (apartments db)) as [|a0 l0] eqn:E.
  - rewrite (get_pricing_info_no_unit db ty E).
    eexists. split; [reflexivity|]. split; [reflexivity|].
    split; [discriminate|]. intros H. now apply Hex in H.
  - assert (of_type ty (apartments db) <> []) as Hne by now rewrite E.
    destruct (get_pricing_info_lookup None db ty (or_introl eq_refl) Hne)
      as (p & -> & _).
    eexists. split; [reflexivity|]. split; [reflexivity|].
    split; [intros _; apply Hex; congruence | reflexivity].
Qed.

Lemma get_apartment_details_by_type_witness :
  exists payload,
    get_apartment_details id (Some 0) (Some "2_bedroom") fresh_context initial_db
    = Ok (remembered "last_apartment_details" payload fresh_context, payload)
    /\ payload !! "status" = Some (PyStr "success").
Proof.
  destruct (get_apartment_details_by_type id (Some 0) "2_bedroom" fresh_context
              initial_db (or_intror eq_refl) ltac:(discriminate))
    as (payload & Hrun & _ & Hok).
  exists payload. split; [exact Hrun|].
  assert (exists a, apartments initial_db !! 4%nat = Some a
                    /\ Apartments.apartment_type a = "2_bedroom")
    as (a & Ha & Ht) by (eexists; split; reflexivity).
  apply Hok. exists a. split; [|exact Ht].
  now apply list_elem_of_lookup_2 in Ha.
Defined.

Lemma pet_policies_snoc rows m :
  pet_policies (rows ++ [m])
  = <[animal_type (Amenities.amenity_name m) := pet_policy m]> (pet_policies rows).
Proof. unfold pet_policies. now rewrite foldl_app. Qed.

Lemma pet_policies_lookup rows animal :
  pet_policies rows !! animal = pet_policy <$> last (for_animal animal rows).
Proof.
  induction rows as [|m rows IH] using rev_ind; [reflexivity|].
  rewrite pet_policies_snoc. unfold for_animal in *.
  rewrite List.filter_app. simpl.
  destruct (String.eqb_spec (animal_type (Amenities.amenity_name m)) animal)
    as [-> | Hne].
  - now rewrite lookup_insert_eq, last_snoc.
  - now rewrite lookup_insert_ne, app_nil_r by assumption.
Qed.

Lemma of_type_available_rows ty db :
  of_type ty (available_rows None None db) <> [] ->
  of_type ty (apartments db) <> [].
Proof.
  unfold of_type, available_rows.
  destruct (List.filter _ (List.filter _ _)) as [|a l] eqn:E; [congruence|].
  intros _ E'.
  assert (In a (List.filter
                  (fun a => String.eqb (Apartments.apartment_type a) ty)
                  (apartments db))) as Ha.
  { assert (In a (a :: l)) as Hin by now left.
    rewrite <- E in Hin. apply filter_In in Hin as [Hin Ht].
    apply filter_In in Hin as [Hin _]. apply filter_In. now split. }
  now rewrite E' in Ha.
Qed.

(** X21. In the answer of [get_property_policies]: each pet policy comes
    from the last amenity of the category "Pets" whose name gives that
    animal (the part of the name before the first hyphen, stripped and in
    lower case); [availability] counts, per type, the units with the
    availability flag, and has no entry for a type without one;
    [pricing_ranges] has an entry for every type of the table, so for every
    type under [availability]; and the answer is recorded in the session
    state. *)
Theorem get_property_policies_summary round_2 tool_context table db :
  let answer := get_property_policies round_2 tool_context table db in
  exists pets ranges availability,
    answer.2 !! "status" = Some (PyStr "success")
    /\ answer.2 !! "pet_policies" = Some (PyDict pets)
    /\ answer.2 !! "pricing_ranges" = Some (PyDict ranges)
    /\ answer.2 !! "availability" = Some (PyDict availability)
    /\ answer.1 = remembered "property_policies" answer.2 tool_context
    /\ (forall animal,
          pets !! animal
          = pet_policy <$> last (for_animal animal (of_category "Pets" table)))
    /\ (forall ty,
          availability !! ty
          = match of_type ty (available_rows None None db) with
            | [] => None
            | g => Some (PyInt (Z.of_nat (length g)))
            end)
    /\ (forall ty,
          ranges !! ty = pricing_range round_2 <$> get_pricing_info None db !! ty)
    /\ (forall ty, is_Some (ranges !! ty) <-> of_type ty (apartments db) <> [])
    /\ (forall ty, is_Some (availability !! ty) -> is_Some (ranges !! ty)).
Proof.
  cbv zeta. unfold get_property_policies. cbv zeta.
  set (rows := available_rows None None db).
  assert (forall ty, is_Some ((pricing_range round_2 <$> get_pricing_info None db) !! ty)
                     <-> of_type ty (apartments db) <> []) as Hranges.
  { intros ty. rewrite lookup_fmap, fmap_is_Some. split.
    - intros [p Hp] E. rewrite (get_pricing_info_no_unit db ty E) in Hp.
      discriminate.
    - intros Hne.
      destruct (get_pricing_info_lookup None db ty (or_introl eq_refl) Hne)
        as (p & -> & _). eauto. }
  assert (forall ty,
            (PyInt <$> count_by_type rows) !! ty
            = match of_type ty rows with
              | [] => None
              | g => Some (PyInt (Z.of_nat (length g)))
              end) as Havail.
  { intros ty. rewrite lookup_fmap, count_by_type_lookup.
    now destruct (of_type ty rows). }
  eexists _, _, _.
  split; [reflexivity|]. split; [reflexivity|]. split; [reflexivity|].
  split; [reflexivity|]. split; [reflexivity|].
  split; [|split; [exact Havail|split; [|split; [exact Hranges|]]]].
  - intros animal. rewrite pet_policies_lookup.
    now rewrite (amenity_rows_category "Pets" table) by discriminate.
  - intros ty. now rewrite lookup_fmap.
  - intros ty Hty. apply Hranges, of_type_available_rows. fold rows.
    rewrite Havail in Hty. destruct (of_type ty rows); [|discriminate].
    destruct Hty. discriminate.
Qed.

Lemma get_property_policies_summary_witness :
  exists pets ranges availability,
    (get_property_policies id fresh_context amenities_data initial_db).2
      !! "pet_policies" = Some (PyDict pets)
    /\ (get_property_policies id fresh_context amenities_data initial_db).2
         !! "pricing_ranges" = Some (PyDict ranges)
    /\ (get_property_policies id fresh_context amenities_data initial_db).2
         !! "availability" = Some (PyDict availability)
    /\ pets !! "dog"
       = Some (PyDict (list_to_map [ ("allowed", PyBool true);
                                     ("fee", PyFloat 50%Q);
                                     ("description", PyStr "Dogs allowed") ]))
    /\ availability !! "2_bedroom" = Some (PyInt 2)
    /\ is_Some (ranges !! "2_bedroom").
Proof.
  destruct (get_property_policies_summary id fresh_context amenities_data
              initial_db)
    as (pets & ranges & availability & _ & Hp & Hr & Ha & _ & Hpets & Hav & _
        & _ & Hsub).
  exists pets, ranges, availability.
  split; [exact Hp|]. split; [exact Hr|]. split; [exact Ha|].
  split; [rewrite Hpets; reflexivity|].
  split; [rewrite Hav; reflexivity|].
  apply Hsub. rewrite Hav. vm_compute. eauto.
Defined.

(** ** Creating and reading prospects in the store *)

Lemma filter_unique_user us u :
  NoDup (Users.user_id <$> us) -> u ∈ us ->
  List.filter (user_matches (Text (Users.user_id u))) us = [u].
Proof.
  induction us as [|x us IH]; intros Hnd Hin; [now apply elem_of_nil in Hin|].
  rewrite fmap_cons in Hnd. apply NoDup_cons in Hnd as [Hx Hnd]. simpl.
  unfold user_matches at 1. simpl.
  apply elem_of_cons in Hin as [-> | Hin].
  - rewrite String.eqb_refl. f_equal.
    apply filter_no_match, unknown_id_no_match. exact Hx.
  - destruct (String.eqb_spec (Users.user_id x) (Users.user_id u)) as [E|_].
    + exfalso. apply Hx. rewrite E. now apply list_elem_of_fmap_2.
    + now apply IH.
Qed.

(** X22. [create_user] raises the integrity error of the [UNIQUE]
    constraint when the generated identifier is already in the table;
    otherwise it returns that identifier and appends one row, leaving the
    rows that were there, the units and the bookings as they were; the new
    row gets a positive row id above all the others, null income, credit
    score and notes, and the pet flag 1, 0 or null for true, false or no
    value. *)
Theorem create_user_outcome rt name phone email move_in_date ty has_pets db :
  (uuid4 rt ∈ (Users.user_id <$> users db) ->
   create_user rt name phone email move_in_date ty has_pets db
   = Raise IntegrityError)
  /\ ((uuid4 rt ∉ (Users.user_id <$> users db)) ->
      exists new,
        create_user rt name phone email move_in_date ty has_pets db
        = Ok ({| apartments := apartments db;
                 users := users db ++ [new];
                 tours := tours db |}, uuid4 rt)
        /\ Users.user_id new = uuid4 rt
        /\ 0 < Users.id new
        /\ Forall (fun u => Users.id u < Users.id new) (users db)
        /\ Users.has_pets new = sql_of (py_int_opt
                                          ((fun b : bool => if b then 1 else 0)
                                           <$> has_pets))
        /\ Users.income new = Null
        /\ Users.credit_score new = Null
        /\ Users.notes new = Null).
Proof.
  split.
  - intros Hin. unfold create_user.
    apply list_elem_of_fmap in Hin as (u & Hu & Hin).
    assert (existsb (user_matches (Text (uuid4 rt))) (users db) = true) as ->.
    { apply existsb_exists. exists u. split; [now apply list_elem_of_In|].
      unfold user_matches. simpl. rewrite Hu. apply String.eqb_refl. }
    reflexivity.
  - intros Hun.
    assert (fresh_id rt db) as Hf.
    { apply Forall_forall. intros u Hu E. apply Hun. rewrite <- E.
      now apply list_elem_of_fmap_2. }
    exists (created_row rt name phone email move_in_date ty has_pets db).
    split; [now apply create_user_fresh|].
    split; [reflexivity|]. split; [apply next_rowid_pos|].
    split; [|split; [now destruct has_pets as [[]|]|repeat split]].
    pose proof (next_rowid_above (Users.id <$> users db)) as H.
    now rewrite Forall_fmap in H.
Qed.

Lemma create_user_outcome_witness :
  create_user sample_runtime (Some "Ann") None None None None None
    one_prospect_db = Raise IntegrityError.
Proof.
  apply (create_user_outcome sample_runtime (Some "Ann") None None None None
           None one_prospect_db).
  apply (bool_decide_unpack _). vm_compute. exact I.
Defined.

(** X23. [get_user] returns the empty dict for an identifier no prospect
    has, and for [None]; the identifiers being unique, it returns the
    record of the prospect that has the identifier, a non-empty dict with
    that identifier in which [has_pets] is [None] or a bool; it raises for
    a value SQLite cannot bind. *)
Theorem get_user_spec db :
  (forall uid, (uid ∉ (Users.user_id <$> users db)) ->
     get_user (PyStr uid) db = Ok ∅)
  /\ (forall u, u ∈ users db -> NoDup (Users.user_id <$> users db) ->
        get_user (PyStr (Users.user_id u)) db = Ok (user_dict u)
        /\ truthy (PyDict (user_dict u)) = true
        /\ user_dict u !! "user_id" = Some (PyStr (Users.user_id u))
        /\ (user_dict u !! "has_pets" = Some PyNone
            \/ exists b, user_dict u !! "has_pets" = Some (PyBool b)))
  /\ get_user PyNone db = Ok ∅
  /\ (forall v, ~ bindable v -> get_user v db = Raise BindingError).
Proof.
  split; [|split; [|split]].
  - intros uid Hun. unfold get_user. simpl bind_param.
    cbv beta iota delta [mbind result_bind].
    now rewrite (filter_no_match _ _ (unknown_id_no_match _ _ Hun)).
  - intros u Hin Hnd. split; [|split; [reflexivity|split; [reflexivity|]]].
    + unfold get_user. simpl bind_param.
      cbv beta iota delta [mbind result_bind].
      now rewrite (filter_unique_user _ u Hnd Hin).
    + assert (user_dict u !! "has_pets" = Some (has_pets_py (Users.has_pets u)))
        as -> by reflexivity.
      destruct (Users.has_pets u); simpl; eauto.
  - unfold get_user. simpl bind_param. cbv beta iota delta [mbind result_bind].
    rewrite filter_no_match; [reflexivity|]. apply Forall_forall. now intros u _.
  - intros v Hv. unfold get_user.
    destruct (bind_param v) as [b|e] eqn:E; [exfalso; apply Hv; now exists b|].
    destruct v; simpl in E; try discriminate;
      try (destruct (_ && _); discriminate || (injection E as <-; reflexivity));
      injection E as <-; reflexivity.
Qed.

Lemma get_user_spec_witness :
  get_user (PyStr "nobody") one_prospect_db = Ok ∅
  /\ get_user (PyDict ∅) one_prospect_db = Raise BindingError.
Proof.
  destruct (get_user_spec one_prospect_db) as (Hmiss & _ & _ & Hbad).
  split.
  - apply Hmiss. apply (bool_decide_unpack _). vm_compute. exact I.
  - apply Hbad. intros [b Hb]. discriminate.
Defined.
